(** * Retention-AI: the orchestration layer of the retraining pipeline

    A shallow embedding of the data-handling scripts of the repository
    ([scripts/process_upload.py], [scripts/process_new_data.py],
    [scripts/automated_pipeline.py], [scripts/reindex_user_ids.py]) and the
    properties of the merge, ingestion, counter and reindex logic.

    Modelling conventions.
    - A pandas frame is a list of named, typed columns and a list of rows;
      a row maps column names to cells.  Numbers are integers ([Z]); the
      missing value of pandas is [NaN].  The dtype of a column is either
      numeric or object, which is the only distinction the scripts make
      ([dtype != 'O']).
    - A CSV file holds a frame: writing a frame and reading it back gives
      the frame.  The text form of a CSV file is not modelled; where a
      property depends on how [read_csv] types a column, it says so
      ([Spec.read_typed]).
    - pandas holds a number as a 64-bit integer or as a float.  The
      properties of identifiers are stated for the integers that both hold
      exactly ([Spec.exact_int]).
    - A file is written in one step: opening it for writing either raises
      and changes nothing, or the file then holds the new content.  A write
      that breaks off after the file was opened is not modelled.
    - Python exceptions are values of [exn]; a computation returns its
      result or the exception together with the state it reached. *)

From Stdlib Require Import ZArith Lia Ascii.
From stdpp Require Import gmap strings list sorting pretty.

(** ** Frames *)

Module Frame.

Inductive cell :=
  | Num (z : Z)
  | Str (s : string)
  | NaN.

#[global] Instance cell_eq_dec : EqDecision cell.
Proof. solve_decision. Defined.

Inductive dtype := Numeric | Object.

#[global] Instance dtype_eq_dec : EqDecision dtype.
Proof. solve_decision. Defined.

Record DataFrame := mkFrame {
  columns : list (string * dtype);
  rows : list (gmap string cell)
}.

(** [df.columns] *)
Definition names (df : DataFrame) : list string := (columns df).*1.

(** [df[c].dtype] *)
Definition dtype_of (df : DataFrame) (c : string) : option dtype :=
  (list_to_map (columns df) : gmap string dtype) !! c.

(** [len(df)] *)
Definition len (df : DataFrame) : nat := length (rows df).

(** dtype of a column made from one scalar *)
Definition scalar_dtype (v : cell) : dtype :=
  match v with Str _ => Object | _ => Numeric end.

(** dtype of a column that holds values of both dtypes *)
Definition join_dtype (a b : dtype) : dtype :=
  match a, b with Numeric, Numeric => Numeric | _, _ => Object end.

(** [df[c] = v] for a scalar [v]: a new column goes last, an old one keeps
    its place. *)
Definition set_column (df : DataFrame) (c : string) (v : cell) : DataFrame :=
  {| columns :=
       if decide (c ∈ names df)
       then (λ p, if decide (p.1 = c) then (c, scalar_dtype v) else p) <$> columns df
       else columns df ++ [(c, scalar_dtype v)];
     rows := (λ r, <[c := v]> r) <$> rows df |}.

(** [0 if other[col].dtype != 'O' else ''] *)
Definition default_cell (dt : dtype) : cell :=
  match dt with Object => Str "" | Numeric => Num 0 end.

(** [if col not in target.columns: target[col] = default], for the column
    [p] of the other frame *)
Definition fill_step (tgt : DataFrame) (p : string * dtype) : DataFrame :=
  if decide (p.1 ∈ names tgt) then tgt else set_column tgt p.1 (default_cell p.2).

(** [for col in source.columns:
       if col not in target.columns: target[col] = default] *)
Definition fill_missing (target source : DataFrame) : DataFrame :=
  foldl fill_step target (columns source).

(** [df[cols]]: [None] is pandas' [KeyError]. *)
Definition select (df : DataFrame) (cols : list string) : option DataFrame :=
  cs ← mapM (λ c, (λ dt, (c, dt)) <$> dtype_of df c) cols;
  Some {| columns := cs;
          rows := (λ r, filter (λ kv, kv.1 ∈ cols) r) <$> rows df |}.

(** [df.drop(columns=[c], errors='ignore')] *)
Definition drop_column (df : DataFrame) (c : string) : DataFrame :=
  {| columns := filter (λ p, p.1 ≠ c) (columns df);
     rows := (λ r, delete c r) <$> rows df |}.

(** the row of missing values over the given columns *)
Definition nan_row (cs : list (string * dtype)) : gmap string cell :=
  list_to_map ((λ p, (p.1, NaN)) <$> cs).

(** [pd.concat([a, b], ignore_index=True)]: the columns of [a], then those
    only [b] has; a cell a side lacks is missing. *)
Definition concat (a b : DataFrame) : DataFrame :=
  let cs :=
    ((λ p, match dtype_of b p.1 with
           | Some dt => (p.1, join_dtype p.2 dt)
           | None => p
           end) <$> columns a)
    ++ filter (λ p, p.1 ∉ names a) (columns b) in
  {| columns := cs;
     rows := ((λ r, r ∪ nan_row cs) <$> rows a) ++ ((λ r, r ∪ nan_row cs) <$> rows b) |}.

(** [drop_duplicates(subset=[k], keep='last')]: a row stays when no later row
    has its value in column [k]. *)
Fixpoint drop_duplicates_last (k : string) (rs : list (gmap string cell))
  : list (gmap string cell) :=
  match rs with
  | [] => []
  | r :: rest =>
      if decide (r !! k ∈ (λ r', r' !! k) <$> rest)
      then drop_duplicates_last k rest
      else r :: drop_duplicates_last k rest
  end.

(** [df.drop_duplicates(subset=[k], keep='last', inplace=True)] *)
Definition drop_duplicates (df : DataFrame) (k : string) : DataFrame :=
  {| columns := columns df; rows := drop_duplicates_last k (rows df) |}.

(** A frame as [read_csv] gives it: distinct column names, and every row has
    a cell for exactly the columns. *)
Definition wf (df : DataFrame) : Prop :=
  NoDup (names df) ∧ ∀ r, r ∈ rows df → dom r = list_to_set (names df).

#[global] Instance wf_dec (df : DataFrame) : Decision (wf df).
Proof.
  refine (cast_if (decide (NoDup (names df)
            ∧ Forall (λ r, dom r = list_to_set (names df)) (rows df))));
    unfold wf; rewrite Forall_forall in *; tauto.
Defined.

(** The row of defaults of a frame: for each of its columns, the value a
    frame without that column is given for it. *)
Definition defaults_of (df : DataFrame) : gmap string cell :=
  default_cell <$> (list_to_map (columns df) : gmap string dtype).



End Frame.

(** ** The file system, exceptions and the computation monad *)

Module Sys.
Import Frame.

Inductive exn :=
  | KeyError (k : string)
  | AttributeError
  | TypeError
  | ValueError
  | ParserError (p : string)
  | FileNotFoundError (p : string)
  | PermissionError (p : string)
  | JSONDecodeError (p : string)
  | IndexError.

(** A value of the counters file. *)
Inductive jval :=
  | JInt (z : Z)
  | JStr (s : string)
  | JNull.

#[global] Instance jval_eq_dec : EqDecision jval.
Proof. solve_decision. Defined.

(** What a file holds. [Blank] is a file of size zero; [Garbled] is a file of
    positive size that neither [read_csv] nor [json.load] can parse. *)
Inductive content :=
  | Blank
  | Garbled
  | Csv (df : DataFrame)
  | Json (j : gmap string jval).

(** The state of the machine: the files by path, the paths that cannot be
    opened for writing, the lines printed and the subprocesses started (each
    one the script and its arguments), oldest first. *)
Record World := mkWorld {
  files : gmap string content;
  readonly : gset string;
  stdout : list string;
  spawned : list (list string)
}.

(** What the machine is given from outside during one run: the clock, as
    [int(time.time())] and as [datetime.now().isoformat()], and the exit
    status of each subprocess ([true] for status zero). *)
Record Env := mkEnv {
  now : Z;
  isoformat : string;
  succeeds : list string → bool
}.

Definition M (A : Type) : Type := World → (exn + A) * World.

#[global] Instance M_ret : MRet M := λ A a w, (inr a, w).

#[global] Instance M_bind : MBind M := λ A B f m w,
  match m w with
  | (inr a, w') => f a w'
  | (inl e, w') => (inl e, w')
  end.

Definition raise {A} (e : exn) : M A := λ w, (inl e, w).

(** [try: m except Exception as e: h e] *)
Definition try_except {A} (m : M A) (h : exn → M A) : M A := λ w,
  match m w with
  | (inl e, w') => h e w'
  | r => r
  end.

(** [print(line)] *)
Definition print (line : string) : M unit := λ w,
  (inr tt, {| files := files w; readonly := readonly w;
              stdout := stdout w ++ [line]; spawned := spawned w |}).

(** [p.exists()] *)
Definition path_exists (p : string) : M bool := λ w,
  (inr (bool_decide (is_Some (files w !! p))), w).

(** [p.exists() and os.path.getsize(p) > 0] *)
Definition has_data (p : string) : M bool := λ w,
  (inr match files w !! p with
       | None | Some Blank => false
       | Some _ => true
       end, w).

(** [pd.read_csv(p)] *)
Definition read_csv (p : string) : M DataFrame := λ w,
  match files w !! p with
  | Some (Csv df) => (inr df, w)
  | None => (inl (FileNotFoundError p), w)
  | Some _ => (inl (ParserError p), w)
  end.

(** writing a file: it is opened for writing, which fails on a path that
    cannot be written, and then holds the new content; no write breaks off
    half way *)
Definition write_file (p : string) (c : content) : M unit := λ w,
  if decide (p ∈ readonly w) then (inl (PermissionError p), w)
  else (inr tt, {| files := <[p := c]> (files w); readonly := readonly w;
                   stdout := stdout w; spawned := spawned w |}).

(** [df.to_csv(p, index=False)] *)
Definition to_csv (df : DataFrame) (p : string) : M unit := write_file p (Csv df).

(** [subprocess.run([sys.executable, script, *args], check=True, ...)] inside
    [try ... except CalledProcessError: return False] *)
Definition subprocess_ok (env : Env) (cmd : list string) : M bool := λ w,
  (inr (succeeds env cmd),
   {| files := files w; readonly := readonly w;
      stdout := stdout w; spawned := spawned w ++ [cmd] |}).

End Sys.

(** ** Dataset merger: [split_dataset] of [scripts/process_new_data.py] *)

Module Merger.
Import Frame Sys.

(** A path, as [pathlib] takes it apart. *)
Record Path := mkPath {
  parent : string;
  stem : string;
  suffix : string
}.

(** [str(p)] and [p.name] *)
Definition path_str (p : Path) : string := parent p +:+ "/" +:+ stem p +:+ suffix p.
Definition path_name (p : Path) : string := stem p +:+ suffix p.

Definition MODEL_A_TRAIN : Path := mkPath "datasets" "model_a_train" ".csv".
Definition MODEL_B_TRAIN : Path := mkPath "datasets" "model_b_train" ".csv".
Definition MAIN_DATASET : Path := mkPath "datasets" "main-dataset" ".csv".
Definition PREPROCESSED_UPLOADS : Path := mkPath "datasets" "user-uploads-preprocessed" ".csv".

(** The lines the scripts print leave out the pictograph that opens a
    message; an exception is quoted by the name of its class. *)
Definition exn_name (e : exn) : string :=
  match e with
  | KeyError _ => "KeyError"
  | AttributeError => "AttributeError"
  | TypeError => "TypeError"
  | ValueError => "ValueError"
  | ParserError _ => "ParserError"
  | FileNotFoundError _ => "FileNotFoundError"
  | PermissionError _ => "PermissionError"
  | JSONDecodeError _ => "JSONDecodeError"
  | IndexError => "IndexError"
  end.

Definition line_append_error (name : string) (e : exn) (fallback : string) : string :=
  "Append error for " +:+ name +:+ ": " +:+ exn_name e
  +:+ ". Wrote batch to " +:+ fallback.

(** Lines 84-89: each frame gets the columns only the other has. *)
Definition reconcile (existing_df new_df : DataFrame) : DataFrame * DataFrame :=
  let existing_df := fill_missing existing_df new_df in
  let new_df := fill_missing new_df existing_df in
  (existing_df, new_df).

(** Lines 84-92: the merged frame; [None] is a [KeyError] of the selection. *)
Definition merge (existing_df new_df : DataFrame) : option DataFrame :=
  let '(existing_df, new_df) := reconcile existing_df new_df in
  a ← select existing_df (names new_df);
  b ← select new_df (names new_df);
  let combined_df := concat a b in
  Some (if decide ("userid" ∈ names combined_df)
        then drop_duplicates combined_df "userid"
        else combined_df).

(** The [try] block of [append_or_create_csv]: the outcome and the value of
    [new_df] when the block is left.  The table is written in one step
    ([write_file]). *)
Definition append_try (new_df : DataFrame) (target : Path)
  : World → ((exn + unit) * DataFrame) * World := λ w,
  match has_data (path_str target) w with
  | (inr true, w0) =>
      match read_csv (path_str target) w0 with
      | (inl e, w1) => ((inl e, new_df), w1)
      | (inr existing_df, w1) =>
          let new_df' := (reconcile existing_df new_df).2 in
          match merge existing_df new_df with
          | Some combined_df =>
              let '(r, w2) := to_csv combined_df (path_str target) w1 in
              ((r, new_df'), w2)
          | None => ((inl (KeyError "columns"), new_df'), w1)
          end
      end
  | (_, w0) =>
      let '(r, w1) := to_csv new_df (path_str target) w0 in
      ((r, new_df), w1)
  end.

(** [target_path.parent / f"{target_path.stem}_append_error_{int(time.time())}.csv"] *)
Definition fallback_path (env : Env) (target : Path) : string :=
  parent target +:+ "/" +:+ stem target +:+ "_append_error_" +:+ pretty (now env) +:+ ".csv".

Definition append_or_create_csv (env : Env) (new_df : DataFrame) (target : Path)
  : M unit := λ w,
  match append_try new_df target w with
  | ((inr _, _), w1) => (inr tt, w1)
  | ((inl e, new_df'), w1) =>
      (to_csv new_df' (fallback_path env target);;
       print (line_append_error (path_name target) e (fallback_path env target))) w1
  end.

(** [Series.clip(upper=u)] on one cell; a string cannot be compared. *)
Definition clip_upper (u : Z) (v : cell) : cell :=
  match v with Num z => Num (Z.min z u) | _ => v end.

Definition is_str (v : option cell) : bool :=
  match v with Some (Str _) => true | _ => false end.

(** [df[cols] = df[cols].clip(upper=u)]; [None] is the [TypeError] of
    comparing a string with a number. *)
Definition clip_columns (cols : list string) (u : Z) (df : DataFrame) : option DataFrame :=
  if forallb (λ r, forallb (λ c, negb (is_str (r !! c))) cols) (rows df)
  then Some {| columns := columns df;
               rows := (λ r : gmap string cell, map_imap (λ c v,
                          Some (if decide (c ∈ cols) then clip_upper u v else v)) r)
                       <$> rows df |}
  else None.

(** Python's [str.isspace] on the ASCII range *)
Definition is_space (a : Ascii.ascii) : bool :=
  let n := Ascii.nat_of_ascii a in
  ((9 <=? n)%nat && (n <=? 13)%nat) || ((28 <=? n)%nat && (n <=? 32)%nat).

Fixpoint lstrip (s : string) : string :=
  match s with
  | String a s' => if is_space a then lstrip s' else s
  | EmptyString => EmptyString
  end.

(** [s.strip()] *)
Definition strip (s : string) : string :=
  String.rev (lstrip (String.rev (lstrip s))).

(** [df['review'].notna() & df['review'].str.strip().ne("")] on one cell: a
    cell of an object column that is not a string strips to a missing value,
    which differs from the empty string. *)
Definition review_mask (v : option cell) : bool :=
  match v with
  | Some (Str s) => bool_decide (strip s ≠ "")
  | Some (Num _) => true
  | _ => false
  end.

(** [df[mask]] *)
Definition filter_rows (P : gmap string cell → bool) (df : DataFrame) : DataFrame :=
  {| columns := columns df; rows := filter (λ r, Is_true (P r)) (rows df) |}.

(** The [.str] accessor needs an object column. *)
Definition str_accessor (df : DataFrame) (c : string) : M unit :=
  match dtype_of df c with
  | None => raise (KeyError c)
  | Some Numeric => raise AttributeError
  | Some Object => mret tt
  end.

(** Lines 66-68: the usage columns are capped at 300. *)
Definition cap_usage (df : DataFrame) : option DataFrame :=
  let day_columns := filter (λ c, Is_true (String.prefix "Day_" c)) (names df) in
  match day_columns with
  | [] => Some df
  | _ => clip_columns day_columns 300 df
  end.

(** Line 72: the rows that have a review. *)
Definition with_review (df : DataFrame) : DataFrame :=
  filter_rows (λ r, review_mask (r !! "review")) df.

(** What [split_dataset] returns: [None] is [False], otherwise the counts
    ["total"] and ["with_reviews"]. *)
Record Counts := mkCounts { total : nat; with_reviews : nat }.

Definition split_dataset (env : Env) : M (option Counts) :=
  ok ← has_data (path_str PREPROCESSED_UPLOADS);
  if negb ok then
    print "Preprocessed uploads not found or empty!";; mret None
  else
    print "Loading preprocessed uploads dataset...";;
    df ← read_csv (path_str PREPROCESSED_UPLOADS);
    df ← match cap_usage df with
         | Some df' => mret df'
         | None => raise TypeError
         end;
    print "Creating dataset for Model B (users with reviews)...";;
    str_accessor df "review";;
    let model_b_df := with_review df in
    print "Creating dataset for Model A (all users)...";;
    let model_a_df := drop_column df "review" in
    append_or_create_csv env model_a_df MODEL_A_TRAIN;;
    append_or_create_csv env model_b_df MODEL_B_TRAIN;;
    let total_len := len df in
    let with_reviews_len := len model_b_df in
    print ("Split complete (uploads batch): " +:+ pretty total_len +:+ " total users, "
           +:+ pretty with_reviews_len +:+ " with reviews");;
    mret (Some (mkCounts total_len with_reviews_len)).

End Merger.

(** ** Retrain scheduler: [process_new_data] of [scripts/process_new_data.py] *)

Module Scheduler.
Import Frame Sys Merger.

Definition FREQ_MODEL_A : Z := 20.
Definition FREQ_MODEL_B : Z := 10.

Definition TRAIN_MODEL_A : string := "scripts/train_model_a.py".
Definition TRAIN_MODEL_B : string := "scripts/train_model_b.py".
Definition CHURN_PRED_SCRIPT : string := "scripts/churn_prediction.py".
Definition EXPLAIN_ALL_SCRIPT : string := "scripts/explain_user.py".
Definition EXPLAINABLE_AI_SCRIPT : string := "scripts/explinableAI.py".
Definition COUNTER_FILE : string := "datasets/training_counters.json".

Definition line_skip_a : string :=
  "Skipping Model A training: model_a_train.csv is missing or empty".
Definition line_skip_b : string :=
  "Skipping Model B training: no rows with reviews in model_b_train.csv".

(** [load_counters]: the file's dictionary, or zero counters when there is no
    file; [json.load] raises on anything that is not JSON. *)
Definition load_counters : M (gmap string jval) := λ w,
  match files w !! COUNTER_FILE with
  | None => (inr {[ "model_a" := JInt 0; "model_b" := JInt 0 ]}, w)
  | Some (Json j) => (inr j, w)
  | Some _ => (inl (JSONDecodeError COUNTER_FILE), w)
  end.

Definition save_counters (counters : gmap string jval) : M unit :=
  write_file COUNTER_FILE (Json counters).

(** [counters[k]] as a number *)
Definition counter (counters : gmap string jval) (k : string) : M Z :=
  match counters !! k with
  | None => raise (KeyError k)
  | Some (JInt z) => mret z
  | Some _ => raise TypeError
  end.

(** [counters[k] += n] *)
Definition add_counter (counters : gmap string jval) (k : string) (n : Z)
  : M (gmap string jval) :=
  z ← counter counters k;
  mret (<[k := JInt (z + n)]> counters).

Definition train_model (env : Env) (script_path model_name : string) : M bool :=
  print ("Training " +:+ model_name +:+ "...");;
  ok ← subprocess_ok env [script_path];
  if (ok : bool) then
    print (model_name +:+ " training completed successfully!");; mret true
  else
    print ("Error training " +:+ model_name +:+ ":");; mret false.

Definition run_script (env : Env) (script_path : string) (args : list string)
    (name : string) : M bool :=
  ok ← subprocess_ok env (script_path :: args);
  if (ok : bool) then print ("[OK] " +:+ name +:+ " completed");; mret true
  else print ("[WARN] " +:+ name +:+ " failed");; mret false.

(** Lines 174-182: the check of Model A on the counters in hand. *)
Definition check_model_a (env : Env) (counters : gmap string jval)
  : M (gmap string jval) :=
  a ← counter counters "model_a";
  if bool_decide (FREQ_MODEL_A ≤ a)%Z then
    print "Time to train Model A (every 20 new records)";;
    can_train_a ← has_data (path_str MODEL_A_TRAIN);
    if (can_train_a : bool) then
      trained ← train_model env TRAIN_MODEL_A "Model A";
      if (trained : bool) then mret (<["model_a" := JInt 0]> counters) else mret counters
    else
      print line_skip_a;; mret counters
  else mret counters.

(** Lines 184-194: the check of Model B. *)
Definition check_model_b (env : Env) (counters : gmap string jval)
  : M (gmap string jval) :=
  b ← counter counters "model_b";
  if bool_decide (FREQ_MODEL_B ≤ b)%Z then
    print "Time to train Model B (every 10 new records)";;
    can_train_b ← has_data (path_str MODEL_B_TRAIN);
    if (can_train_b : bool) then
      trained_ok ← train_model env TRAIN_MODEL_B "Model B";
      if (trained_ok : bool) then mret (<["model_b" := JInt 0]> counters) else mret counters
    else
      print line_skip_b;; mret counters
  else mret counters.

(** Lines 169-171: the counters after the batch is counted. *)
Definition update_counters (split_counts : Counts) : M (gmap string jval) :=
  counters ← load_counters;
  counters ← add_counter counters "model_a" (Z.of_nat (total split_counts));
  add_counter counters "model_b" (Z.of_nat (with_reviews split_counts)).

(** [shutil.copy(src, dst)] *)
Definition copy_file (src dst : string) : M unit := λ w,
  match files w !! src with
  | Some c => write_file dst c w
  | None => (inl (FileNotFoundError src), w)
  end.

Definition archive_path (env : Env) : string :=
  "datasets/archived_uploads/preprocessed_" +:+ pretty (now env) +:+ ".csv".

Definition process_new_data (env : Env) : M unit :=
  ok ← has_data (path_str PREPROCESSED_UPLOADS);
  if negb ok then print "No new preprocessed data found."
  else
    print ("Found new preprocessed data at " +:+ path_str PREPROCESSED_UPLOADS);;
    split_counts ← split_dataset env;
    match split_counts with
    | None => mret tt
    | Some split_counts =>
        counters ← update_counters split_counts;
        print "Counters updated";;
        counters ← check_model_a env counters;
        counters ← check_model_b env counters;
        save_counters counters;;
        run_script env CHURN_PRED_SCRIPT [] "churn_prediction";;
        run_script env EXPLAIN_ALL_SCRIPT ["--all"] "explain_user --all";;
        run_script env EXPLAINABLE_AI_SCRIPT [] "explinableAI (full refresh)";;
        copy_file (path_str PREPROCESSED_UPLOADS) (archive_path env);;
        print ("Archived a copy of preprocessed data to " +:+ archive_path env)
    end.

End Scheduler.

(** ** Upload ingestor: [scripts/process_upload.py] *)

Module Ingestor.
Import Frame Sys Merger Scheduler.

Definition UPLOADS : string := "datasets/user-uploads.csv".

(** [df.empty] *)
Definition empty (df : DataFrame) : bool :=
  match rows df, columns df with
  | [], _ | _, [] => true
  | _, _ => false
  end.

(** the cells of column [c], top to bottom *)
Definition column_cells (df : DataFrame) (c : string) : list cell :=
  omap (λ r : gmap string cell, r !! c) (rows df).

Definition nums (cs : list cell) : list Z :=
  omap (λ v, match v with Num z => Some z | _ => None end) cs.

(** [int(series.max())]: [max] skips missing values and is missing when
    nothing is left, which [int] refuses.  A column that holds a text is
    taken to make [max] or [int] raise, as a column of texts and missing
    values and a greatest text that is no number do; the properties are
    stated for identifier columns without text. *)
Definition int_max (cs : list cell) : M Z :=
  if existsb (λ v, is_str (Some v)) cs then raise TypeError
  else match nums cs with
       | [] => raise ValueError
       | z :: zs => mret (foldr Z.max z zs)
       end.

(** [df.insert(0, 'userid', range(start, start + len(df)))] *)
Definition insert_userid (start : Z) (df : DataFrame) : DataFrame :=
  {| columns := ("userid", Numeric) :: columns df;
     rows := imap (λ i (r : gmap string cell),
                     <["userid" := Num (start + Z.of_nat i)]> r) (rows df) |}.

(** [for col in cols: if col not in df.columns: df[col] = ''] *)
Definition fill_blank (df : DataFrame) (cols : list string) : DataFrame :=
  foldl (λ d c, if decide (c ∈ names d) then d else set_column d c (Str ""))
        df cols.

(** Lines 83-85: [userid] goes first. *)
Definition userid_first (df : DataFrame) : M DataFrame :=
  if decide ("userid" ∈ names df ∧ head (names df) ≠ Some "userid") then
    match select df ("userid" :: filter (λ c, c ≠ "userid") (names df)) with
    | Some df' => mret df'
    | None => raise (KeyError "userid")
    end
  else mret df.

Section Preprocess.

(** The mean of a column as pandas computes it, in the numbers of the
    model; it is taken over the present values, of which there is one at
    least. *)
Variable mean : list Z → Z.

Definition exclude_cols : list string :=
  ["userid"; "review"; "left_review"; "is_churned"].

(** [df[c].fillna(df[c].mean())] on one cell of column [c] *)
Definition fillna_mean (df : DataFrame) (c : string) (v : cell) : cell :=
  match v, nums (column_cells df c) with
  | NaN, z :: zs => Num (mean (z :: zs))
  | _, _ => v
  end.

Definition preprocess_dataframe (df : DataFrame) : DataFrame :=
  let numeric_cols :=
    filter (λ c, dtype_of df c = Some Numeric ∧ c ∉ exclude_cols) (names df) in
  {| columns := columns df;
     rows := (λ r : gmap string cell, map_imap (λ c v,
                Some (if decide (c ∈ numeric_cols) then fillna_mean df c v else v)) r)
             <$> rows df |}.

(** Lines 48-79: the first identifier, the batch with its identifiers and
    the new authoritative dataset. *)
Definition assign_userids (uploads_df : DataFrame)
  : M (Z * DataFrame * DataFrame) :=
  main_ok ← has_data (path_str MAIN_DATASET);
  if (main_ok : bool) then
    main_df ← read_csv (path_str MAIN_DATASET);
    let main_df := if decide ("Unnamed: 0" ∈ names main_df)
                   then drop_column main_df "Unnamed: 0" else main_df in
    last_userid ← (if decide ("userid" ∈ names main_df)
                   then int_max (column_cells main_df "userid")
                   else mret 1999%Z);
    let uploads_df := drop_column uploads_df "userid" in
    let new_userid_start := (last_userid + 1)%Z in
    let uploads_df := insert_userid new_userid_start uploads_df in
    uploads_df ← (if decide ("userid" ∈ names main_df) then
                    match select (fill_blank uploads_df (names main_df))
                                 (names main_df) with
                    | Some u => mret u
                    | None => raise (KeyError "columns")
                    end
                  else mret uploads_df);
    mret (new_userid_start, uploads_df, concat main_df uploads_df)
  else
    let uploads_df := drop_column uploads_df "userid" in
    let new_userid_start := 2000%Z in
    let uploads_df := insert_userid new_userid_start uploads_df in
    mret (new_userid_start, uploads_df, uploads_df).

(** The outer [try] block of [process_user_uploads]. *)
Definition ingest (env : Env) : M (option nat) :=
  uploads_df ← read_csv UPLOADS;
  if empty uploads_df then
    print "No new data to process in uploads file.";; mret (Some 0%nat)
  else
    '(new_userid_start, uploads_df, combined_raw) ← assign_userids uploads_df;
    uploads_df ← userid_first uploads_df;
    try_except
      (to_csv combined_raw (path_str MAIN_DATASET);;
       print ("Successfully saved " +:+ pretty (len combined_raw)
              +:+ " total records to main-dataset.csv");;
       to_csv uploads_df UPLOADS;;
       print ("Updated user-uploads.csv with " +:+ pretty (len uploads_df)
              +:+ " records"))
      (λ e, print ("Error saving to CSV files: " +:+ exn_name e);; raise e);;
    print "Preprocessing data...";;
    let preprocessed_df := preprocess_dataframe uploads_df in
    to_csv preprocessed_df (path_str PREPROCESSED_UPLOADS);;
    print ("Preprocessed data saved to " +:+ path_str PREPROCESSED_UPLOADS);;
    print "Triggering data processing pipeline...";;
    try_except (process_new_data env)
      (λ e, print ("Error in data processing pipeline: " +:+ exn_name e));;
    write_file UPLOADS Blank;;
    print "Cleared the uploads file after successful processing";;
    print ("Successfully processed " +:+ pretty (len uploads_df)
           +:+ " new user(s) with userids from " +:+ pretty new_userid_start
           +:+ " to " +:+ pretty (new_userid_start + Z.of_nat (len uploads_df) - 1)%Z);;
    mret (Some (len preprocessed_df)).

(** [None] is the bare [return] of line 37. *)
Definition process_user_uploads (env : Env) : M (option nat) :=
  ok ← has_data UPLOADS;
  if negb ok then print "No new uploads to process.";; mret None
  else try_except (ingest env)
         (λ e, print ("Error processing uploads: " +:+ exn_name e);; mret (Some 0%nat)).

End Preprocess.

End Ingestor.

(** ** Scheduling loop: [scripts/automated_pipeline.py] *)

Module Pipeline.
Import Frame Sys.

Definition COUNTER_FILE : string := "datasets/training_counters.json".
Definition FREQ_MODEL_A : Z := 20.
Definition FREQ_MODEL_B : Z := 10.

Definition default_counters : gmap string jval :=
  {[ "model_a" := JInt 0; "model_b" := JInt 0;
     "last_retrain_a" := JNull; "last_retrain_b" := JNull ]}.

(** [load_counters]: a file that is not JSON is reported and read as the
    default. *)
Definition load_counters : M (gmap string jval) := λ w,
  match files w !! COUNTER_FILE with
  | Some (Json j) => (inr j, w)
  | Some _ => (print "Corrupted counters file, resetting counters";;
               mret default_counters) w
  | None => (inr default_counters, w)
  end.

Definition save_counters (counters : gmap string jval) : M unit :=
  write_file COUNTER_FILE (Json counters).

Definition run_script (env : Env) (script_name : string) : M bool :=
  print ("Running " +:+ script_name +:+ "...");;
  ok ← subprocess_ok env ["scripts/" +:+ script_name +:+ ".py"];
  if (ok : bool) then print (script_name +:+ " completed successfully");; mret true
  else print ("Error running " +:+ script_name);; mret false.

(** [c.lower()] on the ASCII range *)
Definition lower (a : Ascii.ascii) : Ascii.ascii :=
  let n := Ascii.nat_of_ascii a in
  if ((65 <=? n)%nat && (n <=? 90)%nat)%bool then Ascii.ascii_of_nat (n + 32) else a.

(** [s.lower()[-1]]; [None] is the [IndexError] of the empty string. *)
Fixpoint lower_last (s : string) : option string :=
  match s with
  | EmptyString => None
  | String a EmptyString => Some (String (lower a) EmptyString)
  | String _ s' => lower_last s'
  end.

Definition retrain_model (env : Env) (model_name : string) : M bool :=
  match lower_last model_name with
  | None => raise IndexError
  | Some x =>
      let script_name := "train_model_" +:+ x in
      print ("Retraining " +:+ model_name +:+ "...");;
      trained ← run_script env script_name;
      if (trained : bool) then
        counters ← load_counters;
        let counters := <["last_retrain_" +:+ x := JStr (isoformat env)]> counters in
        let counters := <["model_" +:+ x := JInt 0]> counters in
        save_counters counters;;
        predicted ← run_script env "churn_prediction";
        if (predicted : bool) then
          run_script env "explainableAI";; mret true
        else mret false
      else mret false
  end.

(** [counters.get(k, 0) >= freq] *)
Definition reached (counters : gmap string jval) (k : string) (freq : Z) : M bool :=
  match default (JInt 0) (counters !! k) with
  | JInt z => mret (bool_decide (freq ≤ z)%Z)
  | _ => raise TypeError
  end.

Definition check_retrain_conditions (env : Env) : M unit :=
  counters ← load_counters;
  due_a ← reached counters "model_a" FREQ_MODEL_A;
  (if (due_a : bool) then
     print "Data threshold reached for Model A, retraining...";;
     retrain_model env "model_a";; mret tt
   else mret tt);;
  due_b ← reached counters "model_b" FREQ_MODEL_B;
  if (due_b : bool) then
    print "Data threshold reached for Model B, retraining...";;
    retrain_model env "model_b";; mret tt
  else mret tt.

End Pipeline.

(** ** Explanations: the command line of [scripts/explain_user.py] *)

Module Explain.



End Explain.

(** ** Identifier reindexer: [scripts/reindex_user_ids.py] *)

Module Reindex.
Import Frame Sys.

Definition START_ID : Z := 2000.

Definition DATASET_DIR : string := "datasets".
Definition EXPLAIN_DIR : string := "outputs/explanations".
Definition CHART_DIR : string := "outputs/charts".

(** the file names of [DATASET_FILES], all in [DATASET_DIR] *)
Definition DATASET_FILES : list string :=
  ["main-dataset.csv"; "model_a_train.csv"; "model_b_train.csv";
   "churn_prediction.csv"; "model_a_predictions.csv";
   "model_b_predictions.csv"; "sentiment_analysis.csv"].

(** [dir / name] *)
Definition in_dir (dir name : string) : string := dir +:+ "/" +:+ name.

(** The loop of [build_id_map] (lines 54-58) over the sorted identifiers. *)
Definition number_from (start : Z) (old_ids : list Z) : gmap Z Z :=
  (foldl (λ (st : gmap Z Z * Z) oid, (<[oid := st.2]> st.1, (st.2 + 1)%Z))
         (∅, start) old_ids).1.

(** [id_map.get(x, x)] *)
Definition get_or_self (id_map : gmap Z Z) (x : Z) : Z :=
  default x (id_map !! x).

(** The operations on files that a reindex performs, one at a time. *)
Inductive op :=
  | Write (p : string) (c : content)
  | Move (src dst : string)
  | Unlink (p : string).

(** [Move] is [Path.replace] and [Path.rename] where the target name is
    free. *)
Definition apply_op (fs : gmap string content) (o : op) : gmap string content :=
  match o with
  | Write p c => <[p := c]> fs
  | Move src dst =>
      match fs !! src with
      | Some c => <[dst := c]> (delete src fs)
      | None => fs
      end
  | Unlink p => delete p fs
  end.

Definition apply_ops (fs : gmap string content) (ops : list op) : gmap string content :=
  foldl apply_op fs ops.

Section Parsing.

(** Reading a number out of text, as [pd.to_numeric] and [int] do; [None]
    is text that is no number. *)
Variable to_int : string → option Z.

(** [pd.to_numeric(cell, errors='coerce')] followed by the integer the
    scripts take of it *)
Definition to_numeric (v : cell) : option Z :=
  match v with
  | Num z => Some z
  | Str s => to_int s
  | NaN => None
  end.

(** [.astype(int)]: the conversion to a 64-bit integer, which wraps
    around. *)
Definition astype_int (z : Z) : Z := (Z.modulo (z + 2 ^ 63) (2 ^ 64) - 2 ^ 63)%Z.

(** Line 53: the distinct identifiers, ascending. *)
Definition old_ids_of (df : DataFrame) : list Z :=
  merge_sort Z.le (remove_dups (astype_int <$> omap to_numeric
    (omap (λ r : gmap string cell, r !! "userid") (rows df)))).

Definition build_id_map : M (gmap Z Z) := λ w,
  let main_path := in_dir DATASET_DIR "main-dataset.csv" in
  match files w !! main_path with
  | None => (inl (FileNotFoundError main_path), w)
  | Some (Csv df) =>
      if decide ("userid" ∈ names df)
      then (inr (number_from START_ID (old_ids_of df)), w)
      else (inl ValueError, w)
  | Some _ => (inl (ParserError main_path), w)
  end.

(** Lines 67-68 on one cell of the identifier column. *)
Definition remap_cell (id_map : gmap Z Z) (v : cell) : cell :=
  match to_numeric v with
  | Some x => Num (get_or_self id_map x)
  | None => NaN
  end.

(** Lines 66-68 on a frame. *)
Definition remap_frame (id_map : gmap Z Z) (df : DataFrame) : DataFrame :=
  if decide ("userid" ∈ names df) then
    {| columns := (λ p, if decide (p.1 = "userid") then ("userid", Numeric) else p)
                  <$> columns df;
       rows := (λ r : gmap string cell, alter (remap_cell id_map) "userid" r)
               <$> rows df |}
  else df.

Definition remap_csv (path : string) (id_map : gmap Z Z) : M unit :=
  ok ← has_data path;
  if negb ok then mret tt
  else df ← read_csv path; to_csv (remap_frame id_map df) path.

(** [int(str(data.get('user_id')))] *)
Definition user_id_of (data : gmap string jval) : option Z :=
  match data !! "user_id" with
  | Some (JInt z) => Some z
  | Some (JStr s) => to_int s
  | _ => None
  end.

(** The body of the loop of [remap_explanations] for the file [name] of
    [explain_dir], as the operations it performs on the files [fs]; an
    exception leaves the loop body, which performs nothing then. *)
Definition remap_explanation_ops (explain_dir : string) (id_map : gmap Z Z)
    (fs : gmap string content) (ro : gset string) (name : string) : list op :=
  let p := in_dir explain_dir name in
  match fs !! p with
  | Some (Json data) =>
      match user_id_of data ≫= (id_map !!.) with
      | Some new_id =>
          let out_tmp := p +:+ ".tmp" in
          if decide (out_tmp ∈ ro) then []
          else
            let rewrite :=
              [Write out_tmp (Json (<["user_id" := JInt new_id]> data)); Move out_tmp p] in
            let new_name := in_dir explain_dir ("user_" +:+ pretty new_id +:+ ".json") in
            rewrite
            ++ (if decide (new_name = p) then []
                else (if decide (is_Some (apply_ops fs rewrite !! new_name))
                      then [Unlink new_name] else [])
                     ++ [Move p new_name])
      | None => []
      end
  | _ => []
  end.

(** [stem.split('_')[1]] of a name [user_<...>.png] *)
Fixpoint until_underscore (s : string) : string :=
  match s with
  | EmptyString => EmptyString
  | String a s' => if decide (a = "_"%char) then EmptyString
                   else String a (until_underscore s')
  end.

Definition chart_id (name : string) : option Z :=
  let stem := String.substring 0 (String.length name - 4) name in
  to_int (until_underscore (String.substring 5 (String.length stem - 5) stem)).

(** The body of the loop of [remap_charts]. *)
Definition remap_chart_ops (chart_dir : string) (id_map : gmap Z Z)
    (fs : gmap string content) (name : string) : list op :=
  let p := in_dir chart_dir name in
  match fs !! p with
  | Some _ =>
      match chart_id name ≫= (id_map !!.) with
      | Some new_id =>
          let new_name := in_dir chart_dir ("user_" +:+ pretty new_id +:+ ".png") in
          if decide (new_name = p) then []
          else (if decide (is_Some (fs !! new_name)) then [Unlink new_name] else [])
               ++ [Move p new_name]
      | None => []
      end
  | None => []
  end.

(** A loop over the listed names: the operations of each body on the files
    as the bodies before it left them. *)
Fixpoint loop_ops (body : gmap string content → string → list op)
    (fs : gmap string content) (listing : list string) : list op :=
  match listing with
  | [] => []
  | name :: rest =>
      let ops := body fs name in
      ops ++ loop_ops body (apply_ops fs ops) rest
  end.

(** [listing] is what [explain_dir.glob('user_*.json')] yields, in the
    order in which the directory is listed. *)
Definition remap_explanations_ops (explain_dir : string) (id_map : gmap Z Z)
    (ro : gset string) (fs : gmap string content) (listing : list string) : list op :=
  loop_ops (λ fs, remap_explanation_ops explain_dir id_map fs ro) fs listing.

Definition remap_charts_ops (chart_dir : string) (id_map : gmap Z Z)
    (fs : gmap string content) (listing : list string) : list op :=
  loop_ops (remap_chart_ops chart_dir id_map) fs listing.

(** performing operations in the state monad *)
Definition perform (ops : gmap string content → list op) : M unit := λ w,
  (inr tt, {| files := apply_ops (files w) (ops (files w));
              readonly := readonly w; stdout := stdout w; spawned := spawned w |}).

Definition remap_explanations (explain_dir : string) (id_map : gmap Z Z)
    (listing : list string) : M unit := λ w,
  perform (λ fs, remap_explanations_ops explain_dir id_map (readonly w) fs listing) w.

Definition remap_charts (chart_dir : string) (id_map : gmap Z Z)
    (listing : list string) : M unit :=
  perform (λ fs, remap_charts_ops chart_dir id_map fs listing).

(** [backup_paths]: each listed file of [dir] that exists is copied under
    its name into [backup_root]. *)
Fixpoint backup_paths (dir : string) (listing : list string) (backup_root : string)
  : M unit :=
  match listing with
  | [] => mret tt
  | name :: rest =>
      (λ w, match files w !! in_dir dir name with
            | Some c => write_file (in_dir backup_root name) c w
            | None => (inr tt, w)
            end);;
      backup_paths dir rest backup_root
  end.

Fixpoint remap_csvs (listing : list string) (id_map : gmap Z Z) : M unit :=
  match listing with
  | [] => mret tt
  | name :: rest =>
      remap_csv (in_dir DATASET_DIR name) id_map;; remap_csvs rest id_map
  end.

(** What the directories list when [main] globs them: [jsons] and [pngs]
    for the backups (['*.json'], ['*.png']), [user_jsons] and [user_pngs]
    for the remapping (['user_*.json'], ['user_*.png']). *)
Record Listings := mkListings {
  jsons : list string;
  pngs : list string;
  user_jsons : list string;
  user_pngs : list string
}.

(** [ts] is [datetime.now().strftime('%Y%m%d_%H%M%S')]. *)
Definition main (ts : string) (ls : Listings) : M unit :=
  let backup_root := "datasets/backups/reindex_" +:+ ts in
  backup_paths DATASET_DIR DATASET_FILES backup_root;;
  id_map ← build_id_map;
  remap_csvs DATASET_FILES id_map;;
  let out_backup := "outputs/backups/reindex_" +:+ ts in
  backup_paths EXPLAIN_DIR (jsons ls) out_backup;;
  backup_paths CHART_DIR (pngs ls) out_backup;;
  remap_explanations EXPLAIN_DIR id_map (user_jsons ls);;
  remap_charts CHART_DIR id_map (user_pngs ls);;
  print ("[OK] Reindexed " +:+ pretty (size id_map) +:+ " users starting at "
         +:+ pretty START_ID);;
  print ("[OK] Backups saved to " +:+ backup_root +:+ " and " +:+ out_backup).

End Parsing.

(** The reverse map of an identifier map: new identifier to old. *)
Definition reverse_map (id_map : gmap Z Z) : gmap Z Z :=
  list_to_map (prod_swap <$> map_to_list id_map).

End Reindex.

(** ** The watcher of the scheduling loop: [check_for_new_data] of
    [scripts/automated_pipeline.py] *)

Module Watcher.
Import Sys.

Definition UPLOAD_FILE : string := "datasets/user-uploads.csv".

(** Lines 70-87; the messages of the logger are printed. *)
Definition check_for_new_data (env : Env) : M bool :=
  ok ← has_data UPLOAD_FILE;
  if negb ok then mret false
  else
    print "New user data detected, starting processing...";;
    uploaded ← Pipeline.run_script env "process_upload";
    if negb uploaded then print "Failed to process uploads";; mret false
    else
      processed ← Pipeline.run_script env "process_new_data";
      if negb processed then print "Failed to process new data";; mret false
      else mret true.

End Watcher.

(** ** Recommendations: [build_recommendations] of [scripts/explain_user.py] *)

Module Recommend.
Import Sys.

Definition WIN_BACK : string :=
  "Win-back campaign: offer a limited-time incentive and a quick 2-click reactivation.".
Definition RE_ENGAGE : string :=
  "Re-engage with a personalized check-in and highlight new features they missed.".
Definition SCREEN_BREAK : string :=
  "Encourage healthier usage with screen-break reminders and wellness tips.".
Definition APOLOGIZE : string :=
  "Apologize and offer priority support to address low satisfaction.".
Definition ASK_FEEDBACK : string :=
  "Ask for quick feedback and provide a small perk to improve experience.".
Definition MISS_YOU : string :=
  "Send a 'we miss you' nudge with a simple return path.".
Definition EMPATHY : string :=
  "Reach out with empathetic support to address dissatisfaction.".
Definition SURVEY : string :=
  "Invite feedback via a 1-question survey to understand needs.".
Definition PREMIUM : string :=
  "Thank them and suggest premium/value features they might like.".
Definition REFERRAL : string :=
  "Ask for a public review or referrals; offer referral credits.".
Definition DISCOVERY : string :=
  "Offer smart tips to help users explore underused features.".

(** Lines 84-89: the recommendations without repetitions, five at most.
    The length is looked at after every recommendation, added or not. *)
Fixpoint dedupe (deduped recs : list string) : list string :=
  match recs with
  | [] => deduped
  | r :: rest =>
      let deduped := if decide (r ∈ deduped) then deduped else deduped ++ [r] in
      if decide (length deduped = 5%nat) then deduped else dedupe deduped rest
  end.

Section Floats.

(** The numbers of a row are floats.  What the function does with them is
    taken as given: the float of an integer literal and of the literals
    [0.2] and [0.5], negation, the comparisons, truth ([bool(x)], false for
    zero only), [pd.notna] and [int(x)], which truncates and raises
    [ValueError] on a value that is no number. *)
Variable float : Type.
Variable of_Z : Z → float.
Variable lit_0_2 lit_0_5 : float.
Variable neg : float → float.
Variables ltb leb : float → float → bool.
Variable truthy : float → bool.
Variable notna : float → bool.
Variable to_int : float → option Z.

(** [row.get(k, 0) or 0] *)
Definition get_or_zero (row : gmap string float) (k : string) : float :=
  match row !! k with
  | Some x => if truthy x then x else of_Z 0
  | None => of_Z 0
  end.

(** [int(row.get(k, 0) or 0)] *)
Definition get_int (row : gmap string float) (k : string) : M Z :=
  match to_int (get_or_zero row k) with
  | Some z => mret z
  | None => raise ValueError
  end.

(** Lines 56-81: the recommendations of the rules that fire, in the order
    of the rules, and the discovery prompt last. *)
Definition rules (row : gmap string float) (is_churned total_days_active : Z)
  : list string :=
  let drop_in := get_or_zero row "drop_in_usage" in
  let avg_screen := get_or_zero row "Average Screen Time" in
  let ratings := get_or_zero row "Ratings" in
  let last_visited := get_or_zero row "Last Visited Minutes" in
  let sentiment := row !! "compound_score" in
  let recs := [] in
  let recs := if bool_decide (is_churned = 1%Z) || bool_decide (total_days_active = 0%Z)
              then recs ++ [WIN_BACK] else recs in
  let recs := if leb (of_Z 40) drop_in then recs ++ [RE_ENGAGE] else recs in
  let recs := if ltb (of_Z 240) avg_screen then recs ++ [SCREEN_BREAK] else recs in
  let recs := if truthy ratings && leb ratings (of_Z 2) then recs ++ [APOLOGIZE]
              else if truthy ratings && leb ratings (of_Z 3) then recs ++ [ASK_FEEDBACK]
              else recs in
  let recs := if ltb (of_Z (7 * 24 * 60)) last_visited then recs ++ [MISS_YOU] else recs in
  let recs :=
    match sentiment with
    | Some s =>
        if notna s then
          if ltb s (neg lit_0_2) then recs ++ [EMPATHY]
          else if leb (neg lit_0_2) s && leb s lit_0_2 then recs ++ [SURVEY]
          else if ltb lit_0_2 s && leb s lit_0_5 then recs ++ [PREMIUM]
          else if ltb lit_0_5 s then recs ++ [REFERRAL]
          else recs
        else recs
    | None => recs
    end in
  recs ++ [DISCOVERY].

(** Lines 42-90. *)
Definition build_recommendations (row : gmap string float) : M (list string) :=
  is_churned ← get_int row "is_churned";
  total_days_active ← get_int row "total_days_active";
  mret (dedupe [] (rules row is_churned total_days_active)).

End Floats.

End Recommend.

(** ** Notions the properties are stated with *)

Module Spec.
Import Frame Sys Merger Scheduler Ingestor.

(** A computation writes within [S] when it changes no file outside [S]
    and leaves the set of read-only paths as it is. *)
Definition writes_within {A} (S : string → Prop) (m : M A) : Prop :=
  ∀ w, (∀ p, ¬ S p → files (m w).2 !! p = files w !! p)
       ∧ readonly (m w).2 = readonly w.

(** [p.exists() and os.path.getsize(p) > 0] on the files [fs] *)
Definition holds_data (fs : gmap string content) (p : string) : bool :=
  match fs !! p with
  | None | Some Blank => false
  | Some _ => true
  end.

(** The counters [load_counters] of [process_new_data.py] reads from the
    files [fs]; [None] where [json.load] raises. *)
Definition stored_counters (fs : gmap string content) : option (gmap string jval) :=
  match fs !! Scheduler.COUNTER_FILE with
  | None => Some {[ "model_a" := JInt 0; "model_b" := JInt 0 ]}
  | Some (Json j) => Some j
  | Some _ => None
  end.

(** The number of rows that the mask of line 72 selects. *)
Definition reviewed_count (df : DataFrame) : nat :=
  length (filter (λ r : gmap string cell, Is_true (review_mask (r !! "review"))) (rows df)).

(** A world after more lines are printed and more subprocesses are started. *)
Definition after (w : World) (lines : list string) (cmds : list (list string)) : World :=
  mkWorld (files w) (readonly w) (stdout w ++ lines) (spawned w ++ cmds).

(** The files [split_dataset] and [process_new_data] may write. *)
Definition split_paths (env : Env) (p : string) : Prop :=
  p = path_str MODEL_A_TRAIN ∨ p = fallback_path env MODEL_A_TRAIN
  ∨ p = path_str MODEL_B_TRAIN ∨ p = fallback_path env MODEL_B_TRAIN.

Definition scheduler_paths (env : Env) (p : string) : Prop :=
  split_paths env p ∨ p = COUNTER_FILE ∨ p = archive_path env.

(** The identifier column of the authoritative dataset, empty when the file
    is absent or blank. *)
Definition main_cells (w : World) : list cell :=
  match files w !! path_str MAIN_DATASET with
  | Some (Csv df) => column_cells df "userid"
  | _ => []
  end.

(** The first identifier of a batch: one more than the greatest existing
    identifier, or the base 2000 when there is none. *)
Definition next_userid (ids : list Z) : Z :=
  match ids with
  | [] => 2000
  | z :: zs => foldr Z.max z zs + 1
  end.

(** The authoritative dataset is absent or blank, or is a table with an
    identifier column that holds numbers or missing values, one number at
    least. *)
Definition main_ready (w : World) : Prop :=
  match files w !! path_str MAIN_DATASET with
  | None | Some Blank => True
  | Some (Csv df) =>
      wf df ∧ "userid" ∈ names df
      ∧ existsb (λ v, is_str (Some v)) (column_cells df "userid") = false
      ∧ nums (column_cells df "userid") ≠ []
  | Some _ => False
  end.

(** The three files the ingestor writes can be written. *)
Definition inbox_writable (w : World) : Prop :=
  (path_str MAIN_DATASET ∉ readonly w) ∧ (UPLOADS ∉ readonly w)
  ∧ (path_str PREPROCESSED_UPLOADS ∉ readonly w).

(** A batch with the identifiers from [start] on (lines 59-62, 75-78). *)
Definition stamped (start : Z) (batch : DataFrame) : DataFrame :=
  insert_userid start (drop_column batch "userid").

(** The rows of [U] are the rows of [batch], in order, with the cells of
    [batch] in every column other than the identifier that both frames
    have, and such a column has the dtype it has in [batch]. *)
Definition keeps_cells (batch U : DataFrame) : Prop :=
  Forall2 (λ r u : gmap string cell,
             ∀ c, c ≠ "userid" → c ∈ names batch → c ∈ names U → u !! c = r !! c)
          (rows batch) (rows U)
  ∧ ∀ c, c ≠ "userid" → c ∈ names batch → c ∈ names U → dtype_of U c = dtype_of batch c.

(** The columns of a batch once it has its identifiers: [userid] and the
    columns of the authoritative dataset, the index column a careless save
    leaves apart; the columns of the batch itself when there is no
    dataset. *)
Definition expected_columns (w : World) (batch : DataFrame) (c : string) : Prop :=
  c = "userid"
  ∨ match files w !! path_str MAIN_DATASET with
    | Some (Csv m) => c ∈ names m ∧ c ≠ "Unnamed: 0"
    | _ => c ∈ names batch
    end.

(** A batch arrives in the inbox. *)
Definition upload (batch : DataFrame) (w : World) : World :=
  mkWorld (<[UPLOADS := Csv batch]> (files w)) (readonly w) (stdout w) (spawned w).

(** The identifiers of the batch last ingested, as the preprocessed copy
    carries them. *)
Definition assigned_ids (w : World) : list Z :=
  match files w !! path_str PREPROCESSED_UPLOADS with
  | Some (Csv df) => nums (column_cells df "userid")
  | _ => []
  end.

(** Batches arrive and are ingested one after the other, each run with its
    own clock and subprocess results; the result lists the identifiers each
    batch was given. *)
Fixpoint ingest_batches (mean : list Z → Z) (runs : list (Env * DataFrame)) (w : World)
  : list (list Z) :=
  match runs with
  | [] => []
  | run :: rest =>
      let w' := (process_user_uploads mean run.1 (upload run.2 w)).2 in
      assigned_ids w' :: ingest_batches mean rest w'
  end.

(** The counters [load_counters] of [automated_pipeline.py] reads from the
    files [fs]. *)
Definition pipeline_counters (fs : gmap string content) : gmap string jval :=
  match fs !! Pipeline.COUNTER_FILE with
  | Some (Json j) => j
  | _ => Pipeline.default_counters
  end.

(** The command lines that regenerate predictions, explanations and charts
    (lines 199-205 of [process_new_data.py]). *)
Definition regeneration : list (list string) :=
  [[CHURN_PRED_SCRIPT]; [EXPLAIN_ALL_SCRIPT; "--all"]; [EXPLAINABLE_AI_SCRIPT]].









(** [counters.get(k, 0)] when it is a number *)
Definition count_of (counters : gmap string jval) (k : string) : option Z :=
  match default (JInt 0) (counters !! k) with
  | JInt z => Some z
  | _ => None
  end.

(** The columns [preprocess_dataframe] fills: numeric and not protected. *)
Definition filled_columns (df : DataFrame) : list string :=
  filter (λ c, dtype_of df c = Some Numeric ∧ c ∉ exclude_cols) (names df).



(** The paths an operation of the reindexer names. *)
Definition op_paths (o : Reindex.op) : list string :=
  match o with
  | Reindex.Write p _ => [p]
  | Reindex.Move src dst => [src; dst]
  | Reindex.Unlink p => [p]
  end.

(** The path [p] lies in the directory [dir]. *)
Definition under (dir p : string) : Prop := ∃ x, p = Reindex.in_dir dir x.

(** The content [c] is at [src] or at [dst]. *)
Definition kept_or_copied (src dst : string) (c : content) (w : World) : Prop :=
  files w !! src = Some c ∨ files w !! dst = Some c.

(** An integer that pandas holds exactly whichever dtype the column has:
    it fits a 64-bit integer and a float of 53 bits of mantissa. *)
Definition exact_int (z : Z) : Prop := (- 2 ^ 53 ≤ z ≤ 2 ^ 53)%Z.

#[global] Instance exact_int_dec z : Decision (exact_int z).
Proof. unfold exact_int. apply _. Defined.


(** A text of white space only. *)
Fixpoint blank (s : string) : bool :=
  match s with
  | EmptyString => true
  | String a s' => is_space a && blank s'
  end.

(** The review of a row is present and not empty once white space is
    stripped: it is a text with a character that is no white space. *)
Definition has_review (v : option cell) : bool :=
  match v with
  | Some (Str s) => negb (blank s)
  | _ => false
  end.

(** The number of rows that have a review. *)
Definition review_count (df : DataFrame) : nat :=
  length (filter (λ r : gmap string cell, Is_true (has_review (r !! "review"))) (rows df)).

(** Column [c] holds a text. *)
Definition holds_text (df : DataFrame) (c : string) : bool :=
  existsb (λ v, is_str (Some v)) (column_cells df c).

(** Column [c] of [df] is typed as [read_csv] types it: an object column
    of texts and missing values when it holds a text, a numeric column
    otherwise; an empty field is read as a missing value, never as the
    empty text. *)
Definition read_typed (df : DataFrame) (c : string) : Prop :=
  (Str "" ∉ column_cells df c)
  ∧ dtype_of df c = Some (if holds_text df c then Object else Numeric)
  ∧ (holds_text df c = true → nums (column_cells df c) = []).

End Spec.

(** ** Example data *)

Module Examples.
Import Frame Sys.



(** A first upload of three rows: the identifiers it supplies repeat, one
    usage value is above 300 and one is missing, one review has text, one is
    blank and one is missing. *)
Definition batch3 : DataFrame :=
  mkFrame [("userid", Numeric); ("Day_1", Numeric); ("review", Object)]
    [ {[ "userid" := Num 7; "Day_1" := Num 120; "review" := Str "great" ]};
      {[ "userid" := Num 7; "Day_1" := Num 450; "review" := Str "   " ]};
      {[ "userid" := Num 9; "Day_1" := NaN; "review" := NaN ]} ].

Definition batch2 : DataFrame :=
  mkFrame [("Day_1", Numeric); ("review", Object)]
    [ {[ "Day_1" := Num 10; "review" := Str "fine" ]};
      {[ "Day_1" := Num 301; "review" := Str "slow" ]} ].

(** A machine with no files on which every subprocess succeeds. *)
Definition world0 : World := mkWorld ∅ ∅ [] [].

Definition env0 : Env := mkEnv 1700000000 "2023-11-14T22:13:20" (λ _, true).

(** A clock a second later and subprocesses that all fail. *)
Definition env_failing : Env := mkEnv 1700000001 "2023-11-14T22:13:21" (λ _, false).

(** The mean, rounded down. *)
Definition mean_floor (l : list Z) : Z := (foldr Z.add 0 l / Z.of_nat (length l))%Z.

(** Counters with Model A at its threshold and no retrain on record, and a
    machine that holds them and a preprocessed batch of three rows. *)
Definition due_counters : gmap string jval :=
  {[ "model_a" := JInt 20; "model_b" := JInt 0;
     "last_retrain_a" := JNull; "last_retrain_b" := JNull ]}.

Definition world_due : World :=
  mkWorld {[ Merger.path_str Merger.PREPROCESSED_UPLOADS := Csv batch3;
             Scheduler.COUNTER_FILE := Json due_counters ]} ∅ [] [].







(** An authoritative dataset with the identifiers 2 and 1, and a table that
    has the identifier 1 of the dataset and the identifier 2000, which the
    dataset has not. *)
Definition main_21 : DataFrame :=
  mkFrame [("userid", Numeric)] [ {[ "userid" := Num 2 ]}; {[ "userid" := Num 1 ]} ].

Definition table_stale : DataFrame :=
  mkFrame [("userid", Numeric)] [ {[ "userid" := Num 1 ]}; {[ "userid" := Num 2000 ]} ].

Definition world_main_21 : World :=
  mkWorld {[ Reindex.in_dir Reindex.DATASET_DIR "main-dataset.csv" := Csv main_21 ]} ∅ [] [].

(** A machine with two prediction tables, one of them blank. *)
Definition world_tables : World :=
  mkWorld {[ Reindex.in_dir Reindex.DATASET_DIR "churn_prediction.csv" := Csv table_stale;
             Reindex.in_dir Reindex.DATASET_DIR "model_a_predictions.csv" := Blank ]}
          ∅ [] [].

(** A preprocessed batch whose usage column holds text, and one without a
    review column. *)
Definition batch_text_usage : DataFrame :=
  mkFrame [("userid", Numeric); ("Day_1", Object); ("review", Object)]
    [ {[ "userid" := Num 2000; "Day_1" := Str "many"; "review" := Str "ok" ]} ].

Definition batch_no_review : DataFrame :=
  mkFrame [("Day_1", Numeric)] [ {[ "Day_1" := Num 10 ]}; {[ "Day_1" := NaN ]} ].

(** Counters with both models at their thresholds, in the file. *)
Definition both_due : gmap string jval :=
  {[ "model_a" := JInt 25; "model_b" := JInt 10;
     "last_retrain_a" := JNull; "last_retrain_b" := JStr "2023-01-01T00:00:00" ]}.

Definition world_both_due : World :=
  mkWorld {[ Pipeline.COUNTER_FILE := Json both_due ]} ∅ [] [].





(** A machine with a dataset, a prediction table, an explanation and a
    chart, and what its output directories list. *)
Definition world_outputs : World :=
  mkWorld {[ Reindex.in_dir Reindex.DATASET_DIR "main-dataset.csv" := Csv main_21;
             Reindex.in_dir Reindex.DATASET_DIR "churn_prediction.csv" := Csv table_stale;
             "outputs/explanations/user_1.json" := Json {[ "user_id" := JInt 1 ]};
             "outputs/charts/user_1.png" := Garbled ]} ∅ [] [].

Definition listings_outputs : Reindex.Listings :=
  Reindex.mkListings ["user_1.json"] ["user_1.png"] ["user_1.json"] ["user_1.png"].

(** A first upload of three rows none of which has a review: read from the
    file, the review column is numeric. *)
Definition batch3_silent : DataFrame :=
  mkFrame [("userid", Numeric); ("Day_1", Numeric); ("review", Numeric)]
    [ {[ "userid" := Num 7; "Day_1" := Num 120; "review" := NaN ]};
      {[ "userid" := Num 7; "Day_1" := Num 450; "review" := NaN ]};
      {[ "userid" := Num 9; "Day_1" := NaN; "review" := NaN ]} ].

(** A machine that holds the preprocessed batch [df] and nothing else. *)
Definition world_batch (df : DataFrame) : World :=
  mkWorld {[ Merger.path_str Merger.PREPROCESSED_UPLOADS := Csv df ]} ∅ [] [].

(** An uploads file that cannot be parsed, and one with a header and no
    row. *)
Definition world_uploads_garbled : World :=
  mkWorld {[ Ingestor.UPLOADS := Garbled ]} ∅ [] [].

Definition batch_no_rows : DataFrame :=
  mkFrame [("Day_1", Object); ("review", Object)] [].

(** An upload on a machine whose authoritative dataset cannot be written,
    and on one whose dataset has an identifier column of missing values. *)
Definition world_main_locked : World :=
  mkWorld {[ Ingestor.UPLOADS := Csv batch3 ]}
          {[ Merger.path_str Merger.MAIN_DATASET ]} [] [].

Definition main_unnumbered : DataFrame :=
  mkFrame [("userid", Numeric); ("Day_1", Numeric)]
    [ {[ "userid" := NaN; "Day_1" := Num 5 ]} ].

Definition world_main_unnumbered : World :=
  mkWorld {[ Ingestor.UPLOADS := Csv batch3;
             Merger.path_str Merger.MAIN_DATASET := Csv main_unnumbered ]} ∅ [] [].


End Examples.

(** * Properties *)

(** ** Frames and the merge *)

Module FrameFacts.
Import Frame Merger.

Implicit Types (df T S : DataFrame) (r : gmap string cell) (c : string).

Lemma filter_ext_in {A} (P Q : A → Prop) `{!∀ x, Decision (P x), !∀ x, Decision (Q x)}
    (l : list A) :
  (∀ x, x ∈ l → P x ↔ Q x) → filter P l = filter Q l.
Proof.
  induction l as [|a l IH]; intros Hext; [done|].
  rewrite !filter_cons.
  rewrite IH by (intros x Hx; apply Hext; by right).
  destruct (decide (P a)) as [Hp|Hp].
  - rewrite decide_True; [done|]. apply Hext; [by left|done].
  - rewrite decide_False; [done|]. rewrite <- Hext; [done|by left].
Qed.

Lemma scalar_dtype_default dt : scalar_dtype (default_cell dt) = dt.
Proof. by destruct dt. Qed.


Lemma dtype_of_Some df c : NoDup (names df) → c ∈ names df → is_Some (dtype_of df c).
Proof.
  intros _ Hc. unfold dtype_of.
  destruct (list_to_map (columns df) !! c) eqn:E; [by eexists|].
  apply not_elem_of_list_to_map in E. done.
Qed.

Lemma dtype_of_None df c : c ∉ names df ↔ dtype_of df c = None.
Proof. apply not_elem_of_list_to_map. Qed.

Lemma dtype_of_elem df c d : NoDup (names df) → (c, d) ∈ columns df ↔ dtype_of df c = Some d.
Proof. apply elem_of_list_to_map. Qed.

Lemma dom_defaults_of df : dom (defaults_of df) = list_to_set (names df).
Proof. unfold defaults_of. rewrite dom_fmap_L. apply dom_list_to_map_L. Qed.


Lemma fill_step_in T c dt : c ∈ names T → fill_step T (c, dt) = T.
Proof. intros H. unfold fill_step. cbn. by rewrite decide_True. Qed.

Lemma fill_step_notin T c dt :
  c ∉ names T → fill_step T (c, dt) = set_column T c (default_cell dt).
Proof. intros H. unfold fill_step. cbn. by rewrite decide_False. Qed.

Lemma set_column_new_columns T c dt :
  c ∉ names T → columns (set_column T c (default_cell dt)) = columns T ++ [(c, dt)].
Proof.
  intros H. unfold set_column. cbn. rewrite decide_False by done.
  by rewrite scalar_dtype_default.
Qed.

Lemma set_column_new_names T c dt :
  c ∉ names T → names (set_column T c (default_cell dt)) = names T ++ [c].
Proof.
  intros H. unfold names. rewrite set_column_new_columns by done.
  by rewrite fmap_app.
Qed.

Lemma fold_fill_columns cs T :
  NoDup cs.*1 →
  columns (foldl fill_step T cs) = columns T ++ filter (λ p, p.1 ∉ names T) cs.
Proof.
  revert T. induction cs as [|[c dt] cs IH]; intros T Hnd.
  { by rewrite app_nil_r. }
  rewrite fmap_cons in Hnd. apply NoDup_cons in Hnd as [Hc Hnd].
  cbn [foldl]. rewrite filter_cons. cbn [fst].
  destruct (decide (c ∈ names T)) as [Hin|Hnin].
  - rewrite fill_step_in by done. rewrite IH by done.
    rewrite decide_False by (intros Hn; by apply Hn). done.
  - rewrite fill_step_notin by done. rewrite IH by done.
    rewrite decide_True by done.
    rewrite set_column_new_columns by done.
    rewrite <- app_assoc. f_equal. cbn [app]. f_equal.
    apply filter_ext_in. intros [c' dt'] Hx. cbn [fst].
    rewrite set_column_new_names by done.
    rewrite elem_of_app, list_elem_of_singleton.
    assert (c' ≠ c).
    { intros ->. apply Hc. apply list_elem_of_fmap. by exists (c, dt'). }
    tauto.
Qed.

Lemma fold_fill_rows cs T :
  NoDup cs.*1 →
  (∀ r, r ∈ rows T → dom r = list_to_set (names T)) →
  rows (foldl fill_step T cs)
  = (λ r, r ∪ (default_cell <$> (list_to_map cs : gmap string dtype))) <$> rows T.
Proof.
  revert T. induction cs as [|[c dt] cs IH]; intros T Hnd Hdom.
  { cbn. rewrite fmap_empty. rewrite <- (list_fmap_id (rows T)) at 1.
    apply list_fmap_ext. intros i r _. by rewrite (right_id_L ∅ (∪)). }
  rewrite fmap_cons in Hnd. apply NoDup_cons in Hnd as [Hc Hnd].
  cbn [foldl].
  rewrite list_to_map_cons, fmap_insert.
  destruct (decide (c ∈ names T)) as [Hin|Hnin].
  - rewrite fill_step_in by done.
    rewrite IH by done. apply list_fmap_ext. intros i r Hr.
    apply list_elem_of_lookup_2 in Hr.
    apply map_eq. intros j. rewrite !lookup_union.
    destruct (decide (j = c)) as [->|Hne].
    + assert (is_Some (r !! c)) as [v Hv].
      { apply elem_of_dom. rewrite (Hdom _ Hr). by apply elem_of_list_to_set. }
      rewrite Hv. by rewrite !union_Some_l.
    + by rewrite lookup_insert_ne.
  - rewrite fill_step_notin by done. rewrite IH; [|done|].
    + unfold set_column. cbn [rows]. rewrite <- list_fmap_compose.
      apply list_fmap_ext. intros i r Hr. apply list_elem_of_lookup_2 in Hr.
      cbn. rewrite <- insert_union_l. rewrite insert_union_r; [done|].
      apply not_elem_of_dom. rewrite (Hdom _ Hr). by rewrite elem_of_list_to_set.
    + intros r Hr. rewrite set_column_new_names by done.
      unfold set_column in Hr. cbn [rows] in Hr.
      apply list_elem_of_fmap in Hr as [r0 [-> Hr0]].
      rewrite dom_insert_L, (Hdom _ Hr0). rewrite list_to_set_app_L.
      cbn. set_solver.
Qed.

Lemma filter_fst_fmap {B} (X : list string) (l : list (string * B)) :
  (filter (λ p, p.1 ∉ X) l).*1 = filter (λ c, c ∉ X) l.*1.
Proof.
  induction l as [|[c d] l IH]; [done|].
  rewrite fmap_cons, !filter_cons. cbn [fst].
  destruct (decide (c ∉ X)); [rewrite fmap_cons|]; by rewrite IH.
Qed.

Lemma lookup_list_to_map_filter {B} (X : list string) (l : list (string * B)) c :
  (list_to_map (filter (λ p, p.1 ∉ X) l) : gmap string B) !! c
  = if decide (c ∉ X) then (list_to_map l : gmap string B) !! c else None.
Proof.
  induction l as [|[c' d] l IH].
  { cbn. rewrite lookup_empty. by destruct (decide (c ∉ X)). }
  rewrite filter_cons. cbn [fst]. rewrite list_to_map_cons.
  destruct (decide (c' ∉ X)) as [Hp'|Hp'].
  - rewrite list_to_map_cons. destruct (decide (c' = c)) as [->|Hne].
    + rewrite !lookup_insert_eq. by rewrite decide_True.
    + by rewrite !lookup_insert_ne.
  - rewrite IH. destruct (decide (c ∉ X)) as [Hp|Hp]; [|done].
    rewrite lookup_insert_ne; [done|]. by intros ->.
Qed.

Lemma lookup_list_to_map_fmap {B C} (h : string → B → C) (l : list (string * B)) c :
  (list_to_map ((λ p, (p.1, h p.1 p.2)) <$> l) : gmap string C) !! c
  = h c <$> ((list_to_map l : gmap string B) !! c).
Proof.
  induction l as [|[c' d] l IH]; [done|].
  rewrite fmap_cons. cbn [fst snd]. rewrite !list_to_map_cons.
  destruct (decide (c' = c)) as [->|Hne].
  - by rewrite !lookup_insert_eq.
  - by rewrite !lookup_insert_ne.
Qed.



Lemma union_absorb (r m : gmap string cell) : dom m ⊆ dom r → r ∪ m = r.
Proof.
  intros Hd. apply map_eq. intros i. rewrite lookup_union.
  destruct (r !! i) as [v|] eqn:Hr; [by rewrite union_Some_l|].
  apply not_elem_of_dom in Hr.
  assert (m !! i = None) as -> by (apply not_elem_of_dom; set_solver).
  done.
Qed.

Lemma fill_missing_columns T S :
  NoDup (names S) →
  columns (fill_missing T S) = columns T ++ filter (λ p, p.1 ∉ names T) (columns S).
Proof. apply fold_fill_columns. Qed.

Lemma fill_missing_names T S :
  NoDup (names S) →
  names (fill_missing T S) = names T ++ filter (λ c, c ∉ names T) (names S).
Proof.
  intros H. unfold names at 1. rewrite fill_missing_columns by done.
  rewrite fmap_app. f_equal. apply filter_fst_fmap.
Qed.

Lemma fill_missing_rows T S :
  wf T → NoDup (names S) →
  rows (fill_missing T S) = (λ r, r ∪ defaults_of S) <$> rows T.
Proof. intros [_ Hd] Hs. by apply fold_fill_rows. Qed.

Lemma fill_missing_dtype T S c :
  NoDup (names S) →
  dtype_of (fill_missing T S) c
  = match dtype_of T c with Some d => Some d | None => dtype_of S c end.
Proof.
  intros Hs. unfold dtype_of at 1. rewrite fill_missing_columns by done.
  rewrite list_to_map_app, lookup_union.
  fold (dtype_of T c).
  rewrite lookup_list_to_map_filter.
  destruct (dtype_of T c) as [d|] eqn:Hd.
  - by rewrite union_Some_l.
  - rewrite (left_id_L None _). apply dtype_of_None in Hd. by rewrite decide_True.
Qed.

Lemma elem_of_fill_missing_names T S c :
  NoDup (names S) → c ∈ names (fill_missing T S) ↔ c ∈ names T ∨ c ∈ names S.
Proof.
  intros H. rewrite fill_missing_names by done.
  rewrite elem_of_app, list_elem_of_filter.
  destruct (decide (c ∈ names T)); tauto.
Qed.

Lemma fill_missing_wf T S : wf T → NoDup (names S) → wf (fill_missing T S).
Proof.
  intros HT Hs. split.
  - rewrite fill_missing_names by done. apply NoDup_app. split; [apply HT|].
    split; [|by apply NoDup_filter].
    intros x Hx Hx'. apply list_elem_of_filter in Hx' as [? _]. done.
  - intros r Hr. rewrite fill_missing_rows in Hr by done.
    apply list_elem_of_fmap in Hr as [r0 [-> Hr0]].
    rewrite dom_union_L, dom_defaults_of. destruct HT as [_ HT]. rewrite (HT _ Hr0).
    apply set_eq. intros x. rewrite elem_of_union, !elem_of_list_to_set.
    by rewrite elem_of_fill_missing_names.
Qed.

Lemma filter_none {A} (P : A → Prop) `{!∀ x, Decision (P x)} (l : list A) :
  (∀ x, x ∈ l → ¬ P x) → filter P l = [].
Proof.
  induction l as [|a l IH]; intros Hn; [done|].
  rewrite filter_cons, decide_False by (apply Hn; by left).
  apply IH. intros x Hx. apply Hn. by right.
Qed.

Lemma select_spec df cols :
  NoDup cols → (∀ c, c ∈ cols → c ∈ names df) → NoDup (names df) →
  ∃ a, select df cols = Some a ∧ names a = cols
       ∧ (∀ c, c ∈ cols → dtype_of a c = dtype_of df c)
       ∧ rows a = (λ r : gmap string cell, filter (λ kv, kv.1 ∈ cols) r) <$> rows df.
Proof.
  intros Hnd Hsub Hdf. unfold select.
  destruct (mapM (λ c, (λ dt, (c, dt)) <$> dtype_of df c) cols) as [cs|] eqn:Hm.
  - cbn. eexists. split; [done|]. cbn.
    apply mapM_Some_1 in Hm.
    assert (cs.*1 = cols ∧ ∀ c d, (c, d) ∈ cs → dtype_of df c = Some d) as [Hn Hd].
    { clear Hnd Hsub. induction Hm as [|c [c' d] cols cs Hc Hm IH]; [by split; [|intros ?? ?%elem_of_nil]|].
      destruct IH as [IH1 IH2].
      destruct (dtype_of df c) as [d0|] eqn:Hd0; [|done]. cbn in Hc. injection Hc as <- <-.
      split; [by rewrite fmap_cons, IH1|].
      intros c1 d1 [Heq|Hin]%elem_of_cons; [by injection Heq as -> ->|by apply IH2]. }
    split; [done|]. split; [|done].
    intros c Hc. unfold dtype_of at 1. cbn.
    destruct (dtype_of_Some df c Hdf (Hsub c Hc)) as [d Hdc]. rewrite Hdc.
    apply elem_of_list_to_map; [by rewrite Hn|].
    rewrite <- Hn in Hc. apply list_elem_of_fmap in Hc as [[c2 d2] [-> Hin]].
    pose proof (Hd _ _ Hin) as H2. cbn [fst] in *. rewrite H2 in Hdc. by injection Hdc as <-.
  - exfalso. assert (is_Some (mapM (λ c, (λ dt, (c, dt)) <$> dtype_of df c) cols)) as [? Hs].
    { apply mapM_is_Some. apply Forall_forall. intros c Hc. cbn.
      destruct (dtype_of_Some df c Hdf (Hsub c Hc)) as [d ->]. by eexists. }
    congruence.
Qed.

Lemma concat_same a b :
  names a = names b → wf a → wf b →
  names (concat a b) = names a
  ∧ (∀ c, dtype_of (concat a b) c
          = (λ d, match dtype_of b c with Some dt => join_dtype d dt | None => d end)
            <$> dtype_of a c)
  ∧ rows (concat a b) = rows a ++ rows b.
Proof.
  intros Hn [Ha Hra] [Hb Hrb].
  assert (filter (λ p, p.1 ∉ names a) (columns b) = []) as Hf.
  { apply filter_none. intros [c d] Hin Hc. apply Hc. rewrite Hn.
    apply list_elem_of_fmap. by exists (c, d). }
  assert (Hcols : columns (concat a b)
    = (λ p, (p.1, (λ c d, match dtype_of b c with
                          | Some dt => join_dtype d dt | None => d end) p.1 p.2))
      <$> columns a).
  { unfold concat. cbn [columns]. rewrite Hf, app_nil_r.
    apply list_fmap_ext. intros i [c d] _. cbn [fst snd].
    by destruct (dtype_of b c). }
  assert (Hnames : names (concat a b) = names a).
  { unfold names. rewrite Hcols. rewrite <- list_fmap_compose.
    apply list_fmap_ext. by intros i [c d] _. }
  split; [done|]. split.
  - intros c. unfold dtype_of at 1. rewrite Hcols.
    exact (lookup_list_to_map_fmap
             (λ c d, match dtype_of b c with Some dt => join_dtype d dt | None => d end)
             (columns a) c).
  - unfold concat. cbn [rows].
    assert (Hnan : dom (nan_row (columns (concat a b))) = list_to_set (names a)).
    { unfold nan_row. rewrite dom_list_to_map_L. f_equal.
      rewrite <- Hnames. unfold names. rewrite <- list_fmap_compose.
      apply list_fmap_ext. by intros i [c d] _. }
    unfold concat in Hnan. cbn [columns] in Hnan.
    f_equal.
    + rewrite <- (list_fmap_id (rows a)) at 2. apply list_fmap_ext. intros i r Hr.
      apply list_elem_of_lookup_2 in Hr. cbn. apply union_absorb.
      rewrite Hnan, (Hra _ Hr). done.
    + rewrite <- (list_fmap_id (rows b)) at 2. apply list_fmap_ext. intros i r Hr.
      apply list_elem_of_lookup_2 in Hr. cbn. apply union_absorb.
      rewrite Hnan, (Hrb _ Hr), Hn. done.
Qed.

Local Abbreviation key := (λ r : gmap string cell, r !! "userid").
Local Abbreviation ddl := (drop_duplicates_last "userid").












End FrameFacts.

(** ** Dataset merger *)

Module MergerFacts.
Import Frame Merger FrameFacts Examples.




End MergerFacts.


(** ** What the scheduler writes *)

Module Footprint.
Import Frame Sys Merger Scheduler Spec.

Section Within.
Context (S : string → Prop).

Lemma within_ret {A} (a : A) : writes_within S (mret a).
Proof. by intros w. Qed.

Lemma within_raise {A} (e : exn) : writes_within S (raise e : M A).
Proof. by intros w. Qed.

Lemma within_bind {A B} (m : M A) (k : A → M B) :
  writes_within S m → (∀ a, writes_within S (k a)) → writes_within S (m ≫= k).
Proof.
  intros Hm Hk w. unfold mbind, M_bind. specialize (Hm w).
  destruct (m w) as [[e|a] w1]; [done|].
  specialize (Hk a w1). cbn [snd] in *. destruct Hm as [Hm1 Hm2], Hk as [Hk1 Hk2].
  split; [|congruence]. intros p Hp. by rewrite Hk1, Hm1.
Qed.

Lemma within_try_except {A} (m : M A) (h : exn → M A) :
  writes_within S m → (∀ e, writes_within S (h e)) → writes_within S (try_except m h).
Proof.
  intros Hm Hh w. unfold try_except. specialize (Hm w).
  destruct (m w) as [[e|a] w1]; [|done].
  specialize (Hh e w1). cbn [snd] in *. destruct Hm as [Hm1 Hm2], Hh as [Hh1 Hh2].
  split; [|congruence]. intros p Hp. by rewrite Hh1, Hm1.
Qed.

Lemma within_print line : writes_within S (print line).
Proof. by intros w. Qed.

Lemma within_has_data p : writes_within S (has_data p).
Proof. by intros w. Qed.

Lemma within_read_csv p : writes_within S (read_csv p).
Proof. intros w. unfold read_csv. by destruct (files w !! p) as [[]|]. Qed.

Lemma within_write_file p c : S p → writes_within S (write_file p c).
Proof.
  intros Hp w. unfold write_file. case_decide; [done|]. cbn. split; [|done].
  intros q Hq. rewrite lookup_insert_ne; [done|]. by intros ->.
Qed.

Lemma within_subprocess env cmd : writes_within S (subprocess_ok env cmd).
Proof. by intros w. Qed.

End Within.

Lemma within_weaken {A} (S S' : string → Prop) (m : M A) :
  (∀ p, S p → S' p) → writes_within S m → writes_within S' m.
Proof.
  intros HS Hm w. destruct (Hm w) as [H1 H2]. split; [|done].
  intros p Hp. apply H1. eauto.
Qed.

Lemma to_csv_footprint df p w :
  (∀ q, q ≠ p → files (to_csv df p w).2 !! q = files w !! q)
  ∧ readonly (to_csv df p w).2 = readonly w.
Proof.
  destruct (within_write_file (λ q, q = p) p (Csv df) eq_refl w) as [H1 H2].
  split; [|done]. intros q Hq. by apply H1.
Qed.

Lemma append_try_footprint new_df target w :
  (∀ p, p ≠ path_str target →
        files (append_try new_df target w).2 !! p = files w !! p)
  ∧ readonly (append_try new_df target w).2 = readonly w.
Proof.
  unfold append_try, has_data, read_csv.
  destruct (files w !! path_str target) as [[| |df|j]|] eqn:Hf.
  - pose proof (to_csv_footprint new_df (path_str target) w) as Hw.
    by destruct (to_csv new_df (path_str target) w).
  - done.
  - destruct (merge df new_df) as [combined|]; [|done].
    pose proof (to_csv_footprint combined (path_str target) w) as Hw.
    by destruct (to_csv combined (path_str target) w).
  - done.
  - pose proof (to_csv_footprint new_df (path_str target) w) as Hw.
    by destruct (to_csv new_df (path_str target) w).
Qed.

Lemma within_append env new_df target :
  writes_within (λ p, p = path_str target ∨ p = fallback_path env target)
    (append_or_create_csv env new_df target).
Proof.
  intros w. unfold append_or_create_csv.
  pose proof (append_try_footprint new_df target w) as Htry.
  destruct (append_try new_df target w) as [[[e|[]] df'] w1]; cbn [snd] in *.
  - destruct Htry as [H1 H2].
    pose proof (within_bind (λ p, p = fallback_path env target)
      (to_csv df' (fallback_path env target))
      (λ _, print (line_append_error (path_name target) e (fallback_path env target)))
      (within_write_file _ _ _ eq_refl) (λ _, within_print _ _) w1) as [H3 H4].
    split; [|congruence]. intros p Hp. rewrite H3 by tauto. apply H1. tauto.
  - destruct Htry as [H1 H2]. split; [|done]. intros p Hp. apply H1. tauto.
Qed.

Ltac within_step :=
  first
    [ apply within_ret | apply within_raise | apply within_print
    | apply within_has_data | apply within_read_csv | apply within_subprocess
    | apply within_bind; [|intros ?]
    | apply within_try_except; [|intros ?]
    | match goal with
      | |- writes_within _ (if ?b then _ else _) => destruct b
      | |- writes_within _ (match ?x with _ => _ end) => destruct x
      end ].

Lemma within_split env : writes_within (split_paths env) (split_dataset env).
Proof.
  unfold split_dataset, str_accessor.
  repeat within_step.
  all: try (eapply within_weaken; [|apply within_append]; unfold split_paths; tauto).
Qed.

Lemma within_train_model S env script name : writes_within S (train_model env script name).
Proof. unfold train_model. repeat within_step. Qed.

Lemma within_run_script S env script args name :
  writes_within S (Scheduler.run_script env script args name).
Proof. unfold Scheduler.run_script. repeat within_step. Qed.

Lemma within_counter S counters k : writes_within S (counter counters k).
Proof. unfold counter. repeat within_step. Qed.

Lemma within_process_new_data env :
  writes_within (scheduler_paths env) (process_new_data env).
Proof.
  unfold process_new_data, update_counters, add_counter, check_model_a, check_model_b,
    load_counters, save_counters, copy_file.
  repeat first
    [ eapply within_weaken; [|apply within_split]; unfold scheduler_paths; tauto
    | apply within_train_model | apply within_run_script | apply within_counter
    | apply within_write_file; unfold scheduler_paths; tauto
    | within_step ].
  - intros w; by destruct (files w !! COUNTER_FILE) as [[]|].
  - intros w. destruct (files w !! path_str PREPROCESSED_UPLOADS); [|done].
    apply within_write_file. unfold scheduler_paths; tauto.
Qed.

End Footprint.

(** ** Upload ingestor *)

Module IngestorFacts.
Import Frame Sys Merger Scheduler Ingestor Spec FrameFacts Footprint Examples.

Implicit Types (df : DataFrame) (r : gmap string cell) (c : string).

Lemma names_drop_column df c : names (drop_column df c) = filter (λ x, x ≠ c) (names df).
Proof.
  unfold names, drop_column. cbn [columns].
  induction (columns df) as [|[x d] l IH]; [done|].
  rewrite fmap_cons, !filter_cons. cbn [fst].
  destruct (decide (x ≠ c)); [rewrite fmap_cons|]; by rewrite IH.
Qed.

Lemma wf_drop_column df c : wf df → wf (drop_column df c).
Proof.
  intros [Hn Hd]. split.
  - rewrite names_drop_column. by apply NoDup_filter.
  - intros r Hr. unfold drop_column in Hr. cbn [rows] in Hr.
    apply list_elem_of_fmap in Hr as [r0 [-> Hr0]].
    rewrite dom_delete_L, (Hd _ Hr0), names_drop_column.
    apply set_eq. intros x.
    rewrite elem_of_difference, !elem_of_list_to_set, list_elem_of_filter,
      elem_of_singleton. tauto.
Qed.

Lemma column_cells_ext (f : gmap string cell → gmap string cell) c rs cols :
  (∀ r, r ∈ rs → f r !! c = r !! c) →
  column_cells (mkFrame cols (f <$> rs)) c = omap (λ r : gmap string cell, r !! c) rs.
Proof.
  intros Hf. unfold column_cells. cbn [rows].
  induction rs as [|r rs IH]; [done|].
  rewrite fmap_cons. csimpl. rewrite Hf by (by left).
  rewrite IH; [done|]. intros r' Hr'. apply Hf. by right.
Qed.

Lemma column_cells_drop_other df c c' :
  c ≠ c' → column_cells (drop_column df c') c = column_cells df c.
Proof.
  intros Hne. unfold drop_column. rewrite column_cells_ext; [done|].
  intros r _. by rewrite lookup_delete_ne.
Qed.

Lemma wf_column_cells df c :
  wf df → c ∈ names df → length (column_cells df c) = len df.
Proof.
  intros [_ Hd] Hc. unfold column_cells, len.
  induction (rows df) as [|r rs IH]; [done|]. csimpl.
  assert (is_Some (r !! c)) as [v ->].
  { apply elem_of_dom. rewrite Hd by (by left). by apply elem_of_list_to_set. }
  cbn. f_equal. apply IH. intros r' Hr'. apply Hd. by right.
Qed.

(** the identifiers a batch is given *)
Lemma column_cells_insert_userid start df :
  column_cells (insert_userid start df) "userid"
  = (λ z, Num z) <$> seqZ start (Z.of_nat (len df)).
Proof.
  unfold column_cells, insert_userid, len. cbn [rows].
  generalize dependent start.
  induction (rows df) as [|r rs IH]; intros start; [done|].
  csimpl. rewrite lookup_insert_eq. csimpl.
  rewrite Nat2Z.inj_succ, seqZ_cons by lia. rewrite fmap_cons.
  rewrite Z.add_0_r. f_equal.
  rewrite Z.pred_succ. rewrite <- IH.
  f_equal. apply imap_ext. intros i x _. cbn. f_equal. f_equal. lia.
Qed.

Lemma len_insert_userid start df : len (insert_userid start df) = len df.
Proof. unfold len, insert_userid. cbn. by rewrite length_imap. Qed.

Lemma wf_insert_userid start df :
  wf df → "userid" ∉ names df → wf (insert_userid start df).
Proof.
  intros [Hn Hd] Hu. split.
  - unfold names, insert_userid. cbn. constructor; done.
  - intros r Hr. unfold insert_userid in Hr. cbn [rows] in Hr.
    apply list_elem_of_lookup in Hr as [i Hi].
    rewrite list_lookup_imap in Hi.
    destruct (rows df !! i) as [r0|] eqn:Hr0; [|done]. cbn in Hi. injection Hi as <-.
    rewrite dom_insert_L. rewrite (Hd r0) by (by eapply list_elem_of_lookup_2).
    done.
Qed.

Lemma run_bind {A B} (m : M A) (k : A → M B) w :
  (m ≫= k) w = match m w with
               | (inr a, w') => k a w'
               | (inl e, w') => (inl e, w')
               end.
Proof. done. Qed.

Lemma fill_blank_fill_missing df cols :
  fill_blank df cols = fill_missing df (mkFrame ((λ c, (c, Object)) <$> cols) []).
Proof.
  unfold fill_blank, fill_missing. cbn [columns]. by rewrite foldl_fmap.
Qed.

Lemma lookup_filter_in (cols : list string) r c :
  c ∈ cols → filter (λ kv : string * cell, kv.1 ∈ cols) r !! c = r !! c.
Proof.
  intros Hc. destruct (r !! c) as [v|] eqn:Hr.
  - by apply map_lookup_filter_Some_2.
  - apply map_lookup_filter_None_2. by left.
Qed.

Lemma select_wf df cols a :
  wf df → NoDup cols → (∀ c, c ∈ cols → c ∈ names df) →
  select df cols = Some a → wf a.
Proof.
  intros [Hn Hd] Hnd Hsub Ha.
  destruct (select_spec df cols Hnd Hsub Hn) as (a' & Ha' & Hna & _ & Hra).
  rewrite Ha in Ha'. injection Ha' as <-.
  split; [by rewrite Hna|].
  intros r Hr. rewrite Hra in Hr. apply list_elem_of_fmap in Hr as [r0 [-> Hr0]].
  rewrite Hna. apply dom_filter_L. intros i. rewrite elem_of_list_to_set. split.
  - intros Hi. assert (is_Some (r0 !! i)) as [v Hv].
    { apply elem_of_dom. rewrite (Hd _ Hr0). apply elem_of_list_to_set. by apply Hsub. }
    by exists v.
  - by intros (v & _ & Hi).
Qed.

Lemma select_cells df cols a c :
  NoDup (names df) → NoDup cols → (∀ c, c ∈ cols → c ∈ names df) → c ∈ cols →
  select df cols = Some a → column_cells a c = column_cells df c.
Proof.
  intros Hn Hnd Hsub Hc Ha.
  destruct (select_spec df cols Hnd Hsub Hn) as (a' & Ha' & Hna & _ & Hra).
  rewrite Ha in Ha'. injection Ha' as <-.
  unfold column_cells at 1. rewrite Hra.
  pose proof (column_cells_ext (λ r, filter (λ kv, kv.1 ∈ cols) r) c (rows df) []) as He.
  unfold column_cells in He at 1. cbn [rows] in He. rewrite He; [done|].
  intros r _. by apply lookup_filter_in.
Qed.

Lemma select_len df cols a :
  NoDup (names df) → NoDup cols → (∀ c, c ∈ cols → c ∈ names df) →
  select df cols = Some a → len a = len df.
Proof.
  intros Hn Hnd Hsub Ha.
  destruct (select_spec df cols Hnd Hsub Hn) as (a' & Ha' & Hna & _ & Hra).
  rewrite Ha in Ha'. injection Ha' as <-.
  unfold len. by rewrite Hra, length_fmap.
Qed.

Lemma column_cells_fill_missing T S c :
  wf T → NoDup (names S) → c ∈ names T →
  column_cells (fill_missing T S) c = column_cells T c.
Proof.
  intros HT HS Hc. unfold column_cells at 1. rewrite fill_missing_rows by done.
  pose proof (column_cells_ext (λ r, r ∪ defaults_of S) c (rows T) []) as He.
  unfold column_cells in He at 1. cbn [rows] in He. rewrite He; [done|].
  intros r Hr. rewrite lookup_union.
  assert (is_Some (r !! c)) as [v ->].
  { apply elem_of_dom. rewrite (proj2 HT _ Hr). by apply elem_of_list_to_set. }
  by rewrite union_Some_l.
Qed.

Lemma len_fill_missing T S : wf T → NoDup (names S) → len (fill_missing T S) = len T.
Proof. intros. unfold len. by rewrite fill_missing_rows, length_fmap. Qed.

Lemma concat_same_wf a b : names a = names b → wf a → wf b → wf (concat a b).
Proof.
  intros Hn Ha Hb. destruct (concat_same a b Hn Ha Hb) as (Hnc & _ & Hrc).
  split; [rewrite Hnc; apply Ha|].
  intros r Hr. rewrite Hrc in Hr. rewrite Hnc.
  apply elem_of_app in Hr as [Hr|Hr]; [by apply Ha|]. rewrite Hn. by apply Hb.
Qed.

Lemma concat_same_cells a b c :
  names a = names b → wf a → wf b →
  column_cells (concat a b) c = column_cells a c ++ column_cells b c.
Proof.
  intros Hn Ha Hb. destruct (concat_same a b Hn Ha Hb) as (_ & _ & Hrc).
  unfold column_cells. rewrite Hrc. apply omap_app.
Qed.


Lemma names_fill_blank_frame (cols : list string) :
  names (mkFrame ((λ c, (c, Object)) <$> cols) []) = cols.
Proof.
  unfold names. cbn [columns]. rewrite <- list_fmap_compose.
  rewrite <- (list_fmap_id cols) at 2. by apply list_fmap_ext.
Qed.

Lemma Forall2_imap_r {A B} (R : A → B → Prop) (f : nat → A → B) (l : list A) :
  (∀ i x, l !! i = Some x → R x (f i x)) → Forall2 R l (imap f l).
Proof.
  revert f. induction l as [|x l IH]; intros f Hf; [constructor|].
  cbn. constructor; [by apply Hf|]. apply IH. intros i y Hy. by apply Hf.
Qed.

Lemma dtype_of_drop_other df c c' :
  c ≠ c' → dtype_of (drop_column df c') c = dtype_of df c.
Proof.
  intros Hne. unfold dtype_of, drop_column. cbn [columns].
  induction (columns df) as [|[x d] l IH]; [done|].
  rewrite filter_cons. cbn [fst]. destruct (decide (x ≠ c')) as [Hx|Hx].
  - rewrite !list_to_map_cons. destruct (decide (x = c)) as [->|Hxc].
    + by rewrite !lookup_insert_eq.
    + by rewrite !lookup_insert_ne.
  - rewrite list_to_map_cons, lookup_insert_ne; [done|].
    intros ->. apply Hx. done.
Qed.

Lemma keeps_stamped start batch : keeps_cells batch (stamped start batch).
Proof.
  split.
  - unfold stamped, insert_userid, drop_column. cbn [rows].
    rewrite imap_fmap. apply Forall2_imap_r. intros i r _ c Hc _ _. cbn.
    rewrite lookup_insert_ne by done. by rewrite lookup_delete_ne.
  - intros c Hc _ _. unfold stamped, insert_userid, dtype_of at 1. cbn [columns].
    rewrite list_to_map_cons, lookup_insert_ne by done.
    by apply dtype_of_drop_other.
Qed.

Lemma names_stamped start batch :
  names (stamped start batch) = "userid" :: filter (λ c, c ≠ "userid") (names batch).
Proof. unfold stamped, insert_userid, names at 1. cbn. f_equal. apply names_drop_column. Qed.

Lemma assign_userids_spec batch w :
  wf batch → main_ready w →
  ∃ U C,
    assign_userids batch w = (inr (next_userid (nums (main_cells w)), U, C), w)
    ∧ wf U ∧ "userid" ∈ names U ∧ len U = len batch
    ∧ column_cells U "userid"
      = (λ z, Num z) <$> seqZ (next_userid (nums (main_cells w))) (Z.of_nat (len batch))
    ∧ wf C ∧ "userid" ∈ names C
    ∧ column_cells C "userid" = main_cells w ++ column_cells U "userid"
    ∧ keeps_cells batch U
    ∧ (∃ pre, rows C = pre ++ rows U)
    ∧ (∀ c, c ∈ names C ↔ c ∈ names U)
    ∧ (∀ c, c ∈ names U ↔ expected_columns w batch c)
    ∧ (holds_data (files w) (path_str MAIN_DATASET) = false →
       U = stamped 2000 batch ∧ C = U).
Proof.
  intros Hb Hready.
  assert (HU0 : ∀ start, wf (stamped start batch)).
  { intros start. apply wf_insert_userid; [by apply wf_drop_column|].
    rewrite names_drop_column. by intros [? _]%list_elem_of_filter. }
  assert (Hlen0 : ∀ start, len (stamped start batch) = len batch).
  { intros start. unfold stamped. rewrite len_insert_userid.
    unfold len, drop_column. cbn. by rewrite length_fmap. }
  assert (Hcells0 : ∀ start, column_cells (stamped start batch) "userid"
            = (λ z, Num z) <$> seqZ start (Z.of_nat (len batch))).
  { intros start. unfold stamped. rewrite column_cells_insert_userid.
    assert (len (drop_column batch "userid") = len batch) as ->; [|done].
    unfold len, drop_column. cbn. by rewrite length_fmap. }
  assert (Hnodata :
    ∃ U C, (inr (2000%Z, stamped 2000 batch, stamped 2000 batch), w)
           = (inr (2000%Z, U, C) : exn + _, w)
      ∧ wf U ∧ "userid" ∈ names U ∧ len U = len batch
      ∧ column_cells U "userid" = (λ z, Num z) <$> seqZ 2000 (Z.of_nat (len batch))
      ∧ wf C ∧ "userid" ∈ names C
      ∧ column_cells C "userid" = [] ++ column_cells U "userid"
      ∧ keeps_cells batch U
      ∧ (∃ pre, rows C = pre ++ rows U)
      ∧ (∀ c, c ∈ names C ↔ c ∈ names U)
      ∧ (∀ c, c ∈ names U ↔ c = "userid" ∨ c ∈ names batch)
      ∧ U = stamped 2000 batch ∧ C = U).
  { eexists _, _. split; [done|]. rewrite Hcells0, Hlen0.
    split; [apply HU0|]. split; [rewrite names_stamped; by left|]. split; [done|].
    split; [done|]. split; [apply HU0|]. split; [rewrite names_stamped; by left|].
    split; [done|]. split; [apply keeps_stamped|]. split; [by exists []|].
    split; [done|]. split; [|done].
    intros c. rewrite names_stamped, elem_of_cons, list_elem_of_filter.
    destruct (decide (c = "userid")); tauto. }
  unfold main_ready in Hready. unfold main_cells, holds_data, expected_columns.
  unfold assign_userids. rewrite run_bind. unfold has_data at 1.
  destruct (files w !! path_str MAIN_DATASET) as [[| |df|j]|] eqn:Hf; try done.
  1, 3: (destruct Hnodata as (U & C & Heq & H1 & H2 & H3 & H4 & H5 & H6 & H7 & H8
                              & H9 & H10 & H13 & H11 & H12);
         exists U, C; injection Heq as <- <-; cbn beta iota;
         repeat (split; [done|]); done).
  - destruct Hready as (Hwf & Hu & Hstr & Hnum).
    rewrite run_bind. unfold read_csv at 1. rewrite Hf.
    set (main' := if decide ("Unnamed: 0" ∈ names df)
                  then drop_column df "Unnamed: 0" else df).
    assert (Hwf' : wf main').
    { unfold main'. case_decide; [by apply wf_drop_column|done]. }
    assert (Hu' : "userid" ∈ names main').
    { unfold main'. case_decide; [|done]. rewrite names_drop_column.
      apply list_elem_of_filter. by split. }
    assert (Hcells : column_cells main' "userid" = column_cells df "userid").
    { unfold main'. case_decide; [|done]. by apply column_cells_drop_other. }
    cbn zeta. fold main'. rewrite run_bind.
    rewrite (decide_True _ _ Hu'). unfold int_max. rewrite Hcells, Hstr.
    destruct (nums (column_cells df "userid")) as [|z zs] eqn:Hn; [done|].
    cbn [next_userid]. set (start := (foldr Z.max z zs + 1)%Z).
    unfold mret at 1, M_ret at 1. rewrite run_bind.
    fold (stamped start batch).
    set (U0 := stamped start batch).
    assert (HwU0 : wf U0) by apply HU0.
    assert (HnS : NoDup (names (mkFrame ((λ c, (c, Object)) <$> names main') []))).
    { rewrite names_fill_blank_frame. apply Hwf'. }
    assert (HwF : wf (fill_blank U0 (names main'))).
    { rewrite fill_blank_fill_missing. by apply fill_missing_wf. }
    assert (HinF : ∀ c, c ∈ names main' → c ∈ names (fill_blank U0 (names main'))).
    { intros c Hc. rewrite fill_blank_fill_missing.
      apply elem_of_fill_missing_names; [done|].
      right. by rewrite names_fill_blank_frame. }
    destruct (select_spec (fill_blank U0 (names main')) (names main'))
      as (U & HU & HnU & HdU & HrU); [apply Hwf'|done|apply HwF|].
    cbn beta iota zeta. rewrite (decide_True _ _ Hu'). fold start.
    change (insert_userid start (drop_column batch "userid")) with U0.
    rewrite HU. unfold mret, M_ret. cbn beta iota.
    assert (HwU : wf U) by (eapply select_wf; [apply HwF|apply Hwf'|done|done]).
    assert (HcU : column_cells U "userid" = column_cells U0 "userid").
    { rewrite (select_cells _ _ _ _ (proj1 HwF) (proj1 Hwf') HinF Hu' HU).
      rewrite fill_blank_fill_missing. apply column_cells_fill_missing; [done|done|].
      unfold U0. rewrite names_stamped. by left. }
    assert (HlU : len U = len batch).
    { rewrite (select_len _ _ _ (proj1 HwF) (proj1 Hwf') HinF HU).
      rewrite fill_blank_fill_missing, len_fill_missing by done. apply Hlen0. }
    destruct (concat_same main' U) as (HnC & _ & HrC); [done..|].
    exists U, (concat main' U). split; [reflexivity|].
    assert (Hnn : names main' = names U) by done.
    split; [done|]. split; [by rewrite HnU|]. split; [done|].
    split; [by rewrite HcU; apply Hcells0|].
    split; [by apply concat_same_wf|]. split; [by rewrite HnC|].
    split; [rewrite concat_same_cells by done; by rewrite Hcells|].
    split; [|split; [by eexists|split; [by intros c; rewrite HnC, Hnn|split; [|done]]]].
    2:{ intros c. rewrite <- Hnn. unfold main'. case_decide as Hun.
        - rewrite names_drop_column, list_elem_of_filter.
          split; [tauto|]. intros [->|[? ?]]; [|done]. by split.
        - split; [|intros [->|[? ?]]; done].
          intros Hc. right. split; [done|]. by intros ->. }
    split.
    + rewrite HrU, fill_blank_fill_missing, fill_missing_rows by done.
      rewrite <- list_fmap_compose.
      unfold U0, stamped, insert_userid, drop_column. cbn [rows].
      rewrite imap_fmap, fmap_imap. apply Forall2_imap_r.
      intros i r Hr c Hc Hcb HcU'. cbn. rewrite HnU in HcU'.
      rewrite lookup_filter_in by done. rewrite lookup_union.
      rewrite lookup_insert_ne by done. rewrite lookup_delete_ne by done.
      assert (is_Some (r !! c)) as [v ->].
      { apply elem_of_dom. rewrite (proj2 Hb r) by (by eapply list_elem_of_lookup_2).
        by apply elem_of_list_to_set. }
      by rewrite union_Some_l.
    + intros c Hc Hcb HcU'. rewrite HnU in HcU'. rewrite HdU by done.
      rewrite fill_blank_fill_missing, fill_missing_dtype by done. unfold U0.
      rewrite (proj2 (keeps_stamped start batch) c Hc Hcb).
      * destruct (dtype_of_Some batch c (proj1 Hb) Hcb) as [d ->]. done.
      * rewrite names_stamped. right. apply list_elem_of_filter. by split.
Qed.

Lemma userid_first_spec U w :
  wf U → "userid" ∈ names U →
  ∃ U', userid_first U w = (inr U', w)
    ∧ wf U' ∧ rows U' = rows U
    ∧ (∀ c, c ∈ names U' ↔ c ∈ names U)
    ∧ (∀ c, c ∈ names U → dtype_of U' c = dtype_of U c).
Proof.
  intros HU Hu. unfold userid_first.
  case_decide as Hc; [|by exists U].
  set (cols := "userid" :: filter (λ c, c ≠ "userid") (names U)).
  assert (Hnd : NoDup cols).
  { constructor; [by intros [? _]%list_elem_of_filter|]. apply NoDup_filter, HU. }
  assert (Hin : ∀ c, c ∈ cols ↔ c ∈ names U).
  { intros c. unfold cols. rewrite elem_of_cons, list_elem_of_filter.
    destruct (decide (c = "userid")) as [->|]; tauto. }
  destruct (select_spec U cols Hnd) as (U' & HU' & Hn' & Hd' & Hr');
    [by intros c ?%Hin|apply HU|].
  rewrite HU'. exists U'. split; [done|].
  assert (Hrows : rows U' = rows U).
  { rewrite Hr'. rewrite <- (list_fmap_id (rows U)) at 2.
    apply list_fmap_ext. intros i r Hr. apply list_elem_of_lookup_2 in Hr.
    apply map_filter_id. intros k x Hk. cbn. apply Hin.
    apply (elem_of_list_to_set (C:=gset string)).
    rewrite <- (proj2 HU _ Hr). by apply elem_of_dom. }
  split; [|split; [done|split]].
  - eapply select_wf; [apply HU|done| |done]. by intros c ?%Hin.
  - intros c. by rewrite Hn'.
  - intros c Hc'. apply Hd'. by apply Hin.
Qed.

Lemma column_cells_rows a b c : rows a = rows b → column_cells a c = column_cells b c.
Proof. unfold column_cells. by intros ->. Qed.

Lemma lookup_preprocess_excluded mean df r c :
  c ∈ exclude_cols → 
  map_imap (λ c v, Some (if decide (c ∈ filter (λ c, dtype_of df c = Some Numeric
                                                  ∧ c ∉ exclude_cols) (names df))
                         then fillna_mean mean df c v else v)) r !! c = r !! c.
Proof.
  intros Hc. rewrite map_lookup_imap. destruct (r !! c) as [v|]; [|done]. cbn.
  rewrite decide_False; [done|]. intros [[_ ?] _]%list_elem_of_filter. done.
Qed.

Lemma column_cells_preprocess mean df c :
  c ∈ exclude_cols →
  column_cells (preprocess_dataframe mean df) c = column_cells df c.
Proof.
  intros Hc. unfold preprocess_dataframe. rewrite column_cells_ext; [done|].
  intros r _. by apply lookup_preprocess_excluded.
Qed.

Lemma len_preprocess mean df : len (preprocess_dataframe mean df) = len df.
Proof. unfold len, preprocess_dataframe. cbn. by rewrite length_fmap. Qed.


Lemma nums_Num l : nums ((λ z, Num z) <$> l) = l.
Proof. induction l as [|z l IH]; [done|]. csimpl. by rewrite IH. Qed.


Lemma not_scheduler_main env : ¬ scheduler_paths env (path_str MAIN_DATASET).
Proof.
  unfold scheduler_paths, split_paths.
  intros [[H|[H|[H|H]]]|[H|H]]; cbn in H; discriminate H.
Qed.

Lemma not_scheduler_preprocessed env :
  ¬ scheduler_paths env (path_str PREPROCESSED_UPLOADS).
Proof.
  unfold scheduler_paths, split_paths.
  intros [[H|[H|[H|H]]]|[H|H]]; cbn in H; discriminate H.
Qed.

Lemma not_scheduler_uploads env : ¬ scheduler_paths env UPLOADS.
Proof.
  unfold scheduler_paths, split_paths.
  intros [[H|[H|[H|H]]]|[H|H]]; cbn in H; discriminate H.
Qed.

Lemma run_to_csv df p w :
  p ∉ readonly w →
  to_csv df p w
  = (inr tt, mkWorld (<[p := Csv df]> (files w)) (readonly w) (stdout w) (spawned w)).
Proof. intros Hp. unfold to_csv, write_file. by rewrite decide_False. Qed.

Lemma run_write_file p (ct : content) w :
  p ∉ readonly w →
  write_file p ct w
  = (inr tt, mkWorld (<[p := ct]> (files w)) (readonly w) (stdout w) (spawned w)).
Proof. intros Hp. unfold write_file. by rewrite decide_False. Qed.

Lemma run_print line w :
  print line w = (inr tt, mkWorld (files w) (readonly w) (stdout w ++ [line]) (spawned w)).
Proof. done. Qed.


Lemma ingest_run mean env w batch :
  files w !! UPLOADS = Some (Csv batch) → wf batch → empty batch = false →
  main_ready w → inbox_writable w →
  ∃ U C w3 w',
    process_user_uploads mean env w = (inr (Some (len batch)), w')
    ∧ files w3 = <[path_str PREPROCESSED_UPLOADS := Csv (preprocess_dataframe mean U)]>
                   (<[UPLOADS := Csv U]> (<[path_str MAIN_DATASET := Csv C]> (files w)))
    ∧ readonly w3 = readonly w ∧ spawned w3 = spawned w
    ∧ files w' = <[UPLOADS := Blank]> (files (process_new_data env w3).2)
    ∧ readonly w' = readonly w
    ∧ spawned w' = spawned (process_new_data env w3).2
    ∧ wf U ∧ "userid" ∈ names U ∧ len U = len batch
    ∧ column_cells U "userid"
      = (λ z, Num z) <$> seqZ (next_userid (nums (main_cells w))) (Z.of_nat (len batch))
    ∧ wf C ∧ "userid" ∈ names C
    ∧ column_cells C "userid" = main_cells w ++ column_cells U "userid"
    ∧ keeps_cells batch U
    ∧ (∃ pre, rows C = pre ++ rows U)
    ∧ (∀ c, c ∈ names C ↔ c ∈ names U)
    ∧ (∀ c, c ∈ names U ↔ expected_columns w batch c)
    ∧ (holds_data (files w) (path_str MAIN_DATASET) = false →
       U = stamped 2000 batch ∧ C = U).
Proof.
  intros Hup Hb Hne Hready (Hw1 & Hw2 & Hw3).
  destruct (assign_userids_spec batch w Hb Hready)
    as (U & C & Hassign & HwU & HuU & HlU & HcU & HwC & HuC & HcC
        & [HkU HkdU] & HpreC & HnC & HexpU & Hfirstbatch).
  destruct (userid_first_spec U w HwU HuU) as (U' & Hfirst & HwU' & HrU' & HnU' & HdU').
  set (P := preprocess_dataframe mean U').
  set (w1 := mkWorld (<[path_str PREPROCESSED_UPLOADS := Csv P]>
                        (<[UPLOADS := Csv U']> (<[path_str MAIN_DATASET := Csv C]> (files w))))
               (readonly w)
               (stdout w ++ ["Successfully saved " +:+ pretty (len C)
                               +:+ " total records to main-dataset.csv"]
                         ++ ["Updated user-uploads.csv with " +:+ pretty (len U')
                               +:+ " records"]
                         ++ ["Preprocessing data..."]
                         ++ ["Preprocessed data saved to " +:+ path_str PREPROCESSED_UPLOADS]
                         ++ ["Triggering data processing pipeline..."])
               (spawned w)).
  pose proof (within_process_new_data env w1) as [Hfp Hro].
  assert (Hingest : ∃ w', ingest mean env w = (inr (Some (len batch)), w')
            ∧ files w' = <[UPLOADS := Blank]> (files (process_new_data env w1).2)
            ∧ readonly w' = readonly w
            ∧ spawned w' = spawned (process_new_data env w1).2).
  { assert (HlP : len P = len batch).
    { unfold P. by rewrite len_preprocess, <- HlU; unfold len; rewrite HrU'. }
    unfold ingest. rewrite run_bind. unfold read_csv at 1. rewrite Hup, Hne.
    rewrite run_bind, Hassign. cbn beta iota.
    rewrite run_bind, Hfirst.
    rewrite run_bind. unfold try_except at 1.
    rewrite run_bind, (run_to_csv _ _ _ Hw1).
    rewrite run_bind, run_print. cbn [files readonly stdout spawned].
    rewrite run_bind, run_to_csv by done.
    rewrite run_print. cbn [files readonly stdout spawned].
    rewrite run_bind, run_print. cbn [files readonly stdout spawned].
    cbn zeta. fold P.
    rewrite run_bind, run_to_csv by done. cbn [files readonly stdout spawned].
    rewrite run_bind, run_print. cbn [files readonly stdout spawned].
    rewrite run_bind, run_print. cbn [files readonly stdout spawned].
    rewrite <- !app_assoc. fold w1.
    rewrite run_bind. unfold try_except.
    destruct (process_new_data env w1) as [[e|[]] w4] eqn:Hpnd; cbn [snd] in *.
    - rewrite run_print. rewrite run_bind, run_write_file by (cbn; by rewrite Hro).
      cbn [files readonly stdout spawned].
      rewrite run_bind, run_print, run_bind, run_print. cbn [files readonly stdout spawned].
      unfold mret, M_ret. rewrite HlP. eexists. split; [reflexivity|].
      cbn [files readonly stdout spawned]. by rewrite Hro.
    - rewrite run_bind, run_write_file by (by rewrite Hro).
      cbn [files readonly stdout spawned].
      rewrite run_bind, run_print, run_bind, run_print. cbn [files readonly stdout spawned].
      unfold mret, M_ret. rewrite HlP. eexists. split; [reflexivity|].
      cbn [files readonly stdout spawned]. by rewrite Hro. }
  destruct Hingest as (w' & Hi & Hf' & Hr' & Hs').
  exists U', C, w1, w'. split.
  { unfold process_user_uploads. rewrite run_bind. unfold has_data at 1. rewrite Hup.
    cbn [negb]. unfold try_except. by rewrite Hi. }
  split; [done|]. split; [done|]. split; [done|]. split; [done|]. split; [done|].
  split; [done|]. split; [done|]. split; [by apply HnU'|].
  split; [by unfold len; rewrite HrU'|].
  assert (column_cells U' "userid" = column_cells U "userid") as ->
    by (by apply column_cells_rows).
  split; [done|]. split; [done|]. split; [done|]. split; [done|].
  split; [|split; [by rewrite HrU'|split; [by intros c; rewrite HnC, HnU'|
                    split; [by intros c; rewrite HnU'|]]]].
  - split.
    + rewrite HrU'. eapply Forall2_impl; [exact HkU|].
      intros r u Hru c Hc Hcb HcU'. apply Hru; [done..|]. by apply HnU'.
    + intros c Hc Hcb HcU'. apply HnU' in HcU'. rewrite HdU' by done. by apply HkdU.
  - intros Hnd. destruct (Hfirstbatch Hnd) as [-> ->].
    assert (U' = stamped 2000 batch) as ->; [|done].
    unfold userid_first in Hfirst. rewrite decide_False in Hfirst.
    + by injection Hfirst as <-.
    + rewrite names_stamped. cbn. by intros [_ ?].
Qed.







Example ingest_two_batches :
  ingest_batches mean_floor [(env0, batch3); (env_failing, batch2)] world0
  = [[2000; 2001; 2002]; [2003; 2004]]%Z.
Proof. by vm_compute. Qed.







End IngestorFacts.


(** ** Retrain scheduler *)

Module SchedulerFacts.
Import Frame Sys Merger Scheduler Ingestor Spec FrameFacts Footprint IngestorFacts Examples.

Lemma append_try_keeps new_df target w :
  readonly (append_try new_df target w).2 = readonly w
  ∧ spawned (append_try new_df target w).2 = spawned w
  ∧ stdout (append_try new_df target w).2 = stdout w.
Proof.
  unfold append_try, has_data, read_csv, to_csv, write_file.
  destruct (files w !! path_str target) as [[| |df|j]|]; try done.
  - by case_decide.
  - destruct (merge df new_df); [|done]. by case_decide.
  - by case_decide.
Qed.

Lemma append_run env new_df target w :
  fallback_path env target ∉ readonly w →
  ∃ w', append_or_create_csv env new_df target w = (inr tt, w')
    ∧ readonly w' = readonly w ∧ spawned w' = spawned w.
Proof.
  intros Hfb. unfold append_or_create_csv.
  destruct (append_try_keeps new_df target w) as (Hr & Hs & _).
  destruct (append_try new_df target w) as [[[e|[]] df'] w1]; cbn [snd] in *.
  - rewrite run_bind, run_to_csv by (by rewrite Hr). rewrite run_print.
    eexists. split; [done|]. by cbn.
  - by eexists.
Qed.

Lemma cap_usage_columns df df' : cap_usage df = Some df' → columns df' = columns df.
Proof.
  unfold cap_usage, clip_columns.
  destruct (filter _ (names df)); [by intros [= <-]|].
  case_match; [|done]. by intros [= <-].
Qed.

Lemma cap_usage_len df df' : cap_usage df = Some df' → len df' = len df.
Proof.
  unfold cap_usage, clip_columns, len.
  destruct (filter _ (names df)); [by intros [= <-]|].
  case_match; [|done]. intros [= <-]. cbn. by rewrite length_fmap.
Qed.

(** The state [split_dataset] reaches on a batch it can split: the lines it
    prints around the two merges. *)
Lemma split_dataset_run env w df df' :
  files w !! path_str PREPROCESSED_UPLOADS = Some (Csv df) →
  cap_usage df = Some df' → dtype_of df "review" = Some Object →
  fallback_path env MODEL_A_TRAIN ∉ readonly w →
  fallback_path env MODEL_B_TRAIN ∉ readonly w →
  ∃ wa wb,
    let w0 := mkWorld (files w) (readonly w)
                (stdout w ++ ["Loading preprocessed uploads dataset..."]
                          ++ ["Creating dataset for Model B (users with reviews)..."]
                          ++ ["Creating dataset for Model A (all users)..."])
                (spawned w) in
    append_or_create_csv env (drop_column df' "review") MODEL_A_TRAIN w0 = (inr tt, wa)
    ∧ append_or_create_csv env (with_review df') MODEL_B_TRAIN wa = (inr tt, wb)
    ∧ readonly wb = readonly w ∧ spawned wb = spawned w
    ∧ split_dataset env w
      = (inr (Some (mkCounts (len df) (len (with_review df')))),
         mkWorld (files wb) (readonly wb)
           (stdout wb ++ ["Split complete (uploads batch): " +:+ pretty (len df)
                            +:+ " total users, " +:+ pretty (len (with_review df'))
                            +:+ " with reviews"])
           (spawned wb)).
Proof.
  intros Hpre Hcap Hrev Hfa Hfb. cbn zeta.
  set (w0 := mkWorld _ _ _ _).
  destruct (append_run env (drop_column df' "review") MODEL_A_TRAIN w0 Hfa)
    as (wa & Ha & Hra & Hsa).
  destruct (append_run env (with_review df') MODEL_B_TRAIN wa) as (wb & Hb & Hrb & Hsb).
  { by rewrite Hra. }
  exists wa, wb. split; [done|]. split; [done|].
  split; [by rewrite Hrb, Hra|]. split; [by rewrite Hsb, Hsa|].
  unfold split_dataset. rewrite run_bind. unfold has_data at 1. rewrite Hpre.
  cbn [negb]. rewrite run_bind, run_print, run_bind.
  unfold read_csv at 1. cbn [files]. rewrite Hpre, Hcap.
  rewrite run_bind. unfold mret at 1, M_ret at 1.
  rewrite run_bind, run_print. cbn [files readonly stdout spawned].
  rewrite run_bind. unfold str_accessor at 1.
  assert (dtype_of df' "review" = Some Object) as ->.
  { unfold dtype_of. by rewrite (cap_usage_columns _ _ Hcap). }
  unfold mret at 1, M_ret at 1. cbn zeta.
  rewrite run_bind, run_print. cbn [files readonly stdout spawned].
  rewrite <- !app_assoc. fold w0.
  rewrite run_bind, Ha, run_bind, Hb, run_bind, run_print.
  unfold mret, M_ret. by rewrite (cap_usage_len _ _ Hcap).
Qed.

Lemma after_nil w : after w [] [] = w.
Proof. destruct w. unfold after. cbn. by rewrite !app_nil_r. Qed.

Lemma after_after w l1 c1 l2 c2 : after (after w l1 c1) l2 c2 = after w (l1 ++ l2) (c1 ++ c2).
Proof. unfold after. cbn. by rewrite !app_assoc. Qed.

Lemma run_print_after line w : print line w = (inr tt, after w [line] []).
Proof. rewrite run_print. unfold after. by rewrite app_nil_r. Qed.

Lemma run_train_model env script name w :
  train_model env script name w
  = (inr (succeeds env [script]),
     after w ["Training " +:+ name +:+ "...";
              if succeeds env [script] then name +:+ " training completed successfully!"
              else "Error training " +:+ name +:+ ":"]
             [[script]]).
Proof.
  unfold train_model. rewrite run_bind, run_print, run_bind. unfold subprocess_ok at 1.
  cbn [files readonly stdout spawned].
  destruct (succeeds env [script]); rewrite run_bind, run_print; unfold mret, M_ret, after;
    cbn [files readonly stdout spawned]; by rewrite <- !app_assoc.
Qed.

Lemma run_run_script env script args name w :
  Scheduler.run_script env script args name w
  = (inr (succeeds env (script :: args)),
     after w [if succeeds env (script :: args) then "[OK] " +:+ name +:+ " completed"
              else "[WARN] " +:+ name +:+ " failed"]
             [script :: args]).
Proof.
  unfold Scheduler.run_script. rewrite run_bind. unfold subprocess_ok at 1.
  destruct (succeeds env (script :: args)); rewrite run_bind, run_print;
    unfold mret, M_ret, after; by cbn [files readonly stdout spawned].
Qed.

(** The check of Model A (lines 174-182) in each of its four cases. *)
Lemma check_model_a_run env counters a w :
  counters !! "model_a" = Some (JInt a) →
  check_model_a env counters w
  = if bool_decide (FREQ_MODEL_A ≤ a)%Z then
      if holds_data (files w) (path_str MODEL_A_TRAIN) then
        (inr (if succeeds env [TRAIN_MODEL_A]
              then <["model_a" := JInt 0]> counters else counters),
         after w ["Time to train Model A (every 20 new records)";
                  "Training Model A...";
                  if succeeds env [TRAIN_MODEL_A]
                  then "Model A training completed successfully!"
                  else "Error training Model A:"]
                 [[TRAIN_MODEL_A]])
      else (inr counters,
            after w ["Time to train Model A (every 20 new records)"; line_skip_a] [])
    else (inr counters, w).
Proof.
  intros Ha. unfold check_model_a. rewrite run_bind. unfold counter at 1. rewrite Ha.
  unfold mret at 1, M_ret at 1. case_bool_decide; [|done].
  rewrite run_bind, run_print, run_bind. unfold has_data at 1, holds_data.
  cbn [files readonly stdout spawned].
  destruct (files w !! path_str MODEL_A_TRAIN) as [[]|] eqn:Hf.
  all: try (rewrite run_bind, run_print; unfold mret, M_ret, after;
            cbn [files readonly stdout spawned]; by rewrite <- !app_assoc, app_nil_r).
  all: rewrite run_bind, run_train_model; unfold after; cbn [files readonly stdout spawned];
    rewrite <- !app_assoc; by destruct (succeeds env [TRAIN_MODEL_A]).
Qed.

Lemma check_model_b_run env counters b w :
  counters !! "model_b" = Some (JInt b) →
  check_model_b env counters w
  = if bool_decide (FREQ_MODEL_B ≤ b)%Z then
      if holds_data (files w) (path_str MODEL_B_TRAIN) then
        (inr (if succeeds env [TRAIN_MODEL_B]
              then <["model_b" := JInt 0]> counters else counters),
         after w ["Time to train Model B (every 10 new records)";
                  "Training Model B...";
                  if succeeds env [TRAIN_MODEL_B]
                  then "Model B training completed successfully!"
                  else "Error training Model B:"]
                 [[TRAIN_MODEL_B]])
      else (inr counters,
            after w ["Time to train Model B (every 10 new records)"; line_skip_b] [])
    else (inr counters, w).
Proof.
  intros Hb. unfold check_model_b. rewrite run_bind. unfold counter at 1. rewrite Hb.
  unfold mret at 1, M_ret at 1. case_bool_decide; [|done].
  rewrite run_bind, run_print, run_bind. unfold has_data at 1, holds_data.
  cbn [files readonly stdout spawned].
  destruct (files w !! path_str MODEL_B_TRAIN) as [[]|] eqn:Hf.
  all: try (rewrite run_bind, run_print; unfold mret, M_ret, after;
            cbn [files readonly stdout spawned]; by rewrite <- !app_assoc, app_nil_r).
  all: rewrite run_bind, run_train_model; unfold after; cbn [files readonly stdout spawned];
    rewrite <- !app_assoc; by destruct (succeeds env [TRAIN_MODEL_B]).
Qed.

Lemma update_counters_run counts w j0 a b :
  stored_counters (files w) = Some j0 →
  j0 !! "model_a" = Some (JInt a) → j0 !! "model_b" = Some (JInt b) →
  update_counters counts w
  = (inr (<["model_b" := JInt (b + Z.of_nat (with_reviews counts))]>
            (<["model_a" := JInt (a + Z.of_nat (total counts))]> j0)), w).
Proof.
  intros Hst Ha Hb. unfold update_counters. rewrite run_bind.
  assert (load_counters w = (inr j0, w)) as ->.
  { unfold load_counters, stored_counters in *.
    destruct (files w !! COUNTER_FILE) as [[]|]; try done; by injection Hst as ->. }
  rewrite run_bind. unfold add_counter at 1. rewrite run_bind. unfold counter at 1.
  rewrite Ha. unfold mret at 1 2, M_ret at 1 2.
  unfold add_counter. rewrite run_bind. unfold counter.
  rewrite lookup_insert_ne by done. rewrite Hb. done.
Qed.

Lemma check_model_a_total env counters a w :
  counters !! "model_a" = Some (JInt a) →
  ∃ ca lines cmds,
    check_model_a env counters w = (inr ca, after w lines cmds)
    ∧ (ca = counters ∨ ca = <["model_a" := JInt 0]> counters).
Proof.
  intros Ha. rewrite (check_model_a_run env counters a w Ha).
  case_bool_decide; [|exists counters, [], []; rewrite after_nil; by split; [|left]].
  destruct (holds_data _ _); [|by eexists _, _, _; split; [|left]].
  destruct (succeeds env _); eexists _, _, _; (split; [done|]); [by right|by left].
Qed.

Lemma check_model_b_total env counters b w :
  counters !! "model_b" = Some (JInt b) →
  ∃ cb lines cmds,
    check_model_b env counters w = (inr cb, after w lines cmds)
    ∧ (cb = counters ∨ cb = <["model_b" := JInt 0]> counters).
Proof.
  intros Hb. rewrite (check_model_b_run env counters b w Hb).
  case_bool_decide; [|exists counters, [], []; rewrite after_nil; by split; [|left]].
  destruct (holds_data _ _); [|by eexists _, _, _; split; [|left]].
  destruct (succeeds env _); eexists _, _, _; (split; [done|]); [by right|by left].
Qed.

Lemma not_split_preprocessed env : ¬ split_paths env (path_str PREPROCESSED_UPLOADS).
Proof. intros H. apply (not_scheduler_preprocessed env). by left. Qed.

Lemma not_split_counter env : ¬ split_paths env COUNTER_FILE.
Proof. unfold split_paths. intros [H|[H|[H|H]]]; cbn in H; discriminate H. Qed.

(** One run of [process_new_data] on a batch it can split, with counters it
    can read and files it can write. *)
Lemma process_new_data_run env w df df' j0 a b :
  files w !! path_str PREPROCESSED_UPLOADS = Some (Csv df) →
  cap_usage df = Some df' → dtype_of df "review" = Some Object →
  fallback_path env MODEL_A_TRAIN ∉ readonly w →
  fallback_path env MODEL_B_TRAIN ∉ readonly w →
  COUNTER_FILE ∉ readonly w → archive_path env ∉ readonly w →
  stored_counters (files w) = Some j0 →
  j0 !! "model_a" = Some (JInt a) → j0 !! "model_b" = Some (JInt b) →
  let counts := mkCounts (len df) (len (with_review df')) in
  let c0 := <["model_b" := JInt (b + Z.of_nat (with_reviews counts))]>
              (<["model_a" := JInt (a + Z.of_nat (total counts))]> j0) in
  ∃ w1 ca cb wA wB w',
    split_dataset env
      (after w ["Found new preprocessed data at " +:+ path_str PREPROCESSED_UPLOADS] [])
    = (inr (Some counts), w1)
    ∧ check_model_a env c0 (after w1 ["Counters updated"] []) = (inr ca, wA)
    ∧ check_model_b env ca wA = (inr cb, wB)
    ∧ process_new_data env w = (inr tt, w')
    ∧ files w' = <[archive_path env := Csv df]> (<[COUNTER_FILE := Json cb]> (files w1))
    ∧ files wA = files w1 ∧ files wB = files w1
    ∧ readonly w' = readonly w
    ∧ spawned w1 = spawned w
    ∧ spawned w' = spawned wB ++ [[CHURN_PRED_SCRIPT]; [EXPLAIN_ALL_SCRIPT; "--all"];
                                  [EXPLAINABLE_AI_SCRIPT]]
    ∧ (∀ l, l ∈ stdout wB → l ∈ stdout w').
Proof.
  intros Hpre Hcap Hrev Hfa Hfb Hcf Har Hst Ha Hb. cbn zeta.
  set (wp := after w _ []).
  destruct (split_dataset_run env wp df df' Hpre Hcap Hrev Hfa Hfb)
    as (wa & wb & _ & _ & Hrb & Hsb & Hsplit).
  cbn zeta in Hsplit. set (w1 := mkWorld (files wb) _ _ _) in *.
  pose proof (within_split env wp) as [Hfp _]. rewrite Hsplit in Hfp. cbn [snd] in Hfp.
  assert (HfC : stored_counters (files wb) = Some j0).
  { unfold stored_counters. change (files wb) with (files w1).
    rewrite Hfp by apply not_split_counter. exact Hst. }
  assert (HfP : files wb !! path_str PREPROCESSED_UPLOADS = Some (Csv df)).
  { change (files wb) with (files w1).
    rewrite Hfp by apply not_split_preprocessed. exact Hpre. }
  set (c0 := <["model_b" := _]> (<["model_a" := _]> j0)).
  set (wu := after w1 ["Counters updated"] []).
  destruct (check_model_a_total env c0 (a + Z.of_nat (len df)) wu)
    as (ca & la & sa & Hca & Hca').
  { unfold c0. rewrite lookup_insert_ne by done. by rewrite lookup_insert_eq. }
  destruct (check_model_b_total env ca (b + Z.of_nat (len (with_review df'))) (after wu la sa))
    as (cb & lb & sb & Hcb & Hcb').
  { destruct Hca' as [->| ->]; [|rewrite lookup_insert_ne by done];
      unfold c0; by rewrite lookup_insert_eq. }
  eexists w1, ca, cb, (after wu la sa), (after (after wu la sa) lb sb), _.
  split; [done|]. split; [done|]. split; [done|].
  assert (Hrun : process_new_data env w
    = (inr tt,
       after (mkWorld (<[archive_path env := Csv df]> (<[COUNTER_FILE := Json cb]> (files w1)))
                (readonly w) (stdout (after (after wu la sa) lb sb))
                (spawned (after (after wu la sa) lb sb)))
         [ (if succeeds env [CHURN_PRED_SCRIPT] then "[OK] churn_prediction completed"
            else "[WARN] churn_prediction failed");
           (if succeeds env [EXPLAIN_ALL_SCRIPT; "--all"]
            then "[OK] explain_user --all completed"
            else "[WARN] explain_user --all failed");
           (if succeeds env [EXPLAINABLE_AI_SCRIPT]
            then "[OK] explinableAI (full refresh) completed"
            else "[WARN] explinableAI (full refresh) failed");
           "Archived a copy of preprocessed data to " +:+ archive_path env ]
         [[CHURN_PRED_SCRIPT]; [EXPLAIN_ALL_SCRIPT; "--all"]; [EXPLAINABLE_AI_SCRIPT]])).
  { unfold process_new_data. rewrite run_bind. unfold has_data at 1. rewrite Hpre.
    cbn [negb]. rewrite run_bind, run_print_after. fold wp.
    rewrite run_bind, Hsplit. rewrite run_bind.
    rewrite (update_counters_run _ w1 j0 a b); [|exact HfC|done..].
    change (<["model_b" := _]> (<["model_a" := _]> j0)) with c0.
    rewrite run_bind, run_print_after. fold wu.
    rewrite run_bind, Hca, run_bind, Hcb.
    rewrite run_bind. unfold save_counters.
    rewrite run_write_file by (cbn; by rewrite Hrb).
    rewrite run_bind, run_run_script, run_bind, run_run_script, run_bind, run_run_script.
    rewrite run_bind. unfold copy_file. cbn [files after].
    rewrite lookup_insert_ne by done.
    change (files wu) with (files wb). rewrite HfP.
    rewrite run_write_file by (cbn; by rewrite Hrb).
    rewrite run_print. unfold after, wu, w1. cbn [files readonly stdout spawned].
    rewrite Hrb. f_equal. f_equal; by rewrite <- ?app_assoc. }
  rewrite Hrun. split; [done|]. cbn [files after readonly spawned stdout].
  split; [done|]. split; [done|]. split; [done|]. split; [done|].
  split; [cbn; rewrite Hsb; cbn; apply app_nil_r|]. split; [done|].
  intros l Hl. apply elem_of_app. by left.
Qed.

(** How [process_new_data] starts on a preprocessed batch: what it raises
    when [split_dataset] cannot split the batch. *)
Lemma process_new_data_start env w df :
  files w !! path_str PREPROCESSED_UPLOADS = Some (Csv df) →
  let lines := ["Found new preprocessed data at " +:+ path_str PREPROCESSED_UPLOADS;
                "Loading preprocessed uploads dataset..."] in
  process_new_data env w
  = match cap_usage df, dtype_of df "review" with
    | None, _ => (inl TypeError, after w lines [])
    | Some _, None =>
        (inl (KeyError "review"),
         after w (lines ++ ["Creating dataset for Model B (users with reviews)..."]) [])
    | Some _, Some Numeric =>
        (inl AttributeError,
         after w (lines ++ ["Creating dataset for Model B (users with reviews)..."]) [])
    | Some _, Some Object => process_new_data env w
    end.
Proof.
  intros Hpre. cbn zeta.
  destruct (cap_usage df) as [df'|] eqn:Hcap;
    [destruct (dtype_of df "review") as [[]|] eqn:Hrev; [|done|]|].
  all: unfold process_new_data; rewrite run_bind; unfold has_data at 1; rewrite Hpre;
    cbn [negb]; rewrite run_bind, run_print_after, run_bind;
    unfold split_dataset; rewrite run_bind; unfold has_data at 1;
    cbn [files after]; rewrite Hpre; cbn [negb];
    rewrite run_bind, run_print_after, after_after, run_bind; unfold read_csv at 1;
    cbn [files after]; rewrite Hpre, Hcap; rewrite run_bind.
  3: by unfold raise.
  all: unfold mret at 1, M_ret at 1;
    rewrite run_bind, run_print_after, after_after, run_bind; unfold str_accessor at 1;
    assert (dtype_of df' "review" = dtype_of df "review") as ->
      by (unfold dtype_of; by rewrite (cap_usage_columns _ _ Hcap));
    rewrite Hrev; by unfold raise.
Qed.

End SchedulerFacts.


(** ** Counters *)

Module CounterFacts.
Import Frame Sys Merger Scheduler Ingestor Spec FrameFacts Footprint IngestorFacts SchedulerFacts Examples.

Lemma lookup_clip_other (cols : list string) u (r : gmap string cell) c :
  c ∉ cols →
  map_imap (λ c v, Some (if decide (c ∈ cols) then clip_upper u v else v)) r !! c = r !! c.
Proof.
  intros Hc. rewrite map_lookup_imap. destruct (r !! c); [|done]. cbn.
  by rewrite decide_False.
Qed.

Lemma cap_usage_lookup_other df df' c :
  cap_usage df = Some df' → String.prefix "Day_" c = false →
  Forall2 (λ r r' : gmap string cell, r' !! c = r !! c) (rows df) (rows df').
Proof.
  unfold cap_usage, clip_columns. intros H Hc.
  destruct (filter _ (names df)) as [|c0 cols] eqn:Hcols.
  { injection H as <-. apply Forall_Forall2_diag, Forall_forall. done. }
  case_match; [|done]. injection H as <-. cbn [rows].
  apply Forall2_fmap_r, Forall_Forall2_diag, Forall_forall. intros r _.
  apply lookup_clip_other. rewrite <- Hcols.
  intros [Hp _]%list_elem_of_filter. rewrite Hc in Hp. done.
Qed.

Lemma length_filter_Forall2 {A} (P Q : A → Prop) `{!∀ x, Decision (P x), !∀ x, Decision (Q x)}
    (l k : list A) :
  Forall2 (λ x y, P x ↔ Q y) l k → length (filter P l) = length (filter Q k).
Proof.
  induction 1 as [|x y l k Hxy _ IH]; [done|].
  rewrite !filter_cons.
  destruct (decide (P x)) as [Hp|Hp].
  - rewrite decide_True by (by apply Hxy). cbn. by rewrite IH.
  - rewrite decide_False by (by rewrite <- Hxy). done.
Qed.

Lemma len_with_review df df' :
  cap_usage df = Some df' → len (with_review df') = reviewed_count df.
Proof.
  intros Hcap. unfold len, with_review, filter_rows, reviewed_count. cbn [rows].
  symmetry. apply length_filter_Forall2.
  eapply Forall2_impl; [by apply (cap_usage_lookup_other _ _ "review")|].
  intros r r' Hr. cbn in Hr. by rewrite Hr.
Qed.

(** The counters [process_new_data] persists after a batch. *)
Lemma persisted_counters env w df j0 a b :
  files w !! path_str PREPROCESSED_UPLOADS = Some (Csv df) →
  is_Some (cap_usage df) → dtype_of df "review" = Some Object →
  fallback_path env MODEL_A_TRAIN ∉ readonly w →
  fallback_path env MODEL_B_TRAIN ∉ readonly w →
  COUNTER_FILE ∉ readonly w → archive_path env ∉ readonly w →
  stored_counters (files w) = Some j0 →
  j0 !! "model_a" = Some (JInt a) → j0 !! "model_b" = Some (JInt b) →
  let n := (a + Z.of_nat (len df))%Z in
  let r := (b + Z.of_nat (reviewed_count df))%Z in
  ∃ w1 w' cb,
    split_dataset env
      (after w ["Found new preprocessed data at " +:+ path_str PREPROCESSED_UPLOADS] [])
    = (inr (Some (mkCounts (len df) (reviewed_count df))), w1)
    ∧ process_new_data env w = (inr tt, w')
    ∧ files w' !! COUNTER_FILE = Some (Json cb)
    ∧ cb !! "model_a"
      = Some (JInt (if bool_decide (FREQ_MODEL_A ≤ n)%Z
                       && holds_data (files w1) (path_str MODEL_A_TRAIN)
                       && succeeds env [TRAIN_MODEL_A]
                    then 0 else n))
    ∧ cb !! "model_b"
      = Some (JInt (if bool_decide (FREQ_MODEL_B ≤ r)%Z
                       && holds_data (files w1) (path_str MODEL_B_TRAIN)
                       && succeeds env [TRAIN_MODEL_B]
                    then 0 else r))
    ∧ (∀ k, k ≠ "model_a" → k ≠ "model_b" → cb !! k = j0 !! k).
Proof.
  intros Hpre [df' Hcap] Hrev Hfa Hfb Hcf Har Hst Ha Hb. cbn zeta.
  destruct (process_new_data_run env w df df' j0 a b Hpre Hcap Hrev Hfa Hfb Hcf Har Hst Ha Hb)
    as (w1 & ca & cb & wA & wB & w' & Hsplit & Hca & Hcb & Hrun & Hf' & HfA & HfB & _).
  cbn zeta in *. cbn [total with_reviews] in *.
  rewrite (len_with_review _ _ Hcap) in *.
  set (n := (a + Z.of_nat (len df))%Z) in *.
  set (r := (b + Z.of_nat (reviewed_count df))%Z) in *.
  set (c0 := <["model_b" := JInt r]> (<["model_a" := JInt n]> j0)) in *.
  assert (Hc0a : c0 !! "model_a" = Some (JInt n)).
  { unfold c0. rewrite lookup_insert_ne by done. by rewrite lookup_insert_eq. }
  assert (Hc0b : c0 !! "model_b" = Some (JInt r)).
  { unfold c0. by rewrite lookup_insert_eq. }
  rewrite (check_model_a_run env c0 n _ Hc0a) in Hca.
  change (files (after w1 ["Counters updated"] [])) with (files w1) in Hca.
  exists w1, w', cb. split; [done|]. split; [done|].
  split; [rewrite Hf', lookup_insert_ne by done; by rewrite lookup_insert_eq|].
  assert (Hcab : ca !! "model_b" = Some (JInt r)
                 ∧ ca !! "model_a"
                   = Some (JInt (if bool_decide (FREQ_MODEL_A ≤ n)%Z
                                    && holds_data (files w1) (path_str MODEL_A_TRAIN)
                                    && succeeds env [TRAIN_MODEL_A]
                                 then 0 else n))
                 ∧ ∀ k, k ≠ "model_a" → k ≠ "model_b" → ca !! k = j0 !! k).
  { assert (Hk0 : ∀ k, k ≠ "model_a" → k ≠ "model_b" → c0 !! k = j0 !! k).
    { intros k H1 H2. unfold c0. by rewrite !lookup_insert_ne. }
    destruct (bool_decide (FREQ_MODEL_A ≤ n)%Z); cbn [andb];
      [|by injection Hca as <- <-].
    destruct (holds_data (files w1) (path_str MODEL_A_TRAIN)); cbn [andb];
      [|by injection Hca as <- <-].
    destruct (succeeds env [TRAIN_MODEL_A]); injection Hca as <- <-; [|done].
    split; [by rewrite lookup_insert_ne|]. split; [by rewrite lookup_insert_eq|].
    intros k H1 H2. rewrite lookup_insert_ne by done. by apply Hk0. }
  destruct Hcab as (Hcab & Hcaa & Hcak).
  rewrite (check_model_b_run env ca r _ Hcab) in Hcb. rewrite HfA in Hcb.
  destruct (bool_decide (FREQ_MODEL_B ≤ r)%Z); cbn [andb];
    [|by injection Hcb as <- <-].
  destruct (holds_data (files w1) (path_str MODEL_B_TRAIN)); cbn [andb];
    [|by injection Hcb as <- <-].
  destruct (succeeds env [TRAIN_MODEL_B]); injection Hcb as <- <-; [|done].
  split; [by rewrite lookup_insert_ne|]. split; [by rewrite lookup_insert_eq|].
  intros k H1 H2. rewrite lookup_insert_ne by done. by apply Hcak.
Qed.

(** What preprocessing does to a cell: only a missing value changes, into
    a number. *)
Lemma lookup_preprocess mean U (u : gmap string cell) c :
  u !! c = None ∧ (map_imap (λ c v, Some (if decide (c ∈ filter (λ c, dtype_of U c = Some Numeric
                                                  ∧ c ∉ exclude_cols) (names U))
                         then fillna_mean mean U c v else v)) u) !! c = None
  ∨ ∃ v v', u !! c = Some v
      ∧ (map_imap (λ c v, Some (if decide (c ∈ filter (λ c, dtype_of U c = Some Numeric
                                                  ∧ c ∉ exclude_cols) (names U))
                         then fillna_mean mean U c v else v)) u) !! c = Some v'
      ∧ (v ≠ NaN → v' = v) ∧ (v = NaN → v' = NaN ∨ ∃ z, v' = Num z).
Proof.
  rewrite map_lookup_imap. destruct (u !! c) as [v|]; [right|by left].
  cbn. eexists v, _. split; [done|]. split; [done|].
  case_decide; [|by split; [|left]].
  unfold fillna_mean. destruct v; try (split; [done|by left]).
  destruct (nums _); split; try done; try (by left). intros _. right. by eexists.
Qed.

Lemma is_str_preprocess mean U (u : gmap string cell) c :
  is_str ((map_imap (λ c v, Some (if decide (c ∈ filter (λ c, dtype_of U c = Some Numeric
                                                  ∧ c ∉ exclude_cols) (names U))
                         then fillna_mean mean U c v else v)) u) !! c)
  = is_str (u !! c).
Proof.
  destruct (lookup_preprocess mean U u c) as [[-> ->]|(v & v' & -> & -> & H1 & H2)]; [done|].
  destruct v; try (by rewrite H1).
  by destruct H2 as [->|[z ->]].
Qed.

Lemma names_preprocess mean U : names (preprocess_dataframe mean U) = names U.
Proof. done. Qed.

Lemma dtype_of_preprocess mean U c : dtype_of (preprocess_dataframe mean U) c = dtype_of U c.
Proof. done. Qed.

Lemma Forall2_rows_preprocess mean U :
  Forall2 (λ u p : gmap string cell,
             p !! "review" = u !! "review" ∧ ∀ c, is_str (p !! c) = is_str (u !! c))
          (rows U) (rows (preprocess_dataframe mean U)).
Proof.
  unfold preprocess_dataframe. cbn [rows].
  apply Forall2_fmap_r, Forall_Forall2_diag, Forall_forall. intros u _. split.
  - apply lookup_preprocess_excluded. right. by left.
  - intros c. apply is_str_preprocess.
Qed.

(** When capping succeeds. *)
Lemma cap_usage_Some df :
  (∀ r c, r ∈ rows df → c ∈ names df → Is_true (String.prefix "Day_" c) →
          is_str (r !! c) = false) →
  is_Some (cap_usage df).
Proof.
  intros H. unfold cap_usage, clip_columns.
  destruct (filter _ (names df)) as [|c0 cols] eqn:Hcols; [by eexists|].
  case_match eqn:Hall; [by eexists|]. exfalso.
  apply not_true_iff_false in Hall. apply Hall.
  apply Is_true_true, forallb_True, Forall_forall. intros r Hr. unfold compose.
  apply forallb_True, Forall_forall. intros c Hc. unfold compose.
  rewrite <- Hcols in Hc. apply list_elem_of_filter in Hc as [Hp Hc].
  by rewrite (H r c Hr Hc Hp).
Qed.

Lemma cap_usage_Some_inv df r c :
  is_Some (cap_usage df) → r ∈ rows df → c ∈ names df →
  Is_true (String.prefix "Day_" c) → is_str (r !! c) = false.
Proof.
  intros [df' H] Hr Hc Hp. unfold cap_usage, clip_columns in H.
  destruct (filter _ (names df)) as [|c0 cols] eqn:Hcols.
  { assert (c ∈ filter (λ c, Is_true (String.prefix "Day_" c)) (names df)) as Hin
      by (by apply list_elem_of_filter).
    rewrite Hcols in Hin. by apply elem_of_nil in Hin. }
  case_match eqn:Hall; [|done].
  apply Is_true_true, forallb_True in Hall. rewrite Forall_forall in Hall.
  specialize (Hall r Hr). unfold compose in Hall. apply forallb_True in Hall.
  rewrite Forall_forall in Hall. specialize (Hall c).
  rewrite <- Hcols in Hall. specialize (Hall ltac:(by apply list_elem_of_filter)).
  unfold compose in Hall. by destruct (is_str (r !! c)).
Qed.

(** The preprocessed copy of an ingested batch can be split when the batch
    can, and has the reviews of the batch. *)
Lemma preprocessed_batch mean batch U :
  keeps_cells batch U →
  (∀ c, c ∈ names U → c = "userid" ∨ c ∈ names batch) →
  "review" ∈ names U →
  is_Some (cap_usage batch) → dtype_of batch "review" = Some Object →
  is_Some (cap_usage (preprocess_dataframe mean U))
  ∧ dtype_of (preprocess_dataframe mean U) "review" = Some Object
  ∧ reviewed_count (preprocess_dataframe mean U) = reviewed_count batch.
Proof.
  intros [Hrows Hdt] Hcols HrU Hcap Hrev.
  assert (HrB : "review" ∈ names batch).
  { destruct (decide ("review" ∈ names batch)) as [|Hn]; [done|].
    apply dtype_of_None in Hn. congruence. }
  pose proof (Forall2_rows_preprocess mean U) as HP.
  split; [|split].
  - apply cap_usage_Some. intros p c Hp Hc Hday.
    rewrite names_preprocess in Hc.
    apply list_elem_of_lookup in Hp as [i Hi].
    destruct (Forall2_lookup_r _ _ _ _ _ HP Hi) as (u & Hu & _ & Hstr).
    destruct (Forall2_lookup_r _ _ _ _ _ Hrows Hu) as (r & Hr & Hru).
    assert (Hne : c ≠ "userid") by (by intros ->).
    destruct (Hcols c Hc) as [?|HcB]; [done|].
    rewrite Hstr, (Hru c Hne HcB Hc).
    apply (cap_usage_Some_inv batch); [done| |done..]. by eapply list_elem_of_lookup_2.
  - rewrite dtype_of_preprocess. by rewrite Hdt.
  - unfold reviewed_count. symmetry. apply length_filter_Forall2.
    eapply Forall2_trans; [|exact Hrows|exact HP].
    intros r u p Hru [Hpu _]. cbn. by rewrite Hpu, (Hru "review").
Qed.

Lemma not_holds_data_ready w :
  holds_data (files w) (path_str MAIN_DATASET) = false → main_ready w.
Proof.
  unfold holds_data, main_ready.
  by destruct (files w !! path_str MAIN_DATASET) as [[]|].
Qed.

Lemma not_holds_data_cells w :
  holds_data (files w) (path_str MAIN_DATASET) = false → main_cells w = [].
Proof.
  unfold holds_data, main_cells.
  by destruct (files w !! path_str MAIN_DATASET) as [[]|].
Qed.

Lemma lstrip_blank s : blank s = true → lstrip s = "".
Proof.
  induction s as [|a s IH]; [done|]. cbn [blank lstrip].
  destruct (is_space a); [exact IH|done].
Qed.

Lemma blank_lstrip s : blank (lstrip s) = blank s.
Proof.
  induction s as [|a s IH]; [done|]. cbn [blank lstrip].
  destruct (is_space a) eqn:Ha; [exact IH|]. cbn [blank]. by rewrite Ha.
Qed.

Lemma blank_rev_app s t : blank (String.rev_app s t) = blank s && blank t.
Proof.
  revert t. induction s as [|a s IH]; intros t; [done|].
  cbn [String.rev_app blank]. rewrite IH. cbn [blank].
  by destruct (is_space a), (blank s), (blank t).
Qed.

Lemma blank_rev s : blank (String.rev s) = blank s.
Proof. unfold String.rev. rewrite blank_rev_app. cbn. by rewrite andb_true_r. Qed.

Lemma blank_strip s : blank (strip s) = blank s.
Proof. unfold strip. by rewrite blank_rev, blank_lstrip, blank_rev, blank_lstrip. Qed.

(** Stripping leaves nothing exactly of a text of white space. *)
Lemma strip_empty s : strip s = "" ↔ blank s = true.
Proof.
  split.
  - intros H. by rewrite <- blank_strip, H.
  - intros H. unfold strip. by rewrite (lstrip_blank s H).
Qed.

(** On a text and on a missing value the mask of line 72 tells whether
    there is a review. *)
Lemma review_mask_has_review v :
  (∀ z, v ≠ Some (Num z)) → review_mask v = has_review v.
Proof.
  intros Hv. destruct v as [[z|s|]|]; cbn [review_mask has_review]; [by destruct (Hv z)| |done..].
  destruct (blank s) eqn:Hb; cbn [negb].
  - apply bool_decide_eq_false_2. intros H. by apply H, strip_empty.
  - apply bool_decide_eq_true_2. intros H%strip_empty. congruence.
Qed.

Lemma no_number_lookup df c r z :
  nums (column_cells df c) = [] → r ∈ rows df → r !! c ≠ Some (Num z).
Proof.
  intros Hn Hr Hz.
  assert (z ∈ nums (column_cells df c)) as Hin; [|by rewrite Hn in Hin; apply elem_of_nil in Hin].
  unfold nums, column_cells. apply list_elem_of_omap. exists (Num z). split; [|done].
  apply list_elem_of_omap. by exists r.
Qed.

Lemma filter_mask_length (rs : list (gmap string cell)) :
  (∀ r z, r ∈ rs → r !! "review" ≠ Some (Num z)) →
  length (filter (λ r : gmap string cell, Is_true (review_mask (r !! "review"))) rs)
  = length (filter (λ r : gmap string cell, Is_true (has_review (r !! "review"))) rs).
Proof.
  intros H. apply length_filter_Forall2, Forall_Forall2_diag, Forall_forall.
  intros r Hr. rewrite review_mask_has_review; [done|]. intros z. by apply H.
Qed.

(** The rows the mask selects are the rows that have a review, in a column
    without numbers. *)
Lemma reviewed_count_review_count df :
  nums (column_cells df "review") = [] → reviewed_count df = review_count df.
Proof.
  intros Hn. apply filter_mask_length. intros r z Hr. by apply (no_number_lookup df).
Qed.

Lemma read_typed_text df c :
  read_typed df c → holds_text df c = true →
  dtype_of df c = Some Object ∧ nums (column_cells df c) = [].
Proof. intros (_ & Hd & Hn) Ht. rewrite Ht in Hd. auto. Qed.

Lemma read_typed_no_text df c :
  read_typed df c → holds_text df c = false → dtype_of df c = Some Numeric.
Proof. intros (_ & Hd & _) Ht. by rewrite Ht in Hd. Qed.

(** The preprocessed copy of an ingested batch can be capped when the
    batch can, and its review column is that of the batch. *)
Lemma preprocessed_review mean batch U :
  keeps_cells batch U →
  (∀ c, c ∈ names U → c = "userid" ∨ c ∈ names batch) →
  "review" ∈ names U → "review" ∈ names batch →
  is_Some (cap_usage batch) →
  is_Some (cap_usage (preprocess_dataframe mean U))
  ∧ dtype_of (preprocess_dataframe mean U) "review" = dtype_of batch "review".
Proof.
  intros [Hrows Hdt] Hcols HrU HrB Hcap.
  pose proof (Forall2_rows_preprocess mean U) as HP. split.
  - apply cap_usage_Some. intros p c Hp Hc Hday.
    rewrite names_preprocess in Hc.
    apply list_elem_of_lookup in Hp as [i Hi].
    destruct (Forall2_lookup_r _ _ _ _ _ HP Hi) as (u & Hu & _ & Hstr).
    destruct (Forall2_lookup_r _ _ _ _ _ Hrows Hu) as (r & Hr & Hru).
    assert (Hne : c ≠ "userid") by (by intros ->).
    destruct (Hcols c Hc) as [?|HcB]; [done|].
    rewrite Hstr, (Hru c Hne HcB Hc).
    apply (cap_usage_Some_inv batch); [done| |done..]. by eapply list_elem_of_lookup_2.
  - rewrite dtype_of_preprocess. by apply Hdt.
Qed.

(** C3.  [process_new_data] counts a batch whose review column holds a
    text: [split_dataset] returns the number of its rows and the number of
    its rows that have a review (a text with a character that is no white
    space), and the persisted counter of each model is its old value plus
    that count, unless the model was trained successfully in this run,
    which resets it.  A batch in which no row has a text for a review is
    not counted at all: read back from the file its review column is
    numeric, the [.str] accessor of line 72 raises [AttributeError], and no
    table and no counter is written.  So a first batch of 3 rows ingested by
    [process_user_uploads] when there is no authoritative dataset and no
    counters file leaves counter A at 3 and counter B at the number of its
    rows with a review when one row at least has a text for a review, and
    leaves no counters file, the rows ingested all the same, when none
    has. *)
Theorem counters_count_batch :
  (∀ env w df j0 a b,
     files w !! path_str PREPROCESSED_UPLOADS = Some (Csv df) →
     is_Some (cap_usage df) →
     read_typed df "review" → holds_text df "review" = true →
     fallback_path env MODEL_A_TRAIN ∉ readonly w →
     fallback_path env MODEL_B_TRAIN ∉ readonly w →
     COUNTER_FILE ∉ readonly w → archive_path env ∉ readonly w →
     stored_counters (files w) = Some j0 →
     j0 !! "model_a" = Some (JInt a) → j0 !! "model_b" = Some (JInt b) →
     let n := (a + Z.of_nat (len df))%Z in
     let r := (b + Z.of_nat (review_count df))%Z in
     ∃ w1 w' cb,
       split_dataset env
         (after w ["Found new preprocessed data at " +:+ path_str PREPROCESSED_UPLOADS] [])
       = (inr (Some (mkCounts (len df) (review_count df))), w1)
       ∧ process_new_data env w = (inr tt, w')
       ∧ files w' !! COUNTER_FILE = Some (Json cb)
       ∧ cb !! "model_a"
         = Some (JInt (if bool_decide (FREQ_MODEL_A ≤ n)%Z
                          && holds_data (files w1) (path_str MODEL_A_TRAIN)
                          && succeeds env [TRAIN_MODEL_A]
                       then 0 else n))
       ∧ cb !! "model_b"
         = Some (JInt (if bool_decide (FREQ_MODEL_B ≤ r)%Z
                          && holds_data (files w1) (path_str MODEL_B_TRAIN)
                          && succeeds env [TRAIN_MODEL_B]
                       then 0 else r)))
  ∧ (∀ env w df,
       files w !! path_str PREPROCESSED_UPLOADS = Some (Csv df) →
       is_Some (cap_usage df) →
       read_typed df "review" → holds_text df "review" = false →
       ∃ w', process_new_data env w = (inl AttributeError, w')
             ∧ files w' = files w ∧ spawned w' = spawned w)
  ∧ (∀ mean env w batch,
       files w !! UPLOADS = Some (Csv batch) → wf batch → len batch = 3%nat →
       is_Some (cap_usage batch) →
       read_typed batch "review" → holds_text batch "review" = true →
       holds_data (files w) (path_str MAIN_DATASET) = false →
       files w !! COUNTER_FILE = None →
       inbox_writable w →
       fallback_path env MODEL_A_TRAIN ∉ readonly w →
       fallback_path env MODEL_B_TRAIN ∉ readonly w →
       COUNTER_FILE ∉ readonly w → archive_path env ∉ readonly w →
       ∃ w' cb,
         process_user_uploads mean env w = (inr (Some 3%nat), w')
         ∧ assigned_ids w' = [2000; 2001; 2002]%Z
         ∧ files w' !! COUNTER_FILE = Some (Json cb)
         ∧ cb !! "model_a" = Some (JInt 3)
         ∧ cb !! "model_b" = Some (JInt (Z.of_nat (review_count batch))))
  ∧ (∀ mean env w batch,
       files w !! UPLOADS = Some (Csv batch) → wf batch → len batch = 3%nat →
       is_Some (cap_usage batch) →
       read_typed batch "review" → holds_text batch "review" = false →
       holds_data (files w) (path_str MAIN_DATASET) = false →
       files w !! COUNTER_FILE = None →
       inbox_writable w →
       ∃ w',
         process_user_uploads mean env w = (inr (Some 3%nat), w')
         ∧ assigned_ids w' = [2000; 2001; 2002]%Z
         ∧ files w' !! COUNTER_FILE = None
         ∧ spawned w' = spawned w).
Proof.
  split; [|split; [|split]].
  { intros env w df j0 a b Hpre Hcap Hread Htext Hfa Hfb Hcf Har Hst Ha Hb. cbn zeta.
    destruct (read_typed_text df "review" Hread Htext) as [Hrev Hnum].
    destruct (persisted_counters env w df j0 a b Hpre Hcap Hrev Hfa Hfb Hcf Har Hst Ha Hb)
      as (w1 & w' & cb & H1 & H2 & H3 & H4 & H5 & _).
    rewrite (reviewed_count_review_count df Hnum) in *.
    by exists w1, w', cb. }
  { intros env w df Hpre [df' Hcap] Hread Htext.
    pose proof (read_typed_no_text df "review" Hread Htext) as Hrev.
    pose proof (process_new_data_start env w df Hpre) as Hrun. cbn zeta in Hrun.
    rewrite Hcap, Hrev in Hrun. rewrite Hrun. eexists. split; [reflexivity|].
    cbn. by rewrite app_nil_r. }
  { intros mean env w batch Hup Hb Hlen Hcap Hread Htext Hmain Hcnt Hwr Hfa Hfb Hcf Har.
    destruct (read_typed_text batch "review" Hread Htext) as [Hrev Hnum].
    assert (HrB : "review" ∈ names batch).
    { destruct (decide ("review" ∈ names batch)) as [|Hn]; [done|].
      apply dtype_of_None in Hn. congruence. }
    assert (Hne : empty batch = false).
    { unfold empty. unfold len in Hlen. destruct (rows batch); [done|].
      unfold names in HrB. destruct (columns batch); [|done]. by apply elem_of_nil in HrB. }
    destruct (ingest_run mean env w batch Hup Hb Hne (not_holds_data_ready w Hmain) Hwr)
      as (U & C & w3 & w' & Hrun & Hf3 & Hr3 & _ & Hf' & Hr' & _
          & HwU & HuU & HlU & HcU & HwC & HuC & HcC & HkU & _ & _ & _ & Hfirst).
    destruct (Hfirst Hmain) as [HU HC].
    assert (HnU : ∀ c, c ∈ names U → c = "userid" ∨ c ∈ names batch).
    { intros c. rewrite HU, names_stamped. intros [->|Hc]%elem_of_cons; [by left|].
      right. by apply list_elem_of_filter in Hc as [_ ?]. }
    assert (HrU : "review" ∈ names U).
    { rewrite HU, names_stamped. right. apply list_elem_of_filter. by split. }
    destruct (preprocessed_batch mean batch U HkU HnU HrU Hcap Hrev)
      as (HcapP & HrevP & HcntP).
    set (P := preprocess_dataframe mean U) in *.
    destruct (persisted_counters env w3 P {[ "model_a" := JInt 0; "model_b" := JInt 0 ]} 0 0)
      as (w1 & w4 & cb & _ & Hpnd & Hf4 & Ha & Hb4 & _); try done.
    { by rewrite Hf3, lookup_insert_eq. }
    { by rewrite Hr3. } { by rewrite Hr3. } { by rewrite Hr3. } { by rewrite Hr3. }
    { unfold stored_counters. rewrite Hf3, !lookup_insert_ne by done. by rewrite Hcnt. }
    rewrite Hpnd in Hf'. cbn [snd] in Hf'.
    assert (HlP : len P = 3%nat).
    { unfold P. by rewrite len_preprocess, HlU. }
    assert (Hle : (reviewed_count P ≤ 3)%nat).
    { rewrite <- HlP. unfold reviewed_count, len. apply length_filter. }
    rewrite HlP in Ha. rewrite (bool_decide_eq_false_2 (FREQ_MODEL_A ≤ 0 + 3)%Z) in Ha
      by (unfold FREQ_MODEL_A; lia).
    rewrite (bool_decide_eq_false_2 (FREQ_MODEL_B ≤ _)%Z) in Hb4
      by (unfold FREQ_MODEL_B; lia).
    cbn [andb] in Ha, Hb4. rewrite HcntP in Hb4.
    rewrite (reviewed_count_review_count batch Hnum) in Hb4.
    exists w', cb. rewrite <- Hlen. split; [done|].
    pose proof (within_process_new_data env w3) as [Hfp _]. rewrite Hpnd in Hfp.
    cbn [snd] in Hfp.
    split; [|split; [|done]].
    - unfold assigned_ids. rewrite Hf', lookup_insert_ne by done.
      rewrite Hfp by apply not_scheduler_preprocessed.
      rewrite Hf3, lookup_insert_eq. fold P. unfold P.
      rewrite column_cells_preprocess by (by left).
      rewrite HcU, nums_Num, (not_holds_data_cells w Hmain), Hlen. done.
    - rewrite Hf', lookup_insert_ne by done. done. }
  intros mean env w batch Hup Hb Hlen Hcap Hread Htext Hmain Hcnt Hwr.
  pose proof (read_typed_no_text batch "review" Hread Htext) as Hrev.
  assert (HrB : "review" ∈ names batch).
  { destruct (decide ("review" ∈ names batch)) as [|Hn]; [done|].
    apply dtype_of_None in Hn. congruence. }
  assert (Hne : empty batch = false).
  { unfold empty. unfold len in Hlen. destruct (rows batch); [done|].
    unfold names in HrB. destruct (columns batch); [|done]. by apply elem_of_nil in HrB. }
  destruct (ingest_run mean env w batch Hup Hb Hne (not_holds_data_ready w Hmain) Hwr)
    as (U & C & w3 & w' & Hrun & Hf3 & Hr3 & Hs3 & Hf' & Hr' & Hs'
        & HwU & HuU & HlU & HcU & HwC & HuC & HcC & HkU & _ & _ & _ & Hfirst).
  destruct (Hfirst Hmain) as [HU HC].
  assert (HnU : ∀ c, c ∈ names U → c = "userid" ∨ c ∈ names batch).
  { intros c. rewrite HU, names_stamped. intros [->|Hc]%elem_of_cons; [by left|].
    right. by apply list_elem_of_filter in Hc as [_ ?]. }
  assert (HrU : "review" ∈ names U).
  { rewrite HU, names_stamped. right. apply list_elem_of_filter. by split. }
  destruct (preprocessed_review mean batch U HkU HnU HrU HrB Hcap) as ([P' HcapP] & HrevP).
  set (P := preprocess_dataframe mean U) in *.
  assert (HP3 : files w3 !! path_str PREPROCESSED_UPLOADS = Some (Csv P)).
  { by rewrite Hf3, lookup_insert_eq. }
  pose proof (process_new_data_start env w3 P HP3) as Hpnd. cbn zeta in Hpnd.
  rewrite HcapP, HrevP, Hrev in Hpnd.
  rewrite Hpnd in Hf', Hs'. cbn [snd after files spawned] in Hf', Hs'.
  exists w'. rewrite <- Hlen. split; [done|]. split; [|split].
  - unfold assigned_ids. rewrite Hf', lookup_insert_ne by done.
    rewrite HP3. unfold P.
    rewrite column_cells_preprocess by (by left).
    rewrite HcU, nums_Num, (not_holds_data_cells w Hmain), Hlen. done.
  - rewrite Hf', lookup_insert_ne by done. rewrite Hf3, !lookup_insert_ne by done. done.
  - rewrite Hs', app_nil_r. done.
Qed.

Lemma counters_count_batch_witness :
  (∃ w' cb,
     process_user_uploads mean_floor env0 (upload batch3 world0) = (inr (Some 3%nat), w')
     ∧ assigned_ids w' = [2000; 2001; 2002]%Z
     ∧ files w' !! COUNTER_FILE = Some (Json cb)
     ∧ cb !! "model_a" = Some (JInt 3)
     ∧ cb !! "model_b" = Some (JInt (Z.of_nat (review_count batch3))))
  ∧ (∃ w',
       process_user_uploads mean_floor env0 (upload batch3_silent world0)
       = (inr (Some 3%nat), w')
       ∧ assigned_ids w' = [2000; 2001; 2002]%Z
       ∧ files w' !! COUNTER_FILE = None
       ∧ spawned w' = spawned (upload batch3_silent world0)).
Proof.
  split.
  - apply (proj1 (proj2 (proj2 counters_count_batch))
             mean_floor env0 (upload batch3 world0) batch3).
    + reflexivity.
    + refine (bool_decide_unpack _ _). by vm_compute.
    + reflexivity.
    + by eexists.
    + unfold read_typed. split; [|split]; [|reflexivity|reflexivity].
      refine (bool_decide_unpack _ _). by vm_compute.
    + reflexivity.
    + reflexivity.
    + reflexivity.
    + unfold inbox_writable. cbn. set_solver.
    + cbn. set_solver.
    + cbn. set_solver.
    + cbn. set_solver.
    + cbn. set_solver.
  - apply (proj2 (proj2 (proj2 counters_count_batch))
             mean_floor env0 (upload batch3_silent world0) batch3_silent).
    + reflexivity.
    + refine (bool_decide_unpack _ _). by vm_compute.
    + reflexivity.
    + by eexists.
    + unfold read_typed. split; [|split]; [|reflexivity|done].
      refine (bool_decide_unpack _ _). by vm_compute.
    + reflexivity.
    + reflexivity.
    + reflexivity.
    + unfold inbox_writable. cbn. set_solver.
Defined.

End CounterFacts.


(** ** Retraining and regeneration *)

Module RetrainFacts.
Import Frame Sys Merger Scheduler Ingestor Spec FrameFacts Footprint IngestorFacts.
Import SchedulerFacts CounterFacts Examples.

(** C5.  When a model's counter has reached its threshold and its training
    table is missing or of size zero, the check of that model returns
    normally with the counters it was given, starts no subprocess, changes
    no file, and prints the line that reports the skip. *)
Theorem skip_when_table_missing env (counters : gmap string jval) a b w :
  (counters !! "model_a" = Some (JInt a) → (FREQ_MODEL_A ≤ a)%Z →
   holds_data (files w) (path_str MODEL_A_TRAIN) = false →
   ∃ w', check_model_a env counters w = (inr counters, w')
     ∧ spawned w' = spawned w ∧ files w' = files w
     ∧ stdout w' = stdout w ++ ["Time to train Model A (every 20 new records)"; line_skip_a])
  ∧ (counters !! "model_b" = Some (JInt b) → (FREQ_MODEL_B ≤ b)%Z →
     holds_data (files w) (path_str MODEL_B_TRAIN) = false →
     ∃ w', check_model_b env counters w = (inr counters, w')
       ∧ spawned w' = spawned w ∧ files w' = files w
       ∧ stdout w' = stdout w ++ ["Time to train Model B (every 10 new records)"; line_skip_b]).
Proof.
  split.
  - intros Ha Hdue Hmiss. rewrite (check_model_a_run env counters a w Ha).
    rewrite bool_decide_eq_true_2 by done. rewrite Hmiss.
    eexists. split; [done|]. cbn. by rewrite app_nil_r.
  - intros Hb Hdue Hmiss. rewrite (check_model_b_run env counters b w Hb).
    rewrite bool_decide_eq_true_2 by done. rewrite Hmiss.
    eexists. split; [done|]. cbn. by rewrite app_nil_r.
Qed.

Lemma skip_when_table_missing_witness :
  ∃ w', check_model_a env0 {[ "model_a" := JInt 23; "model_b" := JInt 4 ]} world0
        = (inr {[ "model_a" := JInt 23; "model_b" := JInt 4 ]}, w')
    ∧ spawned w' = spawned world0 ∧ files w' = files world0
    ∧ stdout w' = stdout world0
                  ++ ["Time to train Model A (every 20 new records)"; line_skip_a].
Proof.
  apply (proj1 (skip_when_table_missing env0 {[ "model_a" := JInt 23; "model_b" := JInt 4 ]}
                  23 4 world0)).
  - reflexivity.
  - unfold FREQ_MODEL_A. lia.
  - reflexivity.
Defined.

Lemma run_pipeline_script env name w :
  Pipeline.run_script env name w
  = (inr (succeeds env ["scripts/" +:+ name +:+ ".py"]),
     after w ["Running " +:+ name +:+ "...";
              if succeeds env ["scripts/" +:+ name +:+ ".py"]
              then name +:+ " completed successfully"
              else "Error running " +:+ name]
             [["scripts/" +:+ name +:+ ".py"]]).
Proof.
  unfold Pipeline.run_script. rewrite run_bind, run_print, run_bind.
  unfold subprocess_ok at 1. cbn [files readonly stdout spawned].
  destruct (succeeds env _); rewrite run_bind, run_print; unfold mret, M_ret, after;
    cbn [files readonly stdout spawned]; by rewrite <- !app_assoc.
Qed.

Lemma pipeline_load_counters w :
  ∃ lines, Pipeline.load_counters w = (inr (pipeline_counters (files w)), after w lines []).
Proof.
  unfold Pipeline.load_counters, pipeline_counters.
  destruct (files w !! Pipeline.COUNTER_FILE) as [[| |df|j]|].
  1-3: eexists [_]; rewrite run_bind, run_print_after; done.
  all: exists []; by rewrite after_nil.
Qed.

(** One run of [retrain_model] of [automated_pipeline.py]. *)
Lemma retrain_model_run env model x w :
  Pipeline.lower_last model = Some x →
  Pipeline.COUNTER_FILE ∉ readonly w →
  let train := ["scripts/" +:+ ("train_model_" +:+ x) +:+ ".py"] in
  let predict := ["scripts/" +:+ "churn_prediction" +:+ ".py"] in
  let explain := ["scripts/" +:+ "explainableAI" +:+ ".py"] in
  ∃ w',
    Pipeline.retrain_model env model w
    = (inr (succeeds env train && succeeds env predict), w')
    ∧ spawned w'
      = spawned w ++ train :: (if succeeds env train
                               then predict :: (if succeeds env predict then [explain] else [])
                               else [])
    ∧ files w'
      = if succeeds env train
        then <[Pipeline.COUNTER_FILE :=
                 Json (<["model_" +:+ x := JInt 0]>
                         (<["last_retrain_" +:+ x := JStr (isoformat env)]>
                            (pipeline_counters (files w))))]> (files w)
        else files w.
Proof.
  intros Hx Hro. cbn zeta. unfold Pipeline.retrain_model. rewrite Hx.
  rewrite run_bind, run_print_after, run_bind, run_pipeline_script.
  destruct (succeeds env ["scripts/" +:+ ("train_model_" +:+ x) +:+ ".py"]).
  - rewrite run_bind.
    destruct (pipeline_load_counters
                (after (after w ["Retraining " +:+ model +:+ "..."] [])
                   ["Running " +:+ ("train_model_" +:+ x) +:+ "...";
                    ("train_model_" +:+ x) +:+ " completed successfully"]
                   [["scripts/" +:+ ("train_model_" +:+ x) +:+ ".py"]])) as [lines ->].
    rewrite run_bind. unfold Pipeline.save_counters. rewrite run_write_file by done.
    rewrite run_bind, run_pipeline_script.
    destruct (succeeds env ["scripts/" +:+ "churn_prediction" +:+ ".py"]).
    + rewrite run_bind, run_pipeline_script. eexists. split; [done|].
      cbn [spawned files after]. split; [|done]. by rewrite <- !app_assoc.
    + eexists. split; [done|].
      cbn [spawned files after]. split; [|done]. by rewrite <- !app_assoc.
  - eexists. split; [done|]. cbn [spawned files after]. split; [|done].
    by rewrite <- !app_assoc.
Qed.




(** C4.  [process_new_data] persists counters in which every key other
    than the two counters is as it was read, the last-retrain timestamps
    among them.  On a counters file with Model A at 20 and a batch of three
    rows the training of Model A runs and succeeds and the counter is
    persisted as 0, not 3, while [last_retrain_a] stays null; [retrain_model]
    of [automated_pipeline.py] on the same files persists the counter 0
    together with the time of the retrain. *)
Theorem reset_without_timestamp :
  (∀ env w df j0 a b,
     files w !! path_str PREPROCESSED_UPLOADS = Some (Csv df) →
     is_Some (cap_usage df) → dtype_of df "review" = Some Object →
     fallback_path env MODEL_A_TRAIN ∉ readonly w →
     fallback_path env MODEL_B_TRAIN ∉ readonly w →
     Scheduler.COUNTER_FILE ∉ readonly w → archive_path env ∉ readonly w →
     stored_counters (files w) = Some j0 →
     j0 !! "model_a" = Some (JInt a) → j0 !! "model_b" = Some (JInt b) →
     ∃ w' cb,
       process_new_data env w = (inr tt, w')
       ∧ files w' !! Scheduler.COUNTER_FILE = Some (Json cb)
       ∧ cb !! "last_retrain_a" = j0 !! "last_retrain_a"
       ∧ cb !! "last_retrain_b" = j0 !! "last_retrain_b")
  ∧ (∃ w' cb,
       process_new_data env0 world_due = (inr tt, w')
       ∧ [TRAIN_MODEL_A] ∈ spawned w'
       ∧ "Model A training completed successfully!" ∈ stdout w'
       ∧ files w' !! Scheduler.COUNTER_FILE = Some (Json cb)
       ∧ cb !! "model_a" = Some (JInt 0)
       ∧ cb !! "last_retrain_a" = Some JNull)
  ∧ (∃ w' cb,
       Pipeline.retrain_model env0 "model_a" world_due = (inr true, w')
       ∧ files w' !! Pipeline.COUNTER_FILE = Some (Json cb)
       ∧ cb !! "model_a" = Some (JInt 0)
       ∧ cb !! "last_retrain_a" = Some (JStr (isoformat env0))).
Proof.
  split; [|split].
  - intros env w df j0 a b Hpre Hcap Hrev Hfa Hfb Hcf Har Hst Ha Hb.
    destruct (persisted_counters env w df j0 a b Hpre Hcap Hrev Hfa Hfb Hcf Har Hst Ha Hb)
      as (w1 & w' & cb & _ & Hrun & Hf & _ & _ & Hk).
    exists w', cb. split; [done|]. split; [done|]. split; by apply Hk.
  - destruct (process_new_data env0 world_due) as [r w'] eqn:Hrun.
    vm_compute in Hrun. injection Hrun as <- <-.
    eexists _, _. split; [reflexivity|].
    split; [by refine (bool_decide_unpack _ _)|].
    split; [by refine (bool_decide_unpack _ _)|].
    split; [reflexivity|]. split; reflexivity.
  - destruct (Pipeline.retrain_model env0 "model_a" world_due) as [r w'] eqn:Hrun.
    vm_compute in Hrun. injection Hrun as <- <-.
    eexists _, _. split; [reflexivity|]. split; [reflexivity|]. split; reflexivity.
Qed.

Lemma reset_without_timestamp_witness :
  ∃ w' cb,
    process_new_data env0 world_due = (inr tt, w')
    ∧ files w' !! Scheduler.COUNTER_FILE = Some (Json cb)
    ∧ cb !! "last_retrain_a" = due_counters !! "last_retrain_a"
    ∧ cb !! "last_retrain_b" = due_counters !! "last_retrain_b".
Proof.
  apply (proj1 reset_without_timestamp env0 world_due batch3 due_counters 20%Z 0%Z).
  - reflexivity.
  - by eexists.
  - reflexivity.
  - cbn. set_solver.
  - cbn. set_solver.
  - cbn. set_solver.
  - cbn. set_solver.
  - reflexivity.
  - reflexivity.
  - reflexivity.
Defined.




End RetrainFacts.


(** ** The fallback of a failed merge *)

Module FallbackFacts.
Import Frame Sys Merger Scheduler Ingestor Spec FrameFacts Footprint IngestorFacts.
Import SchedulerFacts CounterFacts Examples.










End FallbackFacts.


(** ** The cap on usage *)

Module CapFacts.
Import Frame Sys Merger Scheduler Ingestor Spec FrameFacts Footprint IngestorFacts.
Import SchedulerFacts CounterFacts Examples.















Lemma Forall2_fmap_eq {A B C} (f : A → C) (g : B → C) l k :
  Forall2 (λ x y, f x = g y) l k → f <$> l = g <$> k.
Proof. intros H. apply list_eq_Forall2. by apply Forall2_fmap. Qed.






End CapFacts.


(** ** Identifier reindexer *)

Module ReindexFacts.
Import Frame Sys Merger Scheduler Ingestor Spec FrameFacts IngestorFacts Examples.
Import Reindex.


Open Scope Z_scope.

Lemma number_from_fold (m : gmap Z Z) s l :
  let r := foldl (λ (st : gmap Z Z * Z) oid, (<[oid := st.2]> st.1, st.2 + 1)) (m, s) l in
  NoDup l →
  (∀ i x, l !! i = Some x → r.1 !! x = Some (s + Z.of_nat i))
  ∧ (∀ x, x ∉ l → r.1 !! x = m !! x).
Proof.
  cbn zeta. revert m s. induction l as [|y l IH]; intros m s Hnd.
  { split; [by intros i x|done]. }
  apply NoDup_cons in Hnd as [Hy Hnd]. cbn [foldl fst snd].
  destruct (IH (<[y := s]> m) (s + 1) Hnd) as [IH1 IH2]. split.
  - intros [|i] x Hx; cbn in Hx.
    + injection Hx as <-. rewrite IH2 by done. rewrite lookup_insert_eq. f_equal. lia.
    + rewrite (IH1 i x Hx). f_equal. lia.
  - intros x Hx. apply not_elem_of_cons in Hx as [Hxy Hx].
    rewrite IH2 by done. by rewrite lookup_insert_ne.
Qed.

Lemma number_from_lookup s l i x :
  NoDup l → l !! i = Some x → number_from s l !! x = Some (s + Z.of_nat i).
Proof. intros Hnd. apply (number_from_fold ∅ s l Hnd). Qed.

Lemma number_from_None s l x : NoDup l → x ∉ l → number_from s l !! x = None.
Proof. intros Hnd Hx. unfold number_from. by rewrite (proj2 (number_from_fold ∅ s l Hnd)). Qed.

Lemma number_from_Some s l x y :
  NoDup l → number_from s l !! x = Some y ↔ ∃ i, l !! i = Some x ∧ y = s + Z.of_nat i.
Proof.
  intros Hnd. split.
  - intros Hx. destruct (decide (x ∈ l)) as [Hin|Hin].
    + apply list_elem_of_lookup in Hin as [i Hi]. exists i. split; [done|].
      rewrite (number_from_lookup s l i x Hnd Hi) in Hx. by injection Hx.
    + by rewrite number_from_None in Hx.
  - intros (i & Hi & ->). by apply number_from_lookup.
Qed.

Section Sorted.
Variable to_int : string → option Z.

Lemma old_ids_NoDup df : NoDup (old_ids_of to_int df).
Proof.
  unfold old_ids_of. rewrite merge_sort_Permutation. apply NoDup_remove_dups.
Qed.

Lemma astype_int_exact z : exact_int z → astype_int z = z.
Proof.
  unfold exact_int, astype_int.
  change (2 ^ 53) with 9007199254740992. change (2 ^ 63) with 9223372036854775808.
  change (2 ^ 64) with 18446744073709551616.
  intros H. rewrite Z.mod_small; lia.
Qed.

Lemma old_ids_elem df x :
  Forall exact_int (omap (to_numeric to_int) (column_cells df "userid")) →
  x ∈ old_ids_of to_int df
  ↔ x ∈ omap (to_numeric to_int) (column_cells df "userid").
Proof.
  intros Hex. unfold old_ids_of. rewrite merge_sort_Permutation, elem_of_remove_dups.
  fold (column_cells df "userid").
  assert (astype_int <$> omap (to_numeric to_int) (column_cells df "userid")
          = omap (to_numeric to_int) (column_cells df "userid")) as ->; [|done].
  rewrite <- (list_fmap_id (omap _ _)) at 2. apply Forall_fmap_ext.
  eapply Forall_impl; [exact Hex|]. intros z Hz. by apply astype_int_exact.
Qed.

Lemma old_ids_sorted df : StronglySorted Z.le (old_ids_of to_int df).
Proof. apply (StronglySorted_merge_sort _). Qed.

End Sorted.

Lemma sorted_lookup_le (l : list Z) i j x y :
  StronglySorted Z.le l → (i < j)%nat → l !! i = Some x → l !! j = Some y → x ≤ y.
Proof.
  intros Hs. revert i j. induction Hs as [|z l Hs IH Hall]; intros i j Hij Hi Hj; [done|].
  destruct j as [|j]; [lia|]. cbn in Hj. destruct i as [|i]; cbn in Hi.
  - injection Hi as <-. rewrite Forall_forall in Hall. apply Hall.
    by eapply list_elem_of_lookup_2.
  - apply (IH i j); [lia|done..].
Qed.

Lemma sorted_lookup_lt (l : list Z) i j x y :
  StronglySorted Z.le l → NoDup l → l !! i = Some x → l !! j = Some y →
  x < y → (i < j)%nat.
Proof.
  intros Hs Hnd Hi Hj Hxy. destruct (decide (i < j)%nat) as [|Hn]; [done|].
  destruct (decide (i = j)) as [->|Hne]; [rewrite Hi in Hj; injection Hj; lia|].
  assert (y ≤ x); [|lia]. apply (sorted_lookup_le l j i); [done|lia|done..].
Qed.

Lemma reverse_map_lookup (m : gmap Z Z) x y :
  (∀ a b c, m !! a = Some c → m !! b = Some c → a = b) →
  reverse_map m !! y = Some x ↔ m !! x = Some y.
Proof.
  intros Hinj. unfold reverse_map. rewrite <- elem_of_list_to_map.
  - rewrite list_elem_of_fmap. split.
    + intros ([a b] & [= -> ->] & Hab). by apply elem_of_map_to_list in Hab.
    + intros Hx. exists (x, y). split; [done|]. by apply elem_of_map_to_list.
  - rewrite <- list_fmap_compose. apply NoDup_fmap_2_strong; [|apply NoDup_map_to_list].
    intros [a c] [b c'] Ha Hb Heq. cbn in Heq. subst c'.
    apply elem_of_map_to_list in Ha, Hb. by rewrite (Hinj a b c Ha Hb).
Qed.

Lemma names_remap_frame to_int m df : names (remap_frame to_int m df) = names df.
Proof.
  unfold remap_frame. case_decide; [|done]. unfold names. cbn [columns].
  rewrite <- list_fmap_compose. apply list_fmap_ext. intros i [c d] _. cbn.
  by case_decide.
Qed.

(** [build_id_map] (lines 46-59) numbers the distinct identifiers of the
    authoritative dataset, in ascending order, from 2000 on, and changes
    nothing: the [i]-th smallest identifier gets [2000 + i], the keys of the
    map are the identifiers of the dataset, the map preserves the order, is
    one to one, and its values are the numbers from 2000 up to the number of
    distinct identifiers.  The identifiers are numbers that pandas holds
    exactly; beyond, the conversion of line 53 wraps around. *)
Theorem id_map_numbers_identifiers (to_int : string → option Z) (df : DataFrame) (w : World) :
  files w !! in_dir DATASET_DIR "main-dataset.csv" = Some (Csv df) →
  "userid" ∈ names df →
  Forall exact_int (omap (to_numeric to_int) (column_cells df "userid")) →
  ∃ id_map ids,
    build_id_map to_int w = (inr id_map, w)
    ∧ StronglySorted Z.le ids ∧ NoDup ids
    ∧ (∀ x, x ∈ ids ↔ x ∈ omap (to_numeric to_int) (column_cells df "userid"))
    ∧ (∀ i x, ids !! i = Some x → id_map !! x = Some (START_ID + Z.of_nat i))
    ∧ (∀ x, is_Some (id_map !! x) ↔ x ∈ ids)
    ∧ (∀ x y x' y', id_map !! x = Some x' → id_map !! y = Some y' → x < y → x' < y')
    ∧ (∀ x y z, id_map !! x = Some z → id_map !! y = Some z → x = y)
    ∧ (∀ y, (∃ x, id_map !! x = Some y)
            ↔ START_ID ≤ y < START_ID + Z.of_nat (length ids)).
Proof.
  intros Hw Hu Hex.
  set (ids := old_ids_of to_int df). set (id_map := number_from START_ID ids).
  pose proof (old_ids_NoDup to_int df) as Hnd. fold ids in Hnd.
  pose proof (old_ids_sorted to_int df) as Hs. fold ids in Hs.
  assert (Hlook : ∀ x y, id_map !! x = Some y
                         ↔ ∃ i, ids !! i = Some x ∧ y = START_ID + Z.of_nat i).
  { intros x y. by apply number_from_Some. }
  exists id_map, ids.
  split. { unfold build_id_map. rewrite Hw. by rewrite decide_True. }
  split; [done|]. split; [done|]. split; [by intros x; apply old_ids_elem|].
  split; [by intros i x Hi; apply Hlook; exists i|].
  split.
  { intros x. split.
    - intros [y (i & Hi & _)%Hlook]. by eapply list_elem_of_lookup_2.
    - intros [i Hi]%list_elem_of_lookup. eexists. apply Hlook. by exists i. }
  split.
  { intros x y x' y' (i & Hi & ->)%Hlook (j & Hj & ->)%Hlook Hxy.
    pose proof (sorted_lookup_lt ids i j x y Hs Hnd Hi Hj Hxy). lia. }
  split.
  { intros x y z (i & Hi & ->)%Hlook (j & Hj & Heq)%Hlook.
    assert (i = j) as -> by lia. rewrite Hi in Hj. by injection Hj. }
  intros y. split.
  - intros (x & (i & Hi & ->)%Hlook). apply lookup_lt_Some in Hi. lia.
  - intros Hy. destruct (lookup_lt_is_Some_2 ids (Z.to_nat (y - START_ID))) as [x Hx];
      [lia|]. exists x. apply Hlook. eexists. split; [done|]. lia.
Qed.

Lemma id_map_numbers_identifiers_witness :
  ∃ id_map ids,
    build_id_map (λ _, None) world_main_21 = (inr id_map, world_main_21)
    ∧ StronglySorted Z.le ids ∧ NoDup ids
    ∧ (∀ x, x ∈ ids
            ↔ x ∈ omap (to_numeric (λ _, None)) (column_cells main_21 "userid"))
    ∧ (∀ i x, ids !! i = Some x → id_map !! x = Some (START_ID + Z.of_nat i))
    ∧ (∀ x, is_Some (id_map !! x) ↔ x ∈ ids)
    ∧ (∀ x y x' y', id_map !! x = Some x' → id_map !! y = Some y' → x < y → x' < y')
    ∧ (∀ x y z, id_map !! x = Some z → id_map !! y = Some z → x = y)
    ∧ (∀ y, (∃ x, id_map !! x = Some y)
            ↔ START_ID ≤ y < START_ID + Z.of_nat (length ids)).
Proof.
  apply (id_map_numbers_identifiers (λ _, None) main_21 world_main_21).
  - reflexivity.
  - refine (bool_decide_unpack _ _). by vm_compute.
  - refine (bool_decide_unpack _ _). by vm_compute.
Defined.

Lemma in_dir_inj dir : Inj (=) (=) (in_dir dir).
Proof.
  intros a b H. unfold in_dir in H. apply (inj (String.app dir)) in H.
  by apply (inj (String.app "/")) in H.
Qed.

Lemma column_cells_remap_frame to_int id_map T :
  "userid" ∈ names T →
  column_cells (remap_frame to_int id_map T) "userid"
  = remap_cell to_int id_map <$> column_cells T "userid".
Proof.
  intros Hu. unfold remap_frame. rewrite decide_True by done.
  unfold column_cells. cbn [rows]. induction (rows T) as [|r rs IH]; [done|].
  cbn. rewrite lookup_alter, decide_True by done.
  destruct (r !! "userid"); cbn; by rewrite IH.
Qed.

(** [remap_csv] (lines 62-69) does nothing to a file that is absent or of
    size zero.  A table it rewrites keeps its columns and its rows and every
    cell outside the identifier column; an identifier the map has becomes
    its new identifier, an identifier the map has not stays, a missing
    identifier stays missing, and text that is no number becomes missing. *)
Theorem remap_csv_rewrites_identifiers (to_int : string → option Z) (id_map : gmap Z Z)
    (path : string) (w : World) :
  (holds_data (files w) path = false → remap_csv to_int path id_map w = (inr tt, w))
  ∧ (∀ T, files w !! path = Some (Csv T) → path ∉ readonly w →
       ∃ T',
         remap_csv to_int path id_map w
         = (inr tt, mkWorld (<[path := Csv T']> (files w)) (readonly w)
                            (stdout w) (spawned w))
         ∧ names T' = names T ∧ len T' = len T
         ∧ Forall2 (λ r r' : gmap string cell,
                      (∀ c, c ≠ "userid" → r' !! c = r !! c)
                      ∧ r' !! "userid"
                        = if decide ("userid" ∈ names T)
                          then remap_cell to_int id_map <$> r !! "userid"
                          else r !! "userid")
                   (rows T) (rows T'))
  ∧ (∀ x y, id_map !! x = Some y → remap_cell to_int id_map (Num x) = Num y)
  ∧ (∀ x, id_map !! x = None → remap_cell to_int id_map (Num x) = Num x)
  ∧ remap_cell to_int id_map NaN = NaN
  ∧ (∀ s, to_int s = None → remap_cell to_int id_map (Str s) = NaN).
Proof.
  split; [|split; [|split; [|split; [|split]]]].
  - intros Hd. unfold remap_csv. rewrite run_bind. unfold has_data at 1.
    unfold holds_data in Hd. by rewrite Hd.
  - intros T HT Hro. exists (remap_frame to_int id_map T).
    split.
    { unfold remap_csv. rewrite run_bind. unfold has_data at 1. rewrite HT. cbn [negb].
      rewrite run_bind. unfold read_csv at 1. rewrite HT. by rewrite run_to_csv. }
    split; [apply names_remap_frame|].
    unfold remap_frame. case_decide as Hu.
    + unfold len. cbn [rows]. split; [by rewrite length_fmap|].
      apply Forall2_fmap_r, Forall_Forall2_diag, Forall_forall. intros r _. split.
      * intros c Hc. rewrite lookup_alter. by rewrite decide_False.
      * rewrite lookup_alter. by rewrite decide_True.
    + split; [done|]. by apply Forall_Forall2_diag, Forall_forall.
  - intros x y Hx. unfold remap_cell, get_or_self. cbn. by rewrite Hx.
  - intros x Hx. unfold remap_cell, get_or_self. cbn. by rewrite Hx.
  - done.
  - intros s' Hs. unfold remap_cell. cbn. by rewrite Hs.
Qed.

Lemma remap_csv_rewrites_identifiers_witness :
  (∃ T',
     remap_csv (λ _, None) (in_dir DATASET_DIR "churn_prediction.csv")
       {[ 1 := 2000; 2 := 2001 ]}%Z world_tables
     = (inr tt, mkWorld (<[in_dir DATASET_DIR "churn_prediction.csv" := Csv T']>
                           (files world_tables)) (readonly world_tables)
                        (stdout world_tables) (spawned world_tables))
     ∧ names T' = names table_stale ∧ len T' = len table_stale
     ∧ Forall2 (λ r r' : gmap string cell,
                  (∀ c, c ≠ "userid" → r' !! c = r !! c)
                  ∧ r' !! "userid"
                    = if decide ("userid" ∈ names table_stale)
                      then remap_cell (λ _, None) {[ 1 := 2000; 2 := 2001 ]}%Z
                             <$> r !! "userid"
                      else r !! "userid")
               (rows table_stale) (rows T'))
  ∧ remap_cell (λ _, None) {[ 1 := 2000; 2 := 2001 ]}%Z (Num 1) = Num 2000
  ∧ remap_cell (λ _, None) {[ 1 := 2000; 2 := 2001 ]}%Z (Num 2000) = Num 2000.
Proof.
  pose proof (remap_csv_rewrites_identifiers (λ _, None) {[ 1 := 2000; 2 := 2001 ]}%Z
                (in_dir DATASET_DIR "churn_prediction.csv") world_tables)
    as (_ & Hrewrite & Hmapped & Hother & _).
  split; [|split].
  - apply (Hrewrite table_stale); [reflexivity|]. cbn. set_solver.
  - apply Hmapped. reflexivity.
  - apply Hother. reflexivity.
Defined.

(** Remapped by its own map, the authoritative dataset has, as numbers in
    its identifier column, exactly the numbers from 2000 up to the number of
    its distinct identifiers, when its identifiers are numbers that pandas
    holds exactly. *)
Theorem remapped_dataset_is_compact (to_int : string → option Z) (df : DataFrame) (y : Z) :
  "userid" ∈ names df →
  Forall exact_int (omap (to_numeric to_int) (column_cells df "userid")) →
  let ids := old_ids_of to_int df in
  let id_map := number_from START_ID ids in
  Num y ∈ column_cells (remap_frame to_int id_map df) "userid"
  ↔ START_ID ≤ y < START_ID + Z.of_nat (length ids).
Proof.
  intros Hu Hex. cbn zeta. rewrite column_cells_remap_frame by done.
  pose proof (old_ids_NoDup to_int df) as Hnd.
  rewrite list_elem_of_fmap. split.
  - intros (v & Hv & Hin). unfold remap_cell in Hv.
    destruct (to_numeric to_int v) as [x|] eqn:Hx; [|done]. injection Hv as ->.
    assert (Hxi : x ∈ old_ids_of to_int df).
    { apply old_ids_elem; [done|]. apply list_elem_of_omap. by exists v. }
    apply list_elem_of_lookup in Hxi as [i Hi].
    unfold get_or_self. rewrite (number_from_lookup _ _ i x Hnd Hi). cbn.
    apply lookup_lt_Some in Hi. lia.
  - intros Hy.
    destruct (lookup_lt_is_Some_2 (old_ids_of to_int df) (Z.to_nat (y - START_ID)))
      as [x Hx]; [lia|].
    assert (Hxi : x ∈ old_ids_of to_int df) by (by eapply list_elem_of_lookup_2).
    apply old_ids_elem in Hxi; [|done]. apply list_elem_of_omap in Hxi as (v & Hv & Hvx).
    exists v. split; [|done]. unfold remap_cell. rewrite Hvx. f_equal.
    unfold get_or_self. rewrite (number_from_lookup _ _ _ x Hnd Hx). cbn. lia.
Qed.

Lemma remapped_dataset_is_compact_witness :
  Num 2001 ∈ column_cells
               (remap_frame (λ _, None)
                  (number_from START_ID (old_ids_of (λ _, None) main_21)) main_21) "userid"
  ↔ START_ID ≤ 2001 < START_ID + Z.of_nat (length (old_ids_of (λ _, None) main_21)).
Proof.
  apply (remapped_dataset_is_compact (λ _, None) main_21 2001).
  - refine (bool_decide_unpack _ _). by vm_compute.
  - refine (bool_decide_unpack _ _). by vm_compute.
Defined.

Lemma backup_paths_footprint dir listing root w p :
  (∀ name, name ∈ listing → p ≠ in_dir root name) →
  files (backup_paths dir listing root w).2 !! p = files w !! p
  ∧ readonly (backup_paths dir listing root w).2 = readonly w.
Proof.
  revert w. induction listing as [|name rest IH]; intros w Hp; [done|].
  cbn [backup_paths]. rewrite run_bind.
  destruct (files w !! in_dir dir name) as [c|] eqn:Hc.
  - unfold write_file. case_decide; [done|].
    destruct (IH (mkWorld (<[in_dir root name := c]> (files w)) (readonly w)
                    (stdout w) (spawned w))) as [IH1 IH2].
    { intros n Hn. apply Hp. by right. }
    rewrite IH1, IH2. cbn. split; [|done]. apply lookup_insert_ne.
    intros Heq. by apply (Hp name); [left|].
  - apply IH. intros n Hn. apply Hp. by right.
Qed.

Lemma backup_paths_run (dir root : string) (listing : list string) (w : World) :
  (∀ name, name ∈ listing → in_dir root name ∉ readonly w) →
  (∀ n n', n ∈ listing → n' ∈ listing → in_dir dir n' ≠ in_dir root n) →
  ∃ w',
    backup_paths dir listing root w = (inr tt, w')
    ∧ (∀ name c, name ∈ listing → files w !! in_dir dir name = Some c →
                 files w' !! in_dir root name = Some c)
    ∧ (∀ name, name ∈ listing → files w !! in_dir dir name = None →
               files w' !! in_dir root name = files w !! in_dir root name)
    ∧ (∀ p, (∀ name, name ∈ listing → p ≠ in_dir root name) →
            files w' !! p = files w !! p).
Proof.
  revert w. induction listing as [|name rest IH]; intros w Hro Hsep.
  { exists w. split; [done|]. split; [by intros ? ? ?%elem_of_nil|].
    split; [by intros ? ?%elem_of_nil|done]. }
  cbn [backup_paths]. rewrite run_bind.
  destruct (files w !! in_dir dir name) as [c|] eqn:Hc.
  - rewrite run_write_file by (apply Hro; by left).
    set (w1 := mkWorld _ _ _ _).
    assert (Hw1 : ∀ p, p ≠ in_dir root name → files w1 !! p = files w !! p).
    { intros p Hp. unfold w1. cbn. by rewrite lookup_insert_ne. }
    destruct (IH w1) as (w' & Hrun & Hcopy & Hskip & Hother).
    { intros n Hn. apply Hro. by right. }
    { intros n n' Hn Hn'. apply Hsep; by right. }
    exists w'. split; [done|]. split; [|split].
    + intros n c' Hn Hn'. destruct (decide (n ∈ rest)) as [Hr|Hr].
      * apply Hcopy; [done|]. rewrite Hw1; [done|]. by apply Hsep; [left|].
      * apply elem_of_cons in Hn as [->|?]; [|done].
        rewrite Hother.
        -- unfold w1. cbn. rewrite lookup_insert_eq. congruence.
        -- intros n0 Hn0 Heq%(inj (in_dir root)). by subst n0.
    + intros n Hn Hnone. destruct (decide (n = name)) as [->|Hne]; [congruence|].
      apply elem_of_cons in Hn as [?|Hn]; [done|].
      rewrite Hskip; [|done|].
      * apply Hw1. by intros ?%(inj (in_dir root)).
      * rewrite Hw1; [done|]. apply Hsep; [by left|by right].
    + intros p Hp. rewrite Hother by (intros n Hn; apply Hp; by right).
      apply Hw1. apply Hp. by left.
  - destruct (IH w) as (w' & Hrun & Hcopy & Hskip & Hother).
    { intros n Hn. apply Hro. by right. }
    { intros n n' Hn Hn'. apply Hsep; by right. }
    exists w'. split; [done|]. split; [|split].
    + intros n c' Hn Hn'. apply elem_of_cons in Hn as [->|Hn]; [congruence|].
      by apply Hcopy.
    + intros n Hn Hnone. destruct (decide (n ∈ rest)) as [Hr|Hr]; [by apply Hskip|].
      apply elem_of_cons in Hn as [->|?]; [|done].
      apply Hother. intros n0 Hn0 Heq%(inj (in_dir root)). by subst n0.
    + intros p Hp. apply Hother. intros n Hn. apply Hp. by right.
Qed.

(** [backup_paths] (lines 38-43) copies every listed file that exists into
    the backup directory, under its name, skips the names that do not
    exist, and changes no other file.  It needs the copies to be writable
    and the backup directory not to hold a listed file itself. *)
Theorem backup_copies_listed_files (dir root : string) (listing : list string) (w : World) :
  (∀ name, name ∈ listing → in_dir root name ∉ readonly w) →
  (∀ n n', n ∈ listing → n' ∈ listing → in_dir dir n' ≠ in_dir root n) →
  ∃ w',
    backup_paths dir listing root w = (inr tt, w')
    ∧ (∀ name c, name ∈ listing → files w !! in_dir dir name = Some c →
                 files w' !! in_dir root name = Some c)
    ∧ (∀ name, name ∈ listing → files w !! in_dir dir name = None →
               files w' !! in_dir root name = files w !! in_dir root name)
    ∧ (∀ p, (∀ name, name ∈ listing → p ≠ in_dir root name) →
            files w' !! p = files w !! p).
Proof. apply backup_paths_run. Qed.

Lemma backup_copies_listed_files_witness :
  ∃ w',
    backup_paths DATASET_DIR DATASET_FILES "datasets/backups/reindex_20231114_221320"
      world_tables = (inr tt, w')
    ∧ (∀ name c, name ∈ DATASET_FILES →
                 files world_tables !! in_dir DATASET_DIR name = Some c →
                 files w' !! in_dir "datasets/backups/reindex_20231114_221320" name = Some c)
    ∧ (∀ name, name ∈ DATASET_FILES →
               files world_tables !! in_dir DATASET_DIR name = None →
               files w' !! in_dir "datasets/backups/reindex_20231114_221320" name
               = files world_tables !! in_dir "datasets/backups/reindex_20231114_221320" name)
    ∧ (∀ p, (∀ name, name ∈ DATASET_FILES →
                     p ≠ in_dir "datasets/backups/reindex_20231114_221320" name) →
            files w' !! p = files world_tables !! p).
Proof.
  apply (backup_copies_listed_files DATASET_DIR "datasets/backups/reindex_20231114_221320"
           DATASET_FILES world_tables).
  - intros name _. cbn. set_solver.
  - intros n n' _ Hn' H. unfold DATASET_FILES in Hn'.
    repeat (apply elem_of_cons in Hn' as [->|Hn']; [cbn in H; discriminate H|]).
    by apply elem_of_nil in Hn'.
Defined.

(** One step of [remap_charts] (lines 101-114): a chart whose name carries
    an identifier of the map ends under the name of the new identifier, with
    its content, and its old name is gone; a file that held the new name is
    deleted for it; no other file changes.  A chart whose name carries no
    identifier of the map is left alone. *)
Theorem chart_takes_new_name (to_int : string → option Z) (chart_dir : string)
    (id_map : gmap Z Z) (fs : gmap string content) (name : string) :
  (∀ c old new_id,
     fs !! in_dir chart_dir name = Some c →
     chart_id to_int name = Some old → id_map !! old = Some new_id →
     apply_ops fs (remap_chart_ops to_int chart_dir id_map fs name)
     = <[in_dir chart_dir ("user_" +:+ pretty new_id +:+ ".png") := c]>
         (delete (in_dir chart_dir name) fs))
  ∧ (chart_id to_int name ≫= (id_map !!.) = None →
     remap_chart_ops to_int chart_dir id_map fs name = []).
Proof.
  split.
  - intros c old new_id Hc Hold Hnew. unfold remap_chart_ops. rewrite Hc, Hold. cbn.
    rewrite Hnew. case_decide as Heq.
    + rewrite Heq. cbn. rewrite insert_delete_eq. by rewrite insert_id.
    + case_decide as Hex; cbn.
      * rewrite lookup_delete_ne by done. rewrite Hc.
        apply map_eq. intros q.
        destruct (decide (q = in_dir chart_dir ("user_" +:+ pretty new_id +:+ ".png")))
          as [->|Hq]; [by rewrite !lookup_insert_eq|].
        rewrite !lookup_insert_ne by done.
        destruct (decide (q = in_dir chart_dir name)) as [->|Hq'];
          [by rewrite !lookup_delete_eq|].
        by rewrite !lookup_delete_ne.
      * by rewrite Hc.
  - intros Hnone. unfold remap_chart_ops. rewrite Hnone. by destruct (fs !! _).
Qed.

Lemma chart_takes_new_name_witness :
  apply_ops {[ "outputs/charts/user_1.png" := Garbled; "outputs/charts/user_2000.png" := Blank ]}
    (remap_chart_ops (λ s, if decide (s = "1") then Some 1 else None) CHART_DIR
       {[ 1 := 2000 ]}
       {[ "outputs/charts/user_1.png" := Garbled; "outputs/charts/user_2000.png" := Blank ]}
       "user_1.png")
  = <[in_dir CHART_DIR ("user_" +:+ pretty 2000 +:+ ".png") := Garbled]>
      (delete (in_dir CHART_DIR "user_1.png")
         {[ "outputs/charts/user_1.png" := Garbled; "outputs/charts/user_2000.png" := Blank ]}).
Proof.
  apply (proj1 (chart_takes_new_name (λ s, if decide (s = "1") then Some 1 else None)
                  CHART_DIR {[ 1 := 2000 ]}
                  {[ "outputs/charts/user_1.png" := Garbled;
                     "outputs/charts/user_2000.png" := Blank ]} "user_1.png")
               Garbled 1 2000).
  - reflexivity.
  - reflexivity.
  - reflexivity.
Defined.

Lemma app_neq_self (s t : string) : t ≠ "" → s +:+ t ≠ s.
Proof.
  intros Ht H. induction s as [|a s IH]; [done|]. cbn in H. injection H as H. auto.
Qed.

(** One step of [remap_explanations] (lines 75-95): an explanation whose
    [user_id] the map has ends under the name of the new identifier, holding
    the new identifier; its old name and the temporary file are gone; a file
    that held the new name is deleted for it; no other file changes.  A file
    that is no JSON, has no identifier of the map, or whose temporary file
    cannot be written, is left alone. *)
Theorem explanation_takes_new_name (to_int : string → option Z) (explain_dir : string)
    (id_map : gmap Z Z) (fs : gmap string content) (ro : gset string) (name : string) :
  let p := in_dir explain_dir name in
  (∀ data old new_id,
     fs !! p = Some (Json data) →
     user_id_of to_int data = Some old → id_map !! old = Some new_id →
     p +:+ ".tmp" ∉ ro →
     apply_ops fs (remap_explanation_ops to_int explain_dir id_map fs ro name)
     = <[in_dir explain_dir ("user_" +:+ pretty new_id +:+ ".json")
           := Json (<["user_id" := JInt new_id]> data)]>
         (delete p (delete (p +:+ ".tmp") fs)))
  ∧ ((∀ data, fs !! p = Some (Json data) →
              user_id_of to_int data ≫= (id_map !!.) = None ∨ p +:+ ".tmp" ∈ ro) →
     remap_explanation_ops to_int explain_dir id_map fs ro name = []).
Proof.
  cbn zeta. set (p := in_dir explain_dir name). split.
  - intros data old new_id Hp Hold Hnew Hro.
    assert (Htmp : p +:+ ".tmp" ≠ p) by (by apply app_neq_self).
    unfold remap_explanation_ops. fold p. rewrite Hp, Hold. cbn [mbind option_bind].
    rewrite Hnew. rewrite decide_False by done.
    set (c' := Json (<["user_id" := JInt new_id]> data)).
    set (new := in_dir explain_dir ("user_" +:+ pretty new_id +:+ ".json")).
    assert (Hrw : apply_ops fs [Write (p +:+ ".tmp") c'; Move (p +:+ ".tmp") p]
                  = <[p := c']> (delete (p +:+ ".tmp") fs)).
    { cbn. rewrite lookup_insert_eq. by rewrite delete_insert_eq. }
    unfold apply_ops in *. rewrite foldl_app. rewrite Hrw.
    case_decide as Heq.
    + cbn. rewrite Heq. by rewrite insert_delete_eq.
    + assert (Hfin : ∀ fs0, fs0 !! p = Some c' →
                <[new := c']> (delete p fs0)
                = <[new := c']> (delete p (delete (p +:+ ".tmp") fs)) →
                apply_op fs0 (Move p new)
                = <[new := c']> (delete p (delete (p +:+ ".tmp") fs))).
      { intros fs0 H0 H1. cbn. by rewrite H0. }
      case_decide as Hex; cbn [app foldl].
      * apply Hfin.
        -- cbn. rewrite lookup_delete_ne by done. by rewrite lookup_insert_eq.
        -- cbn. apply map_eq. intros q.
           destruct (decide (q = new)) as [->|Hq]; [by rewrite !lookup_insert_eq|].
           rewrite !lookup_insert_ne by done.
           destruct (decide (q = p)) as [->|Hq']; [by rewrite !lookup_delete_eq|].
           rewrite !lookup_delete_ne by done. by rewrite lookup_insert_ne.
      * apply Hfin.
        -- by rewrite lookup_insert_eq.
        -- by rewrite delete_insert_eq.
  - intros Hno. unfold remap_explanation_ops. fold p.
    destruct (fs !! p) as [[| | |data]|]; try done.
    destruct (Hno data eq_refl) as [->|Hro]; [done|].
    destruct (user_id_of to_int data ≫= (id_map !!.)); [|done].
    by rewrite decide_True.
Qed.

Lemma explanation_takes_new_name_witness :
  apply_ops {[ "outputs/explanations/user_1.json" := Json {[ "user_id" := JInt 1 ]} ]}
    (remap_explanation_ops (λ _, None) EXPLAIN_DIR {[ 1 := 2000 ]}
       {[ "outputs/explanations/user_1.json" := Json {[ "user_id" := JInt 1 ]} ]}
       ∅ "user_1.json")
  = <[in_dir EXPLAIN_DIR ("user_" +:+ pretty 2000 +:+ ".json")
        := Json (<["user_id" := JInt 2000]> {[ "user_id" := JInt 1 ]})]>
      (delete (in_dir EXPLAIN_DIR "user_1.json")
         (delete (in_dir EXPLAIN_DIR "user_1.json" +:+ ".tmp")
            {[ "outputs/explanations/user_1.json" := Json {[ "user_id" := JInt 1 ]} ]})).
Proof.
  apply (proj1 (explanation_takes_new_name (λ _, None) EXPLAIN_DIR {[ 1 := 2000 ]}
                  {[ "outputs/explanations/user_1.json" := Json {[ "user_id" := JInt 1 ]} ]}
                  ∅ "user_1.json")
               {[ "user_id" := JInt 1 ]} 1 2000).
  - reflexivity.
  - reflexivity.
  - reflexivity.
  - set_solver.
Defined.

End ReindexFacts.


(** ** The scheduler on batches it cannot split, and run twice *)

Module PipelineFacts.
Import Frame Sys Merger Scheduler Ingestor Spec FrameFacts Footprint IngestorFacts.
Import SchedulerFacts CounterFacts Examples.


(** Without a preprocessed batch [process_new_data] prints one line and
    returns.  A batch that [split_dataset] cannot split makes it raise
    before a file is changed or a subprocess started: [TypeError] when a
    [Day_] column holds text, [KeyError] when there is no [review] column
    and [AttributeError] when the [review] column is numeric. *)
Theorem process_new_data_rejects_batch (env : Env) (w : World) :
  (holds_data (files w) (path_str PREPROCESSED_UPLOADS) = false →
   process_new_data env w = (inr tt, after w ["No new preprocessed data found."] []))
  ∧ (∀ df, files w !! path_str PREPROCESSED_UPLOADS = Some (Csv df) →
       (∀ r c s, r ∈ rows df → c ∈ names df → Is_true (String.prefix "Day_" c) →
                 r !! c = Some (Str s) →
                 ∃ w', process_new_data env w = (inl TypeError, w')
                       ∧ files w' = files w ∧ spawned w' = spawned w)
       ∧ (is_Some (cap_usage df) → dtype_of df "review" = None →
          ∃ w', process_new_data env w = (inl (KeyError "review"), w')
                ∧ files w' = files w ∧ spawned w' = spawned w)
       ∧ (is_Some (cap_usage df) → dtype_of df "review" = Some Numeric →
          ∃ w', process_new_data env w = (inl AttributeError, w')
                ∧ files w' = files w ∧ spawned w' = spawned w)).
Proof.
  split.
  { intros Hd. unfold process_new_data. rewrite run_bind. unfold has_data at 1.
    unfold holds_data in Hd. rewrite Hd. cbn [negb]. apply run_print_after. }
  intros df Hpre. pose proof (process_new_data_start env w df Hpre) as Hrun.
  cbn zeta in Hrun. split; [|split].
  - intros r c s Hr Hc Hday Hs.
    assert (Hnone : cap_usage df = None).
    { destruct (cap_usage df) eqn:Hcap; [|done].
      assert (is_str (r !! c) = false) as Hf by (by eapply cap_usage_Some_inv).
      by rewrite Hs in Hf. }
    rewrite Hnone in Hrun. rewrite Hrun. eexists. split; [reflexivity|]. cbn.
    by rewrite app_nil_r.
  - intros [df' Hcap] Hrev. rewrite Hcap, Hrev in Hrun. rewrite Hrun.
    eexists. split; [reflexivity|]. cbn. by rewrite app_nil_r.
  - intros [df' Hcap] Hrev. rewrite Hcap, Hrev in Hrun. rewrite Hrun.
    eexists. split; [reflexivity|]. cbn. by rewrite app_nil_r.
Qed.

Lemma process_new_data_rejects_batch_witness :
  (∃ w', process_new_data env0 (world_batch batch_text_usage) = (inl TypeError, w')
         ∧ files w' = files (world_batch batch_text_usage)
         ∧ spawned w' = spawned (world_batch batch_text_usage))
  ∧ (∃ w', process_new_data env0 (world_batch batch_no_review) = (inl (KeyError "review"), w')
           ∧ files w' = files (world_batch batch_no_review)
           ∧ spawned w' = spawned (world_batch batch_no_review))
  ∧ (∃ w', process_new_data env0 (world_batch batch3_silent) = (inl AttributeError, w')
           ∧ files w' = files (world_batch batch3_silent)
           ∧ spawned w' = spawned (world_batch batch3_silent)).
Proof.
  split; [|split].
  - apply (proj1 (proj2 (process_new_data_rejects_batch env0 (world_batch batch_text_usage))
                    batch_text_usage eq_refl)
             {[ "userid" := Num 2000; "Day_1" := Str "many"; "review" := Str "ok" ]}
             "Day_1" "many").
    + by left.
    + refine (bool_decide_unpack _ _). by vm_compute.
    + exact I.
    + reflexivity.
  - apply (proj1 (proj2 (proj2 (process_new_data_rejects_batch env0
                                   (world_batch batch_no_review)) batch_no_review eq_refl))).
    + by eexists.
    + reflexivity.
  - apply (proj2 (proj2 (proj2 (process_new_data_rejects_batch env0
                                   (world_batch batch3_silent)) batch3_silent eq_refl))).
    + by eexists.
    + reflexivity.
Defined.

(** [process_new_data] never changes the authoritative dataset, the
    uploads file or the preprocessed batch, whatever happens, nor which
    files can be written. *)
Theorem process_new_data_keeps_inputs (env : Env) (w : World) :
  files (process_new_data env w).2 !! path_str MAIN_DATASET = files w !! path_str MAIN_DATASET
  ∧ files (process_new_data env w).2 !! UPLOADS = files w !! UPLOADS
  ∧ files (process_new_data env w).2 !! path_str PREPROCESSED_UPLOADS
    = files w !! path_str PREPROCESSED_UPLOADS
  ∧ readonly (process_new_data env w).2 = readonly w.
Proof.
  destruct (within_process_new_data env w) as [Hf Hr].
  split; [apply Hf, not_scheduler_main|]. split; [apply Hf, not_scheduler_uploads|].
  split; [apply Hf, not_scheduler_preprocessed|done].
Qed.



(** In a run of [process_new_data] the training script of a model is
    started exactly when its counter, the batch counted, has reached its
    threshold and its training table has data after the split; Model A
    comes before Model B and the three regeneration scripts follow. *)
Theorem training_starts_when_due (env : Env) (w : World) (df : DataFrame)
    (j0 : gmap string jval) (a b : Z) :
  files w !! path_str PREPROCESSED_UPLOADS = Some (Csv df) →
  is_Some (cap_usage df) → dtype_of df "review" = Some Object →
  fallback_path env MODEL_A_TRAIN ∉ readonly w →
  fallback_path env MODEL_B_TRAIN ∉ readonly w →
  COUNTER_FILE ∉ readonly w → archive_path env ∉ readonly w →
  stored_counters (files w) = Some j0 →
  j0 !! "model_a" = Some (JInt a) → j0 !! "model_b" = Some (JInt b) →
  ∃ w1 w',
    split_dataset env
      (after w ["Found new preprocessed data at " +:+ path_str PREPROCESSED_UPLOADS] [])
    = (inr (Some (mkCounts (len df) (reviewed_count df))), w1)
    ∧ process_new_data env w = (inr tt, w')
    ∧ spawned w'
      = spawned w
        ++ (if bool_decide (FREQ_MODEL_A ≤ a + Z.of_nat (len df))%Z
               && holds_data (files w1) (path_str MODEL_A_TRAIN)
            then [[TRAIN_MODEL_A]] else [])
        ++ (if bool_decide (FREQ_MODEL_B ≤ b + Z.of_nat (reviewed_count df))%Z
               && holds_data (files w1) (path_str MODEL_B_TRAIN)
            then [[TRAIN_MODEL_B]] else [])
        ++ regeneration.
Proof.
  intros Hpre [df' Hcap] Hrev Hfa Hfb Hcf Har Hst Ha Hb.
  destruct (process_new_data_run env w df df' j0 a b Hpre Hcap Hrev Hfa Hfb Hcf Har Hst Ha Hb)
    as (w1 & ca & cb & wA & wB & w' & Hsplit & Hca & Hcb & Hrun & _ & HfA & _ & _
        & Hs1 & Hs' & _).
  cbn zeta in *. cbn [total with_reviews] in *.
  rewrite (len_with_review _ _ Hcap) in *.
  set (n := (a + Z.of_nat (len df))%Z) in *.
  set (r := (b + Z.of_nat (reviewed_count df))%Z) in *.
  set (c0 := <["model_b" := JInt r]> (<["model_a" := JInt n]> j0)) in *.
  assert (Hc0a : c0 !! "model_a" = Some (JInt n)).
  { unfold c0. rewrite lookup_insert_ne by done. by rewrite lookup_insert_eq. }
  rewrite (check_model_a_run env c0 n _ Hc0a) in Hca.
  assert (Hcab : ca !! "model_b" = Some (JInt r)
                 ∧ spawned wA
                   = spawned w ++ (if bool_decide (FREQ_MODEL_A ≤ n)%Z
                                      && holds_data (files w1) (path_str MODEL_A_TRAIN)
                                   then [[TRAIN_MODEL_A]] else [])).
  { cbn [files after] in Hca.
    destruct (bool_decide (FREQ_MODEL_A ≤ n)%Z);
      [destruct (holds_data (files w1) (path_str MODEL_A_TRAIN))|];
      injection Hca as <- <-; cbn [andb spawned after]; rewrite Hs1, ?app_nil_r.
    - split; [|done]. destruct (succeeds env _); [rewrite lookup_insert_ne by done|];
        unfold c0; by rewrite lookup_insert_eq.
    - split; [|done]. unfold c0. by rewrite lookup_insert_eq.
    - split; [|done]. unfold c0. by rewrite lookup_insert_eq. }
  destruct Hcab as [Hcab HsA].
  rewrite (check_model_b_run env ca r _ Hcab) in Hcb.
  exists w1, w'. split; [done|]. split; [done|].
  rewrite Hs'. unfold regeneration. rewrite HfA in Hcb.
  destruct (bool_decide (FREQ_MODEL_B ≤ r)%Z);
    [destruct (holds_data (files w1) (path_str MODEL_B_TRAIN))|];
    injection Hcb as _ <-; cbn [andb spawned after]; rewrite HsA, ?app_nil_r;
    by rewrite <- ?app_assoc.
Qed.

Lemma training_starts_when_due_witness :
  ∃ w1 w',
    split_dataset env0
      (after world_due ["Found new preprocessed data at " +:+ path_str PREPROCESSED_UPLOADS] [])
    = (inr (Some (mkCounts (len batch3) (reviewed_count batch3))), w1)
    ∧ process_new_data env0 world_due = (inr tt, w')
    ∧ spawned w'
      = spawned world_due
        ++ (if bool_decide (FREQ_MODEL_A ≤ 20 + Z.of_nat (len batch3))%Z
               && holds_data (files w1) (path_str MODEL_A_TRAIN)
            then [[TRAIN_MODEL_A]] else [])
        ++ (if bool_decide (FREQ_MODEL_B ≤ 0 + Z.of_nat (reviewed_count batch3))%Z
               && holds_data (files w1) (path_str MODEL_B_TRAIN)
            then [[TRAIN_MODEL_B]] else [])
        ++ regeneration.
Proof.
  apply (training_starts_when_due env0 world_due batch3 due_counters 20 0).
  - reflexivity.
  - by eexists.
  - reflexivity.
  - cbn. set_solver.
  - cbn. set_solver.
  - cbn. set_solver.
  - cbn. set_solver.
  - reflexivity.
  - reflexivity.
  - reflexivity.
Defined.

(** A batch without a [review] column, when the dataset has none either, is
    ingested but never split: [process_user_uploads] reports its rows,
    appends them to the authoritative dataset under fresh identifiers and
    clears the uploads file, while the exception of the pipeline is only
    printed; no training table, counter or archive is written and no
    subprocess is started. *)
Theorem unsplittable_batch_is_ingested (mean : list Z → Z) (env : Env) (w : World)
    (batch : DataFrame) :
  files w !! UPLOADS = Some (Csv batch) → wf batch → empty batch = false →
  main_ready w → inbox_writable w →
  ¬ expected_columns w batch "review" →
  ∃ w' C,
    process_user_uploads mean env w = (inr (Some (len batch)), w')
    ∧ files w' !! path_str MAIN_DATASET = Some (Csv C)
    ∧ column_cells C "userid"
      = main_cells w
        ++ ((λ z, Num z) <$> seqZ (next_userid (nums (main_cells w))) (Z.of_nat (len batch)))
    ∧ files w' !! UPLOADS = Some Blank
    ∧ (∀ p, p ≠ path_str MAIN_DATASET → p ≠ UPLOADS → p ≠ path_str PREPROCESSED_UPLOADS →
            files w' !! p = files w !! p)
    ∧ spawned w' = spawned w.
Proof.
  intros Hup Hb Hne Hready Hwr Hnorev.
  destruct (ingest_run mean env w batch Hup Hb Hne Hready Hwr)
    as (U & C & w3 & w' & Hrun & Hf3 & Hr3 & Hs3 & Hf' & Hr' & Hs'
        & HwU & HuU & HlU & HcU & HwC & HuC & HcC & HkU & _ & _ & HexpU & _).
  assert (Hpre : files w3 !! path_str PREPROCESSED_UPLOADS
                 = Some (Csv (preprocess_dataframe mean U))).
  { by rewrite Hf3, lookup_insert_eq. }
  assert (Hrev : dtype_of (preprocess_dataframe mean U) "review" = None).
  { rewrite dtype_of_preprocess. apply dtype_of_None. by rewrite HexpU. }
  pose proof (process_new_data_start env w3 _ Hpre) as Hpnd. cbn zeta in Hpnd.
  rewrite Hrev in Hpnd.
  assert (Hsame : files (process_new_data env w3).2 = files w3
                  ∧ spawned (process_new_data env w3).2 = spawned w3).
  { rewrite Hpnd. destruct (cap_usage _); cbn; by rewrite app_nil_r. }
  destruct Hsame as [Hfs Hss].
  exists w', C. split; [done|]. rewrite Hf', Hfs, Hf3.
  split; [do 3 (rewrite lookup_insert_ne by done); by rewrite lookup_insert_eq|].
  split; [by rewrite HcC, HcU|]. split; [by rewrite lookup_insert_eq|].
  split; [|by rewrite Hs', Hss].
  intros p H1 H2 H3. by do 4 (rewrite lookup_insert_ne by done).
Qed.

Lemma unsplittable_batch_is_ingested_witness :
  ∃ w' C,
    process_user_uploads mean_floor env0 (upload batch_no_review world0)
    = (inr (Some (len batch_no_review)), w')
    ∧ files w' !! path_str MAIN_DATASET = Some (Csv C)
    ∧ column_cells C "userid"
      = main_cells (upload batch_no_review world0)
        ++ ((λ z, Num z)
              <$> seqZ (next_userid (nums (main_cells (upload batch_no_review world0))))
                       (Z.of_nat (len batch_no_review)))
    ∧ files w' !! UPLOADS = Some Blank
    ∧ (∀ p, p ≠ path_str MAIN_DATASET → p ≠ UPLOADS → p ≠ path_str PREPROCESSED_UPLOADS →
            files w' !! p = files (upload batch_no_review world0) !! p)
    ∧ spawned w' = spawned (upload batch_no_review world0).
Proof.
  apply (unsplittable_batch_is_ingested mean_floor env0 (upload batch_no_review world0)
           batch_no_review).
  - reflexivity.
  - refine (bool_decide_unpack _ _). by vm_compute.
  - reflexivity.
  - by vm_compute.
  - unfold inbox_writable. cbn. set_solver.
  - unfold expected_columns. cbn. intros [H|H]; [done|].
    by apply (bool_decide_pack _) in H.
Defined.

End PipelineFacts.


(** ** The scheduling loop *)

Module LoopFacts.
Import Frame Sys Merger Scheduler Ingestor Spec FrameFacts Footprint IngestorFacts.
Import SchedulerFacts CounterFacts Examples.
Import RetrainFacts.


Lemma within_pipeline_script S env name : writes_within S (Pipeline.run_script env name).
Proof. unfold Pipeline.run_script. repeat within_step. Qed.

Lemma within_retrain_model env model :
  writes_within (λ p, p = Pipeline.COUNTER_FILE) (Pipeline.retrain_model env model).
Proof.
  unfold Pipeline.retrain_model, Pipeline.load_counters, Pipeline.save_counters.
  destruct (Pipeline.lower_last model); [|apply within_raise].
  repeat first [ apply within_pipeline_script | by apply within_write_file | within_step ].
  intros w. destruct (files w !! Pipeline.COUNTER_FILE) as [[]|]; done.
Qed.

(** [check_retrain_conditions] (lines 110-122) with both counters below
    their thresholds, a missing counter counting as zero: no subprocess is
    started and no file is changed. *)
Theorem nothing_due_nothing_done (env : Env) (w : World) (a b : Z) :
  count_of (pipeline_counters (files w)) "model_a" = Some a →
  count_of (pipeline_counters (files w)) "model_b" = Some b →
  (a < Pipeline.FREQ_MODEL_A)%Z → (b < Pipeline.FREQ_MODEL_B)%Z →
  ∃ w', Pipeline.check_retrain_conditions env w = (inr tt, w')
        ∧ files w' = files w ∧ spawned w' = spawned w ∧ readonly w' = readonly w.
Proof.
  intros Ha Hb HA HB. unfold Pipeline.check_retrain_conditions.
  destruct (pipeline_load_counters w) as [lines Hl]. rewrite run_bind, Hl.
  unfold count_of in Ha, Hb. unfold Pipeline.reached.
  rewrite run_bind.
  destruct (default (JInt 0) (pipeline_counters (files w) !! "model_a")); [|done..].
  injection Ha as ->. unfold mret at 1, M_ret at 1.
  rewrite bool_decide_eq_false_2 by lia. rewrite run_bind. unfold mret at 1, M_ret at 1.
  rewrite run_bind.
  destruct (default (JInt 0) (pipeline_counters (files w) !! "model_b")); [|done..].
  injection Hb as ->. unfold mret at 1, M_ret at 1.
  rewrite bool_decide_eq_false_2 by lia.
  eexists. split; [reflexivity|]. cbn. by rewrite app_nil_r.
Qed.

Lemma nothing_due_nothing_done_witness :
  ∃ w', Pipeline.check_retrain_conditions env0 world0 = (inr tt, w')
        ∧ files w' = files world0 ∧ spawned w' = spawned world0
        ∧ readonly w' = readonly world0.
Proof.
  apply (nothing_due_nothing_done env0 world0 0 0).
  - reflexivity.
  - reflexivity.
  - by vm_compute.
  - by vm_compute.
Defined.

(** [check_retrain_conditions] with both counters at their thresholds and
    both training scripts succeeding: each model is retrained, Model A
    first, each followed by its regeneration; the counters file ends with
    both counters at zero and both retrain times set, the retrain of Model B
    keeping what the retrain of Model A saved, and every other key as it
    was. *)
Theorem both_due_both_reset (env : Env) (w : World) (a b : Z) :
  count_of (pipeline_counters (files w)) "model_a" = Some a →
  count_of (pipeline_counters (files w)) "model_b" = Some b →
  (Pipeline.FREQ_MODEL_A ≤ a)%Z → (Pipeline.FREQ_MODEL_B ≤ b)%Z →
  succeeds env ["scripts/train_model_a.py"] = true →
  succeeds env ["scripts/train_model_b.py"] = true →
  Pipeline.COUNTER_FILE ∉ readonly w →
  let regenerated :=
    ["scripts/churn_prediction.py"]
    :: (if succeeds env ["scripts/churn_prediction.py"]
        then [["scripts/explainableAI.py"]] else []) in
  ∃ w',
    Pipeline.check_retrain_conditions env w = (inr tt, w')
    ∧ files w'
      = <[Pipeline.COUNTER_FILE :=
            Json (<["model_b" := JInt 0]>
                    (<["last_retrain_b" := JStr (isoformat env)]>
                       (<["model_a" := JInt 0]>
                          (<["last_retrain_a" := JStr (isoformat env)]>
                             (pipeline_counters (files w))))))]> (files w)
    ∧ spawned w'
      = spawned w ++ ["scripts/train_model_a.py"] :: regenerated
                  ++ ["scripts/train_model_b.py"] :: regenerated.
Proof.
  intros Ha Hb HA HB Hta Htb Hro. cbn zeta. unfold Pipeline.check_retrain_conditions.
  destruct (pipeline_load_counters w) as [lines Hl]. rewrite run_bind, Hl.
  unfold count_of in Ha, Hb. unfold Pipeline.reached.
  rewrite run_bind.
  destruct (default (JInt 0) (pipeline_counters (files w) !! "model_a")); [|done..].
  injection Ha as ->. unfold mret at 1, M_ret at 1.
  rewrite bool_decide_eq_true_2 by lia. rewrite run_bind.
  rewrite run_bind, run_print_after, after_after.
  set (w1 := after w _ _).
  destruct (retrain_model_run env "model_a" "a" w1 eq_refl Hro) as (w2 & Hr2 & Hs2 & Hf2).
  destruct (within_retrain_model env "model_a" w1) as [_ Hro2].
  cbn zeta in Hr2, Hs2, Hf2. rewrite Hr2 in Hro2. cbn [snd] in Hro2.
  rewrite run_bind, Hr2. unfold mret at 1, M_ret at 1.
  rewrite run_bind.
  destruct (default (JInt 0) (pipeline_counters (files w) !! "model_b")); [|done..].
  injection Hb as ->. unfold mret at 1, M_ret at 1.
  rewrite bool_decide_eq_true_2 by lia.
  rewrite run_bind, run_print_after.
  set (w3 := after w2 _ _).
  destruct (retrain_model_run env "model_b" "b" w3 eq_refl) as (w4 & Hr4 & Hs4 & Hf4).
  { unfold w3. cbn. by rewrite Hro2. }
  cbn zeta in Hr4, Hs4, Hf4.
  rewrite run_bind, Hr4. unfold mret, M_ret. exists w4. split; [done|].
  change ("scripts/" +:+ ("train_model_" +:+ "a") +:+ ".py")
    with "scripts/train_model_a.py" in *.
  change ("scripts/" +:+ ("train_model_" +:+ "b") +:+ ".py")
    with "scripts/train_model_b.py" in *.
  change ("scripts/" +:+ "churn_prediction" +:+ ".py")
    with "scripts/churn_prediction.py" in *.
  change ("scripts/" +:+ "explainableAI" +:+ ".py") with "scripts/explainableAI.py" in *.
  rewrite Hta in Hs2, Hf2. rewrite Htb in Hs4, Hf4.
  split.
  - rewrite Hf4. change (files w3) with (files w2). rewrite Hf2.
    change (files w1) with (files w).
    unfold pipeline_counters at 1. rewrite lookup_insert_eq.
    by rewrite insert_insert_eq.
  - rewrite Hs4. change (spawned w3) with (spawned w2 ++ []). rewrite Hs2.
    change (spawned w1) with (spawned w ++ [] ++ []).
    rewrite !app_nil_r. by rewrite <- !app_assoc.
Qed.

Lemma both_due_both_reset_witness :
  ∃ w',
    Pipeline.check_retrain_conditions env0 world_both_due = (inr tt, w')
    ∧ files w'
      = <[Pipeline.COUNTER_FILE :=
            Json (<["model_b" := JInt 0]>
                    (<["last_retrain_b" := JStr (isoformat env0)]>
                       (<["model_a" := JInt 0]>
                          (<["last_retrain_a" := JStr (isoformat env0)]>
                             (pipeline_counters (files world_both_due))))))]>
          (files world_both_due)
    ∧ spawned w'
      = spawned world_both_due
        ++ ["scripts/train_model_a.py"]
           :: (["scripts/churn_prediction.py"]
               :: (if succeeds env0 ["scripts/churn_prediction.py"]
                   then [["scripts/explainableAI.py"]] else []))
        ++ ["scripts/train_model_b.py"]
           :: (["scripts/churn_prediction.py"]
               :: (if succeeds env0 ["scripts/churn_prediction.py"]
                   then [["scripts/explainableAI.py"]] else [])).
Proof.
  apply (both_due_both_reset env0 world_both_due 25 10).
  - reflexivity.
  - reflexivity.
  - by vm_compute.
  - by vm_compute.
  - reflexivity.
  - reflexivity.
  - cbn. set_solver.
Defined.

(** [check_for_new_data] (lines 70-87) starts nothing when the uploads file
    is absent or of size zero.  Otherwise it starts [process_upload] and,
    only when that succeeded, [process_new_data]; it returns true only when
    both succeeded, and writes no file itself. *)
Theorem watcher_runs_scripts_in_order (env : Env) (w : World) :
  (holds_data (files w) Watcher.UPLOAD_FILE = false →
   Watcher.check_for_new_data env w = (inr false, w))
  ∧ (holds_data (files w) Watcher.UPLOAD_FILE = true →
     ∃ w',
       Watcher.check_for_new_data env w
       = (inr (succeeds env ["scripts/process_upload.py"]
               && succeeds env ["scripts/process_new_data.py"]), w')
       ∧ spawned w'
         = spawned w ++ ["scripts/process_upload.py"]
                        :: (if succeeds env ["scripts/process_upload.py"]
                            then [["scripts/process_new_data.py"]] else [])
       ∧ files w' = files w).
Proof.
  unfold Watcher.check_for_new_data, holds_data. split; intros Hd.
  - rewrite run_bind. unfold has_data at 1. by rewrite Hd.
  - rewrite run_bind. unfold has_data at 1. rewrite Hd. cbn [negb].
    rewrite run_bind, run_print_after, run_bind, run_pipeline_script.
    change ("scripts/" +:+ "process_upload" +:+ ".py") with "scripts/process_upload.py".
    destruct (succeeds env ["scripts/process_upload.py"]); cbn [negb andb].
    + rewrite run_bind, run_pipeline_script.
      change ("scripts/" +:+ "process_new_data" +:+ ".py")
        with "scripts/process_new_data.py".
      destruct (succeeds env ["scripts/process_new_data.py"]); cbn [negb].
      * eexists. split; [reflexivity|]. cbn. by rewrite <- !app_assoc.
      * rewrite run_bind, run_print_after. eexists. split; [reflexivity|]. cbn.
        by rewrite <- !app_assoc.
    + rewrite run_bind, run_print_after. eexists. split; [reflexivity|]. cbn.
      by rewrite <- !app_assoc.
Qed.

Lemma watcher_runs_scripts_in_order_witness :
  (∃ w',
     Watcher.check_for_new_data env0 (upload batch3 world0)
     = (inr (succeeds env0 ["scripts/process_upload.py"]
             && succeeds env0 ["scripts/process_new_data.py"]), w')
     ∧ spawned w'
       = spawned (upload batch3 world0)
         ++ ["scripts/process_upload.py"]
            :: (if succeeds env0 ["scripts/process_upload.py"]
                then [["scripts/process_new_data.py"]] else [])
     ∧ files w' = files (upload batch3 world0))
  ∧ (∃ w',
       Watcher.check_for_new_data env_failing (upload batch3 world0)
       = (inr (succeeds env_failing ["scripts/process_upload.py"]
               && succeeds env_failing ["scripts/process_new_data.py"]), w')
       ∧ spawned w'
         = spawned (upload batch3 world0)
           ++ ["scripts/process_upload.py"]
              :: (if succeeds env_failing ["scripts/process_upload.py"]
                  then [["scripts/process_new_data.py"]] else [])
       ∧ files w' = files (upload batch3 world0)).
Proof.
  split.
  - apply (proj2 (watcher_runs_scripts_in_order env0 (upload batch3 world0))). reflexivity.
  - apply (proj2 (watcher_runs_scripts_in_order env_failing (upload batch3 world0))).
    reflexivity.
Defined.

End LoopFacts.


(** ** Preprocessing and rejected uploads *)

Module UploadFacts.
Import Frame Sys Merger Scheduler Ingestor Spec FrameFacts Footprint IngestorFacts.
Import SchedulerFacts CounterFacts Examples.
Import CapFacts.


Lemma frame_eq (a b : DataFrame) : columns a = columns b → rows a = rows b → a = b.
Proof. destruct a, b. cbn. by intros -> ->. Qed.

Section Mean.
Variable mean : list Z → Z.

Lemma rows_preprocess df :
  rows (preprocess_dataframe mean df)
  = (λ r : gmap string cell,
       map_imap (λ c v, Some (if decide (c ∈ filled_columns df)
                              then fillna_mean mean df c v else v)) r) <$> rows df.
Proof. done. Qed.

Lemma lookup_preprocess_row (cols : list string) (f : string → cell → cell)
    (r : gmap string cell) c :
  map_imap (λ c v, Some (if decide (c ∈ cols) then f c v else v)) r !! c
  = if decide (c ∈ cols) then f c <$> r !! c else r !! c.
Proof. rewrite map_lookup_imap. destruct (r !! c); cbn; by case_decide. Qed.

Lemma column_cells_preprocess_filled df c :
  c ∈ filled_columns df →
  column_cells (preprocess_dataframe mean df) c
  = fillna_mean mean df c <$> column_cells df c.
Proof.
  intros Hc. unfold column_cells. rewrite rows_preprocess.
  induction (rows df) as [|r rs IH]; [done|].
  cbn [fmap list_fmap omap list_omap].
  rewrite lookup_preprocess_row. rewrite decide_True by done.
  destruct (r !! c); cbn; by rewrite IH.
Qed.

Lemma column_cells_preprocess_other df c :
  c ∉ filled_columns df →
  column_cells (preprocess_dataframe mean df) c = column_cells df c.
Proof.
  intros Hc. unfold column_cells. rewrite rows_preprocess.
  induction (rows df) as [|r rs IH]; [done|].
  cbn [fmap list_fmap omap list_omap].
  rewrite lookup_preprocess_row. rewrite decide_False by done.
  destruct (r !! c); cbn; by rewrite IH.
Qed.

Lemma fillna_no_number df c :
  nums (column_cells df c) = [] → ∀ v, fillna_mean mean df c v = v.
Proof. intros Hn v. unfold fillna_mean. rewrite Hn. by destruct v. Qed.

Lemma fillna_not_missing df c v : v ≠ NaN → fillna_mean mean df c v = v.
Proof. intros Hv. unfold fillna_mean. by destruct v. Qed.

Lemma fillna_idempotent df c v :
  fillna_mean mean (preprocess_dataframe mean df) c (fillna_mean mean df c v)
  = fillna_mean mean df c v.
Proof.
  destruct (nums (column_cells df c)) as [|z zs] eqn:Hn.
  - rewrite (fillna_no_number df c Hn). apply fillna_no_number.
    destruct (decide (c ∈ filled_columns df)).
    + rewrite column_cells_preprocess_filled by done.
      erewrite list_fmap_ext; [by rewrite list_fmap_id|].
      intros i x _. by apply fillna_no_number.
    + by rewrite column_cells_preprocess_other.
  - destruct v; try (by rewrite !fillna_not_missing).
    assert (fillna_mean mean df c NaN = Num (mean (z :: zs))) as ->
      by (unfold fillna_mean; by rewrite Hn).
    by apply fillna_not_missing.
Qed.

(** [preprocess_dataframe] (lines 11-24) keeps the columns and the rows.
    In a numeric column that is not protected and has a number, no value is
    missing afterwards; a cell that is not missing is never changed; and
    preprocessing a second time changes nothing. *)
Theorem preprocess_fills_once (df : DataFrame) :
  columns (preprocess_dataframe mean df) = columns df
  ∧ len (preprocess_dataframe mean df) = len df
  ∧ (∀ c, c ∈ filled_columns df → nums (column_cells df c) ≠ [] →
          NaN ∉ column_cells (preprocess_dataframe mean df) c)
  ∧ Forall2 (λ u p : gmap string cell, ∀ c v, u !! c = Some v → v ≠ NaN → p !! c = Some v)
            (rows df) (rows (preprocess_dataframe mean df))
  ∧ preprocess_dataframe mean (preprocess_dataframe mean df) = preprocess_dataframe mean df.
Proof.
  split; [done|]. split; [apply len_preprocess|]. split; [|split].
  - intros c Hc Hn. rewrite column_cells_preprocess_filled by done.
    intros (v & Hv & _)%list_elem_of_fmap. unfold fillna_mean in Hv.
    destruct (nums (column_cells df c)); [done|]. by destruct v.
  - rewrite rows_preprocess. apply Forall2_fmap_r, Forall_Forall2_diag, Forall_forall.
    intros u _ c v Hu Hv. rewrite lookup_preprocess_row, Hu.
    case_decide; [|done]. cbn. by rewrite fillna_not_missing.
  - apply frame_eq; [done|].
    rewrite (rows_preprocess (preprocess_dataframe mean df)).
    change (filled_columns (preprocess_dataframe mean df)) with (filled_columns df).
    rewrite rows_preprocess, <- list_fmap_compose.
    apply list_fmap_ext. intros i r _. cbn. apply map_eq. intros c.
    rewrite !lookup_preprocess_row. case_decide; [|done].
    destruct (r !! c) as [v|]; [cbn|done]. by rewrite fillna_idempotent.
Qed.

End Mean.

Lemma preprocess_fills_once_witness :
  NaN ∉ column_cells (preprocess_dataframe mean_floor batch3) "Day_1".
Proof.
  apply (proj1 (proj2 (proj2 (preprocess_fills_once mean_floor batch3))) "Day_1").
  - refine (bool_decide_unpack _ _). by vm_compute.
  - by vm_compute.
Defined.

(** [process_user_uploads] gives up without changing a file or starting a
    subprocess: it returns nothing when the uploads file is absent or of
    size zero, and 0 when the file cannot be parsed, holds no row, when the
    authoritative dataset cannot be written, or when that dataset has an
    identifier column that holds missing values only. *)
Theorem uploads_rejected_without_change (mean : list Z → Z) (env : Env) (w : World) :
  (holds_data (files w) UPLOADS = false →
   process_user_uploads mean env w = (inr None, after w ["No new uploads to process."] []))
  ∧ (files w !! UPLOADS = Some Garbled →
     ∃ w', process_user_uploads mean env w = (inr (Some 0%nat), w')
           ∧ files w' = files w ∧ spawned w' = spawned w)
  ∧ (∀ batch, files w !! UPLOADS = Some (Csv batch) → empty batch = true →
       ∃ w', process_user_uploads mean env w = (inr (Some 0%nat), w')
             ∧ files w' = files w ∧ spawned w' = spawned w)
  ∧ (∀ batch, files w !! UPLOADS = Some (Csv batch) → empty batch = false →
       wf batch → main_ready w → path_str MAIN_DATASET ∈ readonly w →
       ∃ w', process_user_uploads mean env w = (inr (Some 0%nat), w')
             ∧ files w' = files w ∧ spawned w' = spawned w)
  ∧ (∀ batch m, files w !! UPLOADS = Some (Csv batch) → empty batch = false →
       files w !! path_str MAIN_DATASET = Some (Csv m) → "userid" ∈ names m →
       existsb (λ v, is_str (Some v)) (column_cells m "userid") = false →
       nums (column_cells m "userid") = [] →
       ∃ w', process_user_uploads mean env w = (inr (Some 0%nat), w')
             ∧ files w' = files w ∧ spawned w' = spawned w
             ∧ stdout w' = stdout w ++ ["Error processing uploads: ValueError"]).
Proof.
  assert (Hcaught : ∀ e w1, files w1 = files w → spawned w1 = spawned w →
            ingest mean env w = (inl e, w1) → is_Some (files w !! UPLOADS) →
            holds_data (files w) UPLOADS = true →
            ∃ w', process_user_uploads mean env w = (inr (Some 0%nat), w')
                  ∧ files w' = files w ∧ spawned w' = spawned w
                  ∧ stdout w' = stdout w1 ++ ["Error processing uploads: " +:+ exn_name e]).
  { intros e w1 Hf Hs Hi _ Hd. unfold process_user_uploads. rewrite run_bind.
    unfold has_data at 1. unfold holds_data in Hd. rewrite Hd. cbn [negb].
    unfold try_except. rewrite Hi. rewrite run_bind, run_print.
    eexists. split; [reflexivity|]. by cbn. }
  split; [|split; [|split; [|split]]].
  - intros Hd. unfold process_user_uploads. rewrite run_bind. unfold has_data at 1.
    unfold holds_data in Hd. rewrite Hd. cbn [negb]. by rewrite run_bind, run_print_after.
  - intros Hg. destruct (Hcaught (ParserError UPLOADS) w) as (w' & H1 & H2 & H3 & _);
      try done; [| |by exists w'].
    + unfold ingest. rewrite run_bind. unfold read_csv. by rewrite Hg.
    + unfold holds_data. by rewrite Hg.
  - intros batch Hb He. unfold process_user_uploads. rewrite run_bind.
    unfold has_data at 1. rewrite Hb. cbn [negb]. unfold try_except, ingest.
    rewrite run_bind. unfold read_csv at 1. rewrite Hb, He.
    rewrite run_bind, run_print. eexists. split; [reflexivity|]. by cbn.
  - intros batch Hb He Hwf Hready Hro.
    destruct (assign_userids_spec batch w Hwf Hready) as (U & C & Hassign & HwU & HuU & _).
    destruct (userid_first_spec U w HwU HuU) as (U' & Hfirst & _).
    edestruct (Hcaught (PermissionError (path_str MAIN_DATASET))) as (w' & H1 & H2 & H3 & _);
      [| | |done| |by exists w'].
    3:{ unfold ingest. rewrite run_bind. unfold read_csv at 1. rewrite Hb, He.
        rewrite run_bind, Hassign. cbn beta iota. rewrite run_bind, Hfirst.
        rewrite run_bind. unfold try_except at 1. rewrite run_bind.
        unfold to_csv at 1, write_file at 1. rewrite decide_True by done.
        rewrite run_bind, run_print. unfold raise. reflexivity. }
    + done.
    + done.
    + unfold holds_data. by rewrite Hb.
  - intros batch m Hb He Hm Hu Hstr Hn.
    set (main' := if decide ("Unnamed: 0" ∈ names m) then drop_column m "Unnamed: 0" else m).
    assert (Hu' : "userid" ∈ names main').
    { unfold main'. case_decide; [|done]. rewrite names_drop_column.
      apply list_elem_of_filter. by split. }
    assert (Hcells : column_cells main' "userid" = column_cells m "userid").
    { unfold main'. case_decide; [|done]. by apply column_cells_drop_other. }
    assert (ingest mean env w = (inl ValueError, w)) as Hi.
    { unfold ingest. rewrite run_bind. unfold read_csv at 1. rewrite Hb, He.
      rewrite run_bind. unfold assign_userids. rewrite run_bind. unfold has_data at 1.
      rewrite Hm. rewrite run_bind. unfold read_csv at 1. rewrite Hm.
      cbn zeta. fold main'. rewrite run_bind. rewrite (decide_True _ _ Hu').
      unfold int_max. rewrite Hcells, Hstr, Hn. by unfold raise. }
    apply (Hcaught ValueError w); try done. unfold holds_data. by rewrite Hb.
Qed.

Lemma uploads_rejected_without_change_witness :
  (∃ w', process_user_uploads mean_floor env0 world_uploads_garbled = (inr (Some 0%nat), w')
         ∧ files w' = files world_uploads_garbled
         ∧ spawned w' = spawned world_uploads_garbled)
  ∧ (∃ w', process_user_uploads mean_floor env0 (upload batch_no_rows world0)
           = (inr (Some 0%nat), w')
           ∧ files w' = files (upload batch_no_rows world0)
           ∧ spawned w' = spawned (upload batch_no_rows world0))
  ∧ (∃ w', process_user_uploads mean_floor env0 world_main_locked = (inr (Some 0%nat), w')
           ∧ files w' = files world_main_locked
           ∧ spawned w' = spawned world_main_locked)
  ∧ (∃ w', process_user_uploads mean_floor env0 world_main_unnumbered
           = (inr (Some 0%nat), w')
           ∧ files w' = files world_main_unnumbered
           ∧ spawned w' = spawned world_main_unnumbered
           ∧ stdout w'
             = stdout world_main_unnumbered ++ ["Error processing uploads: ValueError"]).
Proof.
  split; [|split; [|split]].
  - apply (proj1 (proj2 (uploads_rejected_without_change mean_floor env0
                           world_uploads_garbled))).
    reflexivity.
  - apply (proj1 (proj2 (proj2 (uploads_rejected_without_change mean_floor env0
                                  (upload batch_no_rows world0)))) batch_no_rows);
      reflexivity.
  - apply (proj1 (proj2 (proj2 (proj2 (uploads_rejected_without_change mean_floor env0
                                         world_main_locked)))) batch3).
    + reflexivity.
    + reflexivity.
    + refine (bool_decide_unpack _ _). by vm_compute.
    + exact I.
    + cbn. set_solver.
  - apply (proj2 (proj2 (proj2 (proj2 (uploads_rejected_without_change mean_floor env0
                                         world_main_unnumbered)))) batch3 main_unnumbered).
    + reflexivity.
    + reflexivity.
    + reflexivity.
    + refine (bool_decide_unpack _ _). by vm_compute.
    + reflexivity.
    + reflexivity.
Defined.

End UploadFacts.


(** ** Recommendations *)

Module RecommendFacts.
Import Frame Sys Examples.

Import Recommend.

Lemma dedupe_take (deduped recs : list string) :
  NoDup (deduped ++ recs) → (length deduped < 5)%nat →
  dedupe deduped recs = take 5 (deduped ++ recs).
Proof.
  revert deduped. induction recs as [|r rest IH]; intros deduped Hnd Hlen.
  { cbn. rewrite app_nil_r. rewrite take_ge; [done|lia]. }
  cbn [dedupe]. destruct (decide (r ∈ deduped)) as [Hr|_].
  { apply NoDup_app in Hnd as (_ & Hd & _). destruct (Hd r Hr). by left. }
  case_decide as H5.
  - rewrite (assoc_L app deduped [r] rest : deduped ++ r :: rest = (deduped ++ [r]) ++ rest).
    rewrite take_app_le by lia. rewrite take_ge; [done|lia].
  - rewrite IH.
    + by rewrite <- (assoc_L app).
    + by rewrite <- (assoc_L app).
    + rewrite length_app in *. cbn in *. lia.
Qed.

Section Floats.
Context {float : Type} (of_Z : Z → float) (lit_0_2 lit_0_5 : float) (neg : float → float)
  (ltb leb : float → float → bool) (truthy notna : float → bool)
  (to_int : float → option Z).

Lemma rules_shape (row : gmap string float) (is_churned total_days_active : Z) :
  let recs := rules float of_Z lit_0_2 lit_0_5 neg ltb leb truthy notna row
                is_churned total_days_active in
  NoDup recs ∧ last recs = Some DISCOVERY ∧ (1 ≤ length recs ≤ 7)%nat
  ∧ ¬ (APOLOGIZE ∈ recs ∧ ASK_FEEDBACK ∈ recs)
  ∧ (DISCOVERY ∈ take 5 recs ↔ (length recs ≤ 5)%nat).
Proof.
  cbn zeta. unfold rules. cbn zeta.
  destruct (row !! "compound_score") as [s|]; [destruct (notna s)|].
  all: repeat match goal with
       | |- context [if ?b then _ else _] => destruct b
       end.
  all: refine (bool_decide_unpack _ _); by vm_compute.
Qed.

(** [build_recommendations] (lines 42-90) returns the first five of the
    recommendations of the rules that fire followed by the discovery prompt:
    between one and five recommendations, none twice.  The discovery prompt
    is among them exactly when fewer than five rules fired, so with five
    rules or more it is dropped.  The function raises [ValueError] when
    [is_churned] or [total_days_active] is no number. *)
Theorem recommendations_capped_at_five (row : gmap string float) (w : World) :
  (∀ is_churned total_days_active,
     to_int (get_or_zero float of_Z truthy row "is_churned") = Some is_churned →
     to_int (get_or_zero float of_Z truthy row "total_days_active")
     = Some total_days_active →
     let recs := rules float of_Z lit_0_2 lit_0_5 neg ltb leb truthy notna row
                   is_churned total_days_active in
     build_recommendations float of_Z lit_0_2 lit_0_5 neg ltb leb truthy notna to_int row w
     = (inr (take 5 recs), w)
     ∧ NoDup (take 5 recs) ∧ (1 ≤ length (take 5 recs) ≤ 5)%nat
     ∧ last recs = Some DISCOVERY
     ∧ (DISCOVERY ∈ take 5 recs ↔ (length recs ≤ 5)%nat))
  ∧ (to_int (get_or_zero float of_Z truthy row "is_churned") = None
     ∨ to_int (get_or_zero float of_Z truthy row "total_days_active") = None →
     build_recommendations float of_Z lit_0_2 lit_0_5 neg ltb leb truthy notna to_int row w
     = (inl ValueError, w)).
Proof.
  split.
  - intros ic td Hic Htd. cbn zeta.
    destruct (rules_shape row ic td) as (Hnd & Hlast & Hlen & _ & Hdisc).
    cbn zeta in *. split; [|split; [|split; [|split]]].
    + unfold build_recommendations, get_int. rewrite Hic.
      rewrite IngestorFacts.run_bind. unfold mret at 1, M_ret at 1.
      rewrite Htd. rewrite IngestorFacts.run_bind. unfold mret at 1, M_ret at 1.
      rewrite dedupe_take; [done|done|cbn; lia].
    + eapply sublist_NoDup; [exact Hnd|]. apply sublist_take.
    + rewrite length_take. lia.
    + done.
    + done.
  - intros Hnone. unfold build_recommendations, get_int.
    destruct (to_int (get_or_zero float of_Z truthy row "is_churned")); [|done].
    destruct Hnone as [?|Hnone]; [done|]. rewrite IngestorFacts.run_bind.
    unfold mret at 1, M_ret at 1. by rewrite Hnone.
Qed.

End Floats.

Lemma recommendations_capped_at_five_witness :
  let row : gmap string Z :=
    {[ "is_churned" := 1; "drop_in_usage" := 55; "Average Screen Time" := 300;
       "Ratings" := 1; "Last Visited Minutes" := 20000; "compound_score" := (-1) ]}%Z in
  let recs := rules Z id 0%Z 0%Z Z.opp Z.ltb Z.leb (λ x, negb (x =? 0)%Z) (λ _, true) row 1 0 in
  build_recommendations Z id 0%Z 0%Z Z.opp Z.ltb Z.leb (λ x, negb (x =? 0)%Z) (λ _, true)
    Some row world0
  = (inr (take 5 recs), world0)
  ∧ NoDup (take 5 recs) ∧ (1 ≤ length (take 5 recs) ≤ 5)%nat
  ∧ last recs = Some DISCOVERY
  ∧ (DISCOVERY ∈ take 5 recs ↔ (length recs ≤ 5)%nat).
Proof.
  apply (proj1 (recommendations_capped_at_five id 0%Z 0%Z Z.opp Z.ltb Z.leb
                  (λ x, negb (x =? 0)%Z) (λ _, true) Some
                  {[ "is_churned" := 1; "drop_in_usage" := 55; "Average Screen Time" := 300;
                     "Ratings" := 1; "Last Visited Minutes" := 20000;
                     "compound_score" := (-1) ]}%Z world0) 1%Z 0%Z).
  - reflexivity.
  - reflexivity.
Defined.

End RecommendFacts.


(** ** Reindexing: what a run cannot lose *)

Module SafetyFacts.
Import Frame Sys Merger Scheduler Ingestor Spec FrameFacts Footprint IngestorFacts Examples.
Import Reindex ReindexFacts.

Lemma string_app_assoc (s t u : string) : (s +:+ t) +:+ u = s +:+ (t +:+ u).
Proof.
  induction s as [|a s IH]; [done|].
  change (String a ((s +:+ t) +:+ u) = String a (s +:+ (t +:+ u))). by rewrite IH.
Qed.

Lemma under_tmp dir name : under dir (in_dir dir name +:+ ".tmp").
Proof. exists (name +:+ ".tmp"). unfold in_dir. by rewrite !string_app_assoc. Qed.

Lemma apply_op_frame fs o q : q ∉ op_paths o → apply_op fs o !! q = fs !! q.
Proof.
  destruct o as [p c|src dst|p]; cbn; intros Hq.
  - apply lookup_insert_ne. set_solver.
  - destruct (fs !! src); [|done].
    rewrite lookup_insert_ne by set_solver. apply lookup_delete_ne. set_solver.
  - apply lookup_delete_ne. set_solver.
Qed.

Lemma apply_ops_frame ops fs q :
  (∀ o, o ∈ ops → q ∉ op_paths o) → apply_ops fs ops !! q = fs !! q.
Proof.
  revert fs. induction ops as [|o ops IH]; intros fs Hq; [done|].
  cbn. unfold apply_ops in IH. rewrite IH by (intros o' Ho'; apply Hq; by right).
  apply apply_op_frame, Hq. by left.
Qed.

Lemma loop_ops_paths (body : gmap string content → string → list op) (P : string → Prop)
    listing fs :
  (∀ fs name o q, o ∈ body fs name → q ∈ op_paths o → P q) →
  ∀ o q, o ∈ loop_ops body fs listing → q ∈ op_paths o → P q.
Proof.
  intros Hbody. revert fs. induction listing as [|name rest IH]; intros fs o q Ho Hq.
  { by apply elem_of_nil in Ho. }
  cbn in Ho. apply elem_of_app in Ho as [Ho|Ho]; [by eapply Hbody|by eapply IH].
Qed.

Section Paths.
Variable to_int : string → option Z.

Lemma explanation_ops_under dir id_map fs ro name o q :
  o ∈ remap_explanation_ops to_int dir id_map fs ro name → q ∈ op_paths o → under dir q.
Proof.
  unfold remap_explanation_ops.
  destruct (fs !! in_dir dir name) as [[]|]; try (by intros ?%elem_of_nil).
  destruct (user_id_of to_int _ ≫= (id_map !!.)) as [new_id|];
    [|by intros ?%elem_of_nil].
  case_decide; [by intros ?%elem_of_nil|].
  assert (Hp : under dir (in_dir dir name)) by (by eexists).
  assert (Hnew : under dir (in_dir dir ("user_" +:+ pretty new_id +:+ ".json")))
    by (by eexists).
  pose proof (under_tmp dir name) as Htmp.
  intros Ho Hq. repeat case_decide; cbn in Ho;
    repeat (apply elem_of_cons in Ho as [->|Ho];
            [cbn in Hq; repeat (apply elem_of_cons in Hq as [->|Hq]; [done|]);
             by apply elem_of_nil in Hq|]);
    by apply elem_of_nil in Ho.
Qed.

Lemma chart_ops_under dir id_map fs name o q :
  o ∈ remap_chart_ops to_int dir id_map fs name → q ∈ op_paths o → under dir q.
Proof.
  unfold remap_chart_ops.
  destruct (fs !! in_dir dir name); [|by intros ?%elem_of_nil].
  destruct (chart_id to_int name ≫= (id_map !!.)) as [new_id|];
    [|by intros ?%elem_of_nil].
  assert (Hp : under dir (in_dir dir name)) by (by eexists).
  assert (Hnew : under dir (in_dir dir ("user_" +:+ pretty new_id +:+ ".png")))
    by (by eexists).
  intros Ho Hq. repeat case_decide; cbn in Ho;
    repeat (apply elem_of_cons in Ho as [->|Ho];
            [cbn in Hq; repeat (apply elem_of_cons in Hq as [->|Hq]; [done|]);
             by apply elem_of_nil in Hq|]);
    by apply elem_of_nil in Ho.
Qed.

Lemma within_remap_explanations dir id_map listing :
  writes_within (under dir) (remap_explanations to_int dir id_map listing).
Proof.
  intros w. split; [|done]. intros p Hp. cbn. apply apply_ops_frame.
  intros o Ho Hq. apply Hp. unfold remap_explanations_ops in Ho.
  eapply (loop_ops_paths _ (under dir)); [|exact Ho|exact Hq].
  intros fs name o' q. apply explanation_ops_under.
Qed.

Lemma within_remap_charts dir id_map listing :
  writes_within (under dir) (remap_charts to_int dir id_map listing).
Proof.
  intros w. split; [|done]. intros p Hp. cbn. apply apply_ops_frame.
  intros o Ho Hq. apply Hp. unfold remap_charts_ops in Ho.
  eapply (loop_ops_paths _ (under dir)); [|exact Ho|exact Hq].
  intros fs name o' q. apply chart_ops_under.
Qed.

Lemma within_build_id_map S : writes_within S (build_id_map to_int).
Proof.
  intros w. unfold build_id_map.
  destruct (files w !! _) as [[]|]; try done. by case_decide.
Qed.

Lemma within_remap_csvs listing id_map :
  writes_within (λ p, ∃ name, name ∈ listing ∧ p = in_dir DATASET_DIR name)
    (remap_csvs to_int listing id_map).
Proof.
  induction listing as [|name rest IH]; [apply within_ret|].
  cbn [remap_csvs]. apply within_bind.
  - unfold remap_csv. apply within_bind; [apply within_has_data|].
    intros ok. destruct ok; cbn [negb]; [|apply within_ret].
    apply within_bind; [apply within_read_csv|].
    intros df. apply within_write_file. exists name. split; [by left|done].
  - intros _. eapply within_weaken; [|exact IH].
    intros p (n & Hn & ->). exists n. split; [by right|done].
Qed.

End Paths.

Lemma within_backup dir listing root :
  writes_within (λ p, ∃ name, name ∈ listing ∧ p = in_dir root name)
    (backup_paths dir listing root).
Proof.
  induction listing as [|name rest IH]; [apply within_ret|].
  cbn [backup_paths]. apply within_bind.
  - intros w. cbn beta. destruct (files w !! in_dir dir name); [|done].
    apply within_write_file. exists name. split; [by left|done].
  - intros _. eapply within_weaken; [|exact IH].
    intros p (n & Hn & ->). exists n. split; [by right|done].
Qed.

(** A backup that returns has copied every listed file that existed. *)
Lemma backup_paths_copy dir root listing w w' name c :
  backup_paths dir listing root w = (inr tt, w') →
  name ∈ listing →
  (∀ n, n ∈ listing → in_dir dir name ≠ in_dir root n) →
  files w !! in_dir dir name = Some c →
  files w' !! in_dir root name = Some c.
Proof.
  revert w. induction listing as [|n0 rest IH]; intros w Hrun Hn Hsep Hc.
  { by apply elem_of_nil in Hn. }
  cbn [backup_paths] in Hrun. rewrite run_bind in Hrun.
  assert (Hrest : ∀ w1,
    backup_paths dir rest root w1 = (inr tt, w') →
    files w1 !! in_dir dir name = Some c →
    (n0 = name → files w1 !! in_dir root name = Some c) →
    files w' !! in_dir root name = Some c).
  { intros w1 Hrun1 Hc1 Hhead. destruct (decide (name ∈ rest)) as [Hr|Hr].
    - apply (IH w1); [done|done| |done]. intros n ?. apply Hsep. by right.
    - apply elem_of_cons in Hn as [->|?]; [|done].
      destruct (backup_paths_footprint dir rest root w1 (in_dir root n0)) as [Hf _].
      { intros n ? Heq%(inj (in_dir root)). by subst n. }
      rewrite Hrun1 in Hf. cbn in Hf. rewrite Hf. by apply Hhead. }
  destruct (files w !! in_dir dir n0) as [c0|] eqn:Hc0.
  - unfold write_file in Hrun. case_decide; [done|].
    apply (Hrest _ Hrun); cbn.
    + rewrite lookup_insert_ne; [done|]. intros Heq. by apply (Hsep n0); [left|].
    + intros ->. rewrite lookup_insert_eq. congruence.
  - apply (Hrest _ Hrun); [done|]. intros ->. congruence.
Qed.

(** A step that leaves [src] alone keeps the content there, also when it
    raises. *)
Lemma bind_kept {A B} (S : string → Prop) (m : M A) (k : A → M B)
    (src dst : string) (c : content) (w : World) :
  writes_within S m → ¬ S src →
  files w !! src = Some c →
  (∀ a w1, files w1 !! src = Some c → kept_or_copied src dst c (k a w1).2) →
  kept_or_copied src dst c ((m ≫= k) w).2.
Proof.
  intros Hm Hsrc Hc Hk. rewrite run_bind. destruct (Hm w) as [Hf _].
  specialize (Hf src Hsrc). destruct (m w) as [[e|a] w1]; cbn in Hf.
  - left. cbn. congruence.
  - apply Hk. congruence.
Qed.

(** A backup followed by steps that leave the copy alone. *)
Lemma backup_kept {B} (S : string → Prop) (dir root : string) (listing : list string)
    (rest : M B) (name : string) (c : content) (w : World) :
  name ∈ listing →
  (∀ n, n ∈ listing → in_dir dir name ≠ in_dir root n) →
  writes_within S rest → ¬ S (in_dir root name) →
  files w !! in_dir dir name = Some c →
  kept_or_copied (in_dir dir name) (in_dir root name) c
    ((backup_paths dir listing root ;; rest) w).2.
Proof.
  intros Hn Hsep Hrest Hroot Hc. rewrite run_bind.
  destruct (backup_paths dir listing root w) as [[e|[]] w1] eqn:Hrun.
  - left. cbn.
    destruct (backup_paths_footprint dir listing root w (in_dir dir name)) as [Hf _].
    { intros n ?. by apply Hsep. }
    rewrite Hrun in Hf. cbn in Hf. congruence.
  - right. destruct (Hrest w1) as [Hf _]. rewrite (Hf _ Hroot).
    by eapply backup_paths_copy.
Qed.

(** [main] (lines 117-136) loses no file it was to back up: whether it
    returns or raises, the content that a dataset file, a listed
    explanation or a listed chart had before the run is afterwards still
    at its path or in the backup directory of the run.  The two listings
    of the output backups share no name. *)
Theorem reindex_keeps_originals (to_int : string → option Z) (ts : string)
    (ls : Listings) (w : World) :
  (∀ n, n ∈ jsons ls → n ∉ pngs ls) →
  let w' := (main to_int ts ls w).2 in
  (∀ name c, name ∈ DATASET_FILES →
     files w !! in_dir DATASET_DIR name = Some c →
     kept_or_copied (in_dir DATASET_DIR name)
       (in_dir ("datasets/backups/reindex_" +:+ ts) name) c w')
  ∧ (∀ name c, name ∈ jsons ls →
       files w !! in_dir EXPLAIN_DIR name = Some c →
       kept_or_copied (in_dir EXPLAIN_DIR name)
         (in_dir ("outputs/backups/reindex_" +:+ ts) name) c w')
  ∧ (∀ name c, name ∈ pngs ls →
       files w !! in_dir CHART_DIR name = Some c →
       kept_or_copied (in_dir CHART_DIR name)
         (in_dir ("outputs/backups/reindex_" +:+ ts) name) c w').
Proof.
  intros Hdisj w'. subst w'. unfold main.
  set (b := "datasets/backups/reindex_" +:+ ts).
  set (ob := "outputs/backups/reindex_" +:+ ts).
  assert (Htail : ∀ id_map,
    writes_within (λ p, under EXPLAIN_DIR p ∨ under CHART_DIR p)
      (remap_explanations to_int EXPLAIN_DIR id_map (user_jsons ls);;
       remap_charts to_int CHART_DIR id_map (user_pngs ls);;
       print ("[OK] Reindexed " +:+ pretty (size id_map) +:+ " users starting at "
              +:+ pretty START_ID);;
       print ("[OK] Backups saved to " +:+ b +:+ " and " +:+ ob))).
  { intros id_map. apply within_bind.
    { eapply within_weaken; [|apply within_remap_explanations]. by left. }
    intros _. apply within_bind.
    { eapply within_weaken; [|apply within_remap_charts]. by right. }
    intros _. apply within_bind; [apply within_print|]. intros _. apply within_print. }
  assert (Hpngs : ∀ id_map,
    writes_within (λ p, (∃ n, n ∈ pngs ls ∧ p = in_dir ob n)
                        ∨ under EXPLAIN_DIR p ∨ under CHART_DIR p)
      (backup_paths CHART_DIR (pngs ls) ob;;
       remap_explanations to_int EXPLAIN_DIR id_map (user_jsons ls);;
       remap_charts to_int CHART_DIR id_map (user_pngs ls);;
       print ("[OK] Reindexed " +:+ pretty (size id_map) +:+ " users starting at "
              +:+ pretty START_ID);;
       print ("[OK] Backups saved to " +:+ b +:+ " and " +:+ ob))).
  { intros id_map. apply within_bind.
    { eapply within_weaken; [|apply within_backup]. by left. }
    intros _. eapply within_weaken; [|apply Htail]. by right. }
  split; [|split]; intros name c Hn Hc.
  - apply (backup_kept (λ p, (∃ n, n ∈ DATASET_FILES ∧ p = in_dir DATASET_DIR n)
                             ∨ under ob p ∨ under EXPLAIN_DIR p ∨ under CHART_DIR p));
      [done| | | |done].
    + intros n _ Heq. unfold DATASET_FILES in Hn.
      repeat (apply elem_of_cons in Hn as [->|Hn]; [discriminate Heq|]).
      by apply elem_of_nil in Hn.
    + apply within_bind; [apply within_build_id_map|]. intros id_map.
      apply within_bind.
      { eapply within_weaken; [|apply within_remap_csvs]. by left. }
      intros _. apply within_bind.
      { eapply within_weaken; [|apply within_backup].
        intros p (n & _ & ->). right. left. by exists n. }
      intros _. eapply within_weaken; [|apply Hpngs].
      intros p [(n & _ & ->)|H]; right; [left; by exists n|by right].
    + intros [(n & Hn' & H)|[[x H]|[[x H]|[x H]]]]; [|discriminate H..].
      unfold DATASET_FILES in Hn'.
      repeat (apply elem_of_cons in Hn' as [->|Hn']; [discriminate H|]).
      by apply elem_of_nil in Hn'.
  - apply (bind_kept (under b)); [| |done|].
    { eapply within_weaken; [|apply within_backup]. intros p (n & _ & ->). by exists n. }
    { intros [x H]. discriminate H. }
    intros [] w1 Hc1.
    apply (bind_kept (λ _, False)); [apply within_build_id_map|tauto|done|].
    intros id_map w2 Hc2.
    apply (bind_kept (λ p, ∃ n, n ∈ DATASET_FILES ∧ p = in_dir DATASET_DIR n));
      [apply within_remap_csvs| |done|].
    { intros (n & _ & H). discriminate H. }
    intros [] w3 Hc3.
    apply (backup_kept (λ p, (∃ n, n ∈ pngs ls ∧ p = in_dir ob n)
                             ∨ under EXPLAIN_DIR p ∨ under CHART_DIR p));
      [done| |apply Hpngs| |done].
    + intros n _ Heq. discriminate Heq.
    + intros [(n & Hn' & H)|[[x H]|[x H]]]; [|discriminate H..].
      apply (inj (in_dir ob)) in H as ->. by eapply Hdisj.
  - apply (bind_kept (under b)); [| |done|].
    { eapply within_weaken; [|apply within_backup]. intros p (n & _ & ->). by exists n. }
    { intros [x H]. discriminate H. }
    intros [] w1 Hc1.
    apply (bind_kept (λ _, False)); [apply within_build_id_map|tauto|done|].
    intros id_map w2 Hc2.
    apply (bind_kept (λ p, ∃ n, n ∈ DATASET_FILES ∧ p = in_dir DATASET_DIR n));
      [apply within_remap_csvs| |done|].
    { intros (n & _ & H). discriminate H. }
    intros [] w3 Hc3.
    apply (bind_kept (under ob)); [| |done|].
    { eapply within_weaken; [|apply within_backup]. intros p (n & _ & ->). by exists n. }
    { intros [x H]. discriminate H. }
    intros [] w4 Hc4.
    apply (backup_kept (λ p, under EXPLAIN_DIR p ∨ under CHART_DIR p));
      [done| |apply Htail| |done].
    + intros n _ Heq. discriminate Heq.
    + intros [[x H]|[x H]]; discriminate H.
Qed.

Lemma reindex_keeps_originals_witness :
  let w' := (main (λ _, None) "20231114_221320" listings_outputs world_outputs).2 in
  (∀ name c, name ∈ DATASET_FILES →
     files world_outputs !! in_dir DATASET_DIR name = Some c →
     kept_or_copied (in_dir DATASET_DIR name)
       (in_dir ("datasets/backups/reindex_" +:+ "20231114_221320") name) c w')
  ∧ (∀ name c, name ∈ jsons listings_outputs →
       files world_outputs !! in_dir EXPLAIN_DIR name = Some c →
       kept_or_copied (in_dir EXPLAIN_DIR name)
         (in_dir ("outputs/backups/reindex_" +:+ "20231114_221320") name) c w')
  ∧ (∀ name c, name ∈ pngs listings_outputs →
       files world_outputs !! in_dir CHART_DIR name = Some c →
       kept_or_copied (in_dir CHART_DIR name)
         (in_dir ("outputs/backups/reindex_" +:+ "20231114_221320") name) c w').
Proof.
  apply (reindex_keeps_originals (λ _, None) "20231114_221320" listings_outputs
           world_outputs).
  intros n Hn. cbn in *. set_solver.
Defined.

End SafetyFacts.
